(** * Gasless NFT minter: transaction lifecycle orchestrator

    A shallow embedding of the TypeScript services of the repository:

    - [Poller]: [CircleService.getTransactionStatus] and
      [CircleService.waitForTransaction]
      (backend/src/services/userService.ts, from line 187 on);
    - [Receipt]: [BlockchainService.getTokenIdFromTransaction]
      (src/unnamed/part_001);
    - [Ledger]: the in-memory [UserService]
      (backend/src/services/userService.ts, up to line 186);
    - [Circle]: the [CircleService] that the ETH-SEPOLIA mint calls
      (src/unnamed/part_003: [createWallet], [getWalletBalance],
      [executeGaslessTransaction]);
    - [Nft]: [NFTService] (src/unnamed/part_002: metadata upload,
      [mintNFT], receipt parsing, USDC check);
    - [Batch]: the POST /batch-mint handler (src/unnamed/part_006);
    - [LedgerOps]: the rest of [UserService] ([getUserById],
      [deleteUser], [getUserCount]);
    - [CircleOps]: [transferUSDC] and [getTransactionStatus] of the
      same [CircleService] (src/unnamed/part_003);
    - [ErrorHandler]: the error middleware
      (backend/src/middleware/errorHandler.ts);
    - [Pipeline]: [BlockchainService.mintNFT] (src/unnamed/part_001)
      with [estimateGasCost] and [createGaslessTransaction]
      (backend/src/services/userService.ts);
    - [Backend2]: the chain lookup of the second backend
      (backend2/src/services/nftService.ts, backend2/src/config/index.ts).

    JavaScript exceptions are values of [Outcome]; everything the code
    obtains from outside the process (HTTP answers, SDK answers, the clock,
    [Math.random], uuids) is read from an explicit environment, and every
    request sent to an outside service is appended to a trace. Logging is
    not modelled. *)

From Stdlib Require Import ZArith Ascii String List Lia DecimalString.
From stdpp Require Import gmap strings list.

Open Scope Z_scope.

(** ** JavaScript values shared by all services *)

Record JsError := mkError { err_name : string; err_message : string }.

(** The completion of an awaited call: a value, or a thrown error. *)
Inductive Outcome (A : Type) : Type :=
| Returned (a : A)
| Threw (e : JsError).
Arguments Returned {A} a.
Arguments Threw {A} e.

(** [new Error(msg)] *)
Definition newError (msg : string) : JsError := mkError "Error" msg.

(** [s.includes(sub)] *)
Fixpoint includes (s sub : string) : bool :=
  String.prefix sub s ||
  match s with
  | EmptyString => false
  | String _ s' => includes s' sub
  end.

(** [s.startsWith(p)] *)
Definition startsWith (s p : string) : bool := String.prefix p s.

(** [a || b] on a possibly undefined string: the empty string is falsy. *)
Definition orElse (a : option string) (b : string) : string :=
  match a with
  | Some s => if String.eqb s "" then b else s
  | None => b
  end.

(** [!a] on a possibly undefined string. *)
Definition falsy (a : option string) : bool :=
  match a with
  | Some s => String.eqb s ""
  | None => true
  end.

(** A possibly undefined string inside a template literal. *)
Definition interpolate (a : option string) : string :=
  match a with
  | Some s => s
  | None => "undefined"
  end.

(** [n.toString()] for an integral number, and for a bigint. *)
Definition Z_toString (z : Z) : string := NilZero.string_of_int (Z.to_int z).
Definition N_toString (n : N) : string := NilZero.string_of_uint (N.to_uint n).

(** [s.substring(from, to)] with [from <= to]. *)
Definition js_substring (from to : nat) (s : string) : string :=
  String.substring from (to - from) s.

(** ** The transaction poller *)

Module Poller.

(** The object [response.data.data] of GET /v1/w3s/transactions/{id}. *)
Record TxData := {
  td_state : string;
  td_txHash : option string;
  td_blockHash : option string;
  td_blockHeight : option Z;
  td_gasUsed : option string;
  td_gasPrice : option string;
  td_errorReason : option string }.

Record TransactionResponse := {
  success : bool;
  transactionId : string;
  state : string;
  txHash : option string;
  blockHash : option string;
  blockHeight : option Z;
  gasUsed : option string;
  gasPrice : option string;
  data : TxData }.

(** What [this.circleAPI.get] does: it resolves with a body (whose
    [data.data] may be missing), or rejects with an axios error, of
    which the code reads [error.response?.data?.message] and
    [error.message]. *)
Inductive HttpResult :=
| HttpOk (body : option TxData)
| HttpError (responseMessage : option string) (message : string).

Definition circleApiError (msg : string) : JsError :=
  mkError "CircleApiError" msg.

(** Reading [.state] of a missing [response.data.data]. *)
Definition missingBody : string :=
  "Cannot read properties of undefined (reading 'state')".

(** The object that [getTransactionStatus] returns for a body. *)
Definition statusOf (transactionId : string) (d : TxData) : TransactionResponse :=
  {| success := true;
     transactionId := transactionId;
     state := td_state d;
     txHash := td_txHash d;
     blockHash := td_blockHash d;
     blockHeight := td_blockHeight d;
     gasUsed := td_gasUsed d;
     gasPrice := td_gasPrice d;
     data := d |}.

Definition getTransactionStatus (transactionId : string) (r : HttpResult)
  : Outcome TransactionResponse :=
  let rethrow (responseMessage : option string) (message : string) :=
    Threw (circleApiError
      ("Get transaction status failed: " +:+ orElse responseMessage message)) in
  match r with
  | HttpOk (Some d) => Returned (statusOf transactionId d)
  | HttpOk None => rethrow None missingBody
  | HttpError responseMessage message => rethrow responseMessage message
  end.

(** One status query as the outside world answers it: the HTTP result,
    the time the query takes, and by how much the timer of the following
    sleep fires late (all in milliseconds). *)
Record PollEvent := {
  http : HttpResult;
  latency : N;
  drift : N }.

(** The provider: the answer to the k-th status query (from 0). *)
Definition Provider := nat -> PollEvent.

(** What one pass through the loop body decides. *)
Inductive Step :=
| Exit (r : Outcome TransactionResponse)
| Sleep.

Definition failedError (status : TransactionResponse) : JsError :=
  newError ("Transaction failed: " +:+
            orElse (td_errorReason (data status)) "Unknown error").

(** The [try] block up to its sleep: [Returned (Some status)] is the
    [return status], [Returned None] reaches the sleep, [Threw] is caught
    by the [catch] below. *)
Definition tryBlock (transactionId : string) (r : HttpResult)
  : Outcome (option TransactionResponse) :=
  match getTransactionStatus transactionId r with
  | Returned status =>
      if String.eqb (state status) "CONFIRMED" then Returned (Some status)
      else if String.eqb (state status) "FAILED" then Threw (failedError status)
      else Returned None
  | Threw e => Threw e
  end.

Definition pollOnce (transactionId : string) (r : HttpResult) : Step :=
  match tryBlock transactionId r with
  | Returned (Some status) => Exit (Returned status)
  | Returned None => Sleep
  | Threw error =>
      if includes (err_message error) "Transaction failed"
      then Exit (Threw error)
      else Sleep
  end.

(** [await new Promise(resolve => setTimeout(resolve, pollInterval))]:
    a timer never fires early. *)
Definition sleepTime (pollInterval : Z) (e : PollEvent) : Z :=
  Z.max 0 pollInterval + Z.of_N (drift e).

Definition timeoutError (transactionId : string) (maxWaitTime : Z) : JsError :=
  newError ("Transaction " +:+ transactionId +:+ " confirmation timeout after "
            +:+ Z_toString maxWaitTime +:+ "ms").

Inductive PollResult :=
| Done (r : Outcome TransactionResponse)
| OutOfFuel.

(** A finished call: its completion, the clock when it completed and the
    number of status queries it issued. *)
Record Run := {
  result : PollResult;
  finishedAt : Z;
  polls : nat }.

Section Loop.
Variable provider : Provider.
Variable transactionId : string.
Variables maxWaitTime pollInterval : Z.
Variable startTime : Z.

(** The [while] loop; [k] status queries were issued so far and [now]
    is [Date.now()]. *)
Fixpoint loop (fuel : nat) (k : nat) (now : Z) : Run :=
  match fuel with
  | O => {| result := OutOfFuel; finishedAt := now; polls := k |}
  | S fuel' =>
      if now - startTime <? maxWaitTime then
        let e := provider k in
        let answered := now + Z.of_N (latency e) in
        match pollOnce transactionId (http e) with
        | Exit r => {| result := Done r; finishedAt := answered; polls := S k |}
        | Sleep => loop fuel' (S k) (answered + sleepTime pollInterval e)
        end
      else
        {| result := Done (Threw (timeoutError transactionId maxWaitTime));
           finishedAt := now; polls := k |}
  end.

(** [Date.now()] at the loop test that precedes the k-th query, when
    all earlier passes went to sleep. *)
Fixpoint testedAt (k : nat) : Z :=
  match k with
  | O => startTime
  | S k' => testedAt k' + Z.of_N (latency (provider k'))
            + sleepTime pollInterval (provider k')
  end.

(** Every pass before the k-th went to sleep. *)
Definition sleptUntil (k : nat) : Prop :=
  forall i, (i < k)%nat -> pollOnce transactionId (http (provider i)) = Sleep.
End Loop.

Definition TRANSACTION_CONFIRMATION : Z := 120000.
Definition POLLING_INTERVAL : Z := 3000.

Definition waitForTransaction (fuel : nat) (provider : Provider)
    (transactionId : string) (maxWaitTime pollInterval : Z) (startTime : Z) : Run :=
  loop provider transactionId maxWaitTime pollInterval startTime fuel 0 startTime.

(** *** Example providers *)

Definition txData (st : string) : TxData :=
  {| td_state := st; td_txHash := Some "0xabc"; td_blockHash := None;
     td_blockHeight := None; td_gasUsed := Some "21000"; td_gasPrice := None;
     td_errorReason := None |}.

Definition answer (r : HttpResult) (lat : N) : PollEvent :=
  {| http := r; latency := lat; drift := 0 |}.

(** [Sent], [Sent], then [Confirmed]. *)
Definition sentSentConfirmed : Provider := fun k =>
  match k with
  | O | S O => answer (HttpOk (Some (txData "SENT"))) 0
  | _ => answer (HttpOk (Some (txData "CONFIRMED"))) 0
  end.

(** Always [Queued], each query taking [lat] ms. *)
Definition alwaysQueued (lat : N) : Provider := fun _ =>
  answer (HttpOk (Some (txData "QUEUED"))) lat.

Definition revertedData : TxData :=
  {| td_state := "FAILED"; td_txHash := None; td_blockHash := None;
     td_blockHeight := None; td_gasUsed := None; td_gasPrice := None;
     td_errorReason := Some "execution reverted" |}.

(** [Failed] with a reason on the first query. *)
Definition failsAtOnce : Provider := fun _ => answer (HttpOk (Some revertedData)) 0.

(** The status query throws on the 1st, 3rd, ... call and answers
    [Confirmed] on the 2nd, 4th, ... *)
Definition throwsOnOddCalls : Provider := fun k =>
  if Nat.even k
  then answer (HttpError None "Network Error") 0
  else answer (HttpOk (Some (txData "CONFIRMED"))) 0.

(** The status endpoint rejects the first query with an HTTP error whose
    body says "Transaction failed to load"; the second query would
    answer [Confirmed]. *)
Definition rejectsThenConfirms : Provider := fun k =>
  match k with
  | O => answer (HttpError (Some "Transaction failed to load")
                           "Request failed with status code 503") 0
  | _ => answer (HttpOk (Some (txData "CONFIRMED"))) 0
  end.

End Poller.

(** ** Receipts and decoded logs (ethers) *)

Module Ethers.

(** A raw log entry of a receipt. *)
Record Log := {
  log_address : string;
  log_topics : list string;
  log_data : string }.

Record Receipt := { logs : list Log }.

(** The [LogDescription] that [interface.parseLog] returns, with the
    event arguments the services read: [args.from] and [args.tokenId]
    (absent when the event has no argument of that name). *)
Record LogDescription := {
  name : string;
  args_from : option string;
  args_tokenId : option N }.

Definition ZeroAddress : string := "0x0000000000000000000000000000000000000000".

Definition typeError (msg : string) : JsError := mkError "TypeError" msg.

(** [parsed.args.tokenId.toString()] *)
Definition tokenIdToString (d : LogDescription) : Outcome string :=
  match args_tokenId d with
  | Some n => Returned (N_toString n)
  | None => Threw (typeError "Cannot read properties of undefined (reading 'toString')")
  end.

End Ethers.

(** ** The receipt parser of [BlockchainService] *)

Module Receipt.
Import Ethers.

Definition blockchainError (msg : string) : JsError :=
  mkError "BlockchainError" msg.

(** The service after construction: the networks that have an RPC
    provider, and the keys of [this.contracts]. *)
Record BlockchainService := {
  providers : gset string;
  contracts : gset string }.

(** The chain RPC and the log decoder of the contract interface. *)
Record Rpc := {
  getTransactionReceipt : string -> string -> Outcome (option Receipt);
  parseLog : Log -> Outcome (option LogDescription) }.

Definition getProvider (svc : BlockchainService) (network : string) : Outcome string :=
  if decide (network ∈ providers svc) then Returned network
  else Threw (blockchainError ("Provider not available for network: " +:+ network)).

Definition getNFTContract (svc : BlockchainService) (network : string) : Outcome string :=
  if decide ("NFT_" +:+ network ∈ contracts svc) then Returned network
  else Threw (blockchainError ("NFT contract not available for network: " +:+ network)).

(** [.map(log => { try { return parseLog(log) } catch { return null } })] *)
Definition decodeLog (rpc : Rpc) (log : Log) : option LogDescription :=
  match parseLog rpc log with
  | Returned d => d
  | Threw _ => None
  end.

(** [.filter(event => event && event.name === 'NFTMinted')] *)
Definition isMinted (event : option LogDescription) : bool :=
  match event with
  | Some d => String.eqb (name d) "NFTMinted"
  | None => false
  end.

Definition mintedEvents (rpc : Rpc) (receipt : Receipt) : list (option LogDescription) :=
  filter (fun event => isMinted event = true) (map (decodeLog rpc) (logs receipt)).

(** The [try] block of [getTokenIdFromTransaction]. *)
Definition extractTokenId (svc : BlockchainService) (rpc : Rpc)
    (txHash network : string) : Outcome string :=
  match getProvider svc network with
  | Threw e => Threw e
  | Returned provider =>
      match getTransactionReceipt rpc provider txHash with
      | Threw e => Threw e
      | Returned None => Threw (newError "Transaction receipt not found")
      | Returned (Some receipt) =>
          match getNFTContract svc network with
          | Threw e => Threw e
          | Returned _ =>
              match mintedEvents rpc receipt with
              | [] => Threw (newError "No NFTMinted events found in transaction")
              | Some d :: _ => tokenIdToString d
              | None :: _ => Threw (typeError "Cannot read properties of null (reading 'args')")
              end
          end
      end
  end.

Definition getTokenIdFromTransaction (svc : BlockchainService) (rpc : Rpc)
    (txHash network : string) : Outcome string :=
  match extractTokenId svc rpc txHash network with
  | Returned tokenId => Returned tokenId
  | Threw _ => Returned "pending"
  end.

(** *** Example receipts *)

Definition baseSepolia : BlockchainService :=
  {| providers := {["BASE-SEPOLIA"]}; contracts := {["NFT_BASE-SEPOLIA"]} |}.

Definition foreignLog : Log :=
  {| log_address := "0x1111"; log_topics := ["0xdead"]; log_data := "0x" |}.
Definition mintLog : Log :=
  {| log_address := "0x2222"; log_topics := ["0xmint"]; log_data := "0x2a" |}.

(** The receipt of "0xaa" has no logs, that of "0xbb" only logs that do
    not decode, that of "0xcc" such a log followed by the NFTMinted event
    of token 42; no other transaction has a receipt. *)
Definition exampleRpc : Rpc :=
  {| getTransactionReceipt := fun _ txHash =>
       if String.eqb txHash "0xaa" then Returned (Some {| logs := [] |})
       else if String.eqb txHash "0xbb" then Returned (Some {| logs := [foreignLog; foreignLog] |})
       else if String.eqb txHash "0xcc" then Returned (Some {| logs := [foreignLog; mintLog] |})
       else Returned None;
     parseLog := fun log =>
       if String.eqb (log_address log) "0x2222"
       then Returned (Some {| name := "NFTMinted"; args_from := None; args_tokenId := Some 42%N |})
       else Threw (newError "no matching event") |}.

End Receipt.

(** ** The world of the mint workflow *)

Module World.
Import Ethers.

Record NFTMetadata := {
  nft_name : string;
  nft_description : string;
  nft_image : string;
  nft_attributes : list (string * string);
  nft_external_url : option string }.

Record CircleWallet := {
  cw_id : string;
  cw_state : string;
  cw_address : string;
  cw_blockchain : string;
  cw_accountType : string }.

Record TokenBalance := { token : string; amount : string }.
Record WalletBalance := { balances : list TokenBalance }.

(** [response.data] of the SDK's [createTransaction]. *)
Record TxBody := {
  tx_id : option string;
  tx_txHash : option string;
  tx_state : option string }.

(** The requests that leave the process, in the order they are sent. *)
Inductive Call :=
| SdkCreateWallets (count : Z) (accountType : string)
    (blockchains : list string) (walletSetId : string)
| SdkCreateTransaction (walletId : option string) (blockchain contractAddress : string)
    (abiFunctionSignature : string) (abiParameters : list (option string))
    (feeLevel : string) (amount : option (list string))
| HttpGetBalances (walletId : string)
| HttpPinJSON (pinataContent : NFTMetadata) (pinataName : string)
| RpcGetTransactionReceipt (chain txHash : string)
| SetTimeout (ms : Z).

(** One draw of [Math.random()], by what the code does with it:
    [.toString(36)], [.toString(16)] and [Math.floor(x * 10000)]. *)
Record JsRandom := {
  base36 : string;
  base16 : string;
  times10000 : Z }.

(** The outside world. An answer may depend on everything sent so far
    (the trace ends with the request being answered). The two
    floating-point computations of the USDC check are taken as they are:
    [belowStorageCost amount] is
    [parseFloat(amount) < parseFloat(paymentAmount)], and
    [availableUSDC amount] prints [parseFloat(amount) / 10^decimals]. *)
Record Env := {
  createWallets : list Call -> Outcome (option (list CircleWallet));
  createTransaction : list Call -> Outcome (option TxBody);
  getBalances : list Call -> Outcome (option WalletBalance);
  pinJSONToIPFS : list Call -> Outcome (option string);
  getTransactionReceipt : list Call -> Outcome (option Receipt);
  parseLog : Log -> Outcome (option LogDescription);
  mathRandom : nat -> JsRandom;
  dateNow : nat -> Z;
  uuidv4 : nat -> string;
  NODE_ENV : option string;
  belowStorageCost : string -> bool;
  availableUSDC : string -> string }.

Record User := {
  id : string;
  email : string;
  walletId : option string;
  walletAddress : option string;
  createdAt : Z;
  updatedAt : Z }.

(** The [UserService] singleton: both maps hold references to the same
    user objects, which live in [objects]. *)
Record UserService := {
  objects : gmap nat User;
  users : gmap string nat;
  usersByEmail : gmap string nat }.

Record State := {
  ledger : UserService;
  trace : list Call;
  randoms : nat;
  clocks : nat;
  uuids : nat }.

(** Asynchronous code: a state transformer that returns or throws. *)
Definition M (A : Type) : Type := State -> Outcome A * State.

Definition ret {A} (a : A) : M A := fun s => (Returned a, s).
Definition throw {A} (e : JsError) : M A := fun s => (Threw e, s).
Definition bind {A B} (m : M A) (k : A -> M B) : M B := fun s =>
  match m s with
  | (Returned a, s') => k a s'
  | (Threw e, s') => (Threw e, s')
  end.
Definition tryCatch {A} (body : M A) (handler : JsError -> M A) : M A := fun s =>
  match body s with
  | (Returned a, s') => (Returned a, s')
  | (Threw e, s') => handler e s'
  end.
Definition lift {A} (o : Outcome A) : M A := fun s => (o, s).

#[export] Instance M_ret : MRet M := @ret.
#[export] Instance M_bind : MBind M := fun A B k m => bind m k.

Definition getLedger : M UserService := fun s => (Returned (ledger s), s).
Definition setLedger (l : UserService) : M unit := fun s =>
  (Returned tt, {| ledger := l; trace := trace s; randoms := randoms s;
                   clocks := clocks s; uuids := uuids s |}).

(** Send a request and await its answer. *)
Definition call {A} (c : Call) (answer : list Call -> Outcome A) : M A := fun s =>
  let t := trace s ++ [c] in
  (answer t, {| ledger := ledger s; trace := t; randoms := randoms s;
                clocks := clocks s; uuids := uuids s |}).

Definition random (env : Env) : M JsRandom := fun s =>
  (Returned (mathRandom env (randoms s)),
   {| ledger := ledger s; trace := trace s; randoms := S (randoms s);
      clocks := clocks s; uuids := uuids s |}).

Definition now (env : Env) : M Z := fun s =>
  (Returned (dateNow env (clocks s)),
   {| ledger := ledger s; trace := trace s; randoms := randoms s;
      clocks := S (clocks s); uuids := uuids s |}).

Definition uuid (env : Env) : M string := fun s =>
  (Returned (uuidv4 env (uuids s)),
   {| ledger := ledger s; trace := trace s; randoms := randoms s;
      clocks := clocks s; uuids := S (uuids s) |}).

(** [await new Promise(resolve => setTimeout(resolve, ms))] *)
Definition sleep (ms : Z) : M unit := fun s =>
  (Returned tt, {| ledger := ledger s; trace := trace s ++ [SetTimeout ms];
                   randoms := randoms s; clocks := clocks s; uuids := uuids s |}).

(** [preserves R m]: whatever [m] does, the state it leaves is related
    by [R] to the state it started in. *)
Definition preserves (R : State -> State -> Prop) {A} (m : M A) : Prop :=
  forall s, R s (m s).2.

(** The trace of [s'] is that of [s] followed by requests that all
    satisfy [P]. *)
Definition extendsBy (P : Call -> Prop) (s s' : State) : Prop :=
  exists sent, trace s' = trace s ++ sent /\ Forall P sent.

(** A request to create wallets or to submit a transaction names
    ETH-SEPOLIA and no other chain. *)
Definition onSepolia (c : Call) : Prop :=
  match c with
  | SdkCreateWallets _ _ blockchains _ => blockchains = ["ETH-SEPOLIA"]
  | SdkCreateTransaction _ blockchain _ _ _ _ _ => blockchain = "ETH-SEPOLIA"
  | _ => True
  end.

(** Any request except the creation of wallets. *)
Definition notWalletCreation (c : Call) : Prop :=
  match c with
  | SdkCreateWallets _ _ _ _ => False
  | _ => True
  end.

(** Same ledger, and only requests other than wallet creation sent. *)
Definition reusesWallet (s s' : State) : Prop :=
  ledger s' = ledger s /\ extendsBy notWalletCreation s s'.

Definition emptyLedger : UserService :=
  {| objects := ∅; users := ∅; usersByEmail := ∅ |}.

Definition initial (l : UserService) : State :=
  {| ledger := l; trace := []; randoms := 0; clocks := 0; uuids := 0 |}.

End World.

(** ** The Ledger: [UserService] *)

Module Ledger.
Import World.

(** [this.usersByEmail.get(email)] and [this.users.get(userId)]: a
    reference to the user object. *)
Definition byEmail (l : UserService) (email : string) : option nat :=
  usersByEmail l !! email.
Definition byId (l : UserService) (userId : string) : option nat :=
  users l !! userId.

(** Reading the object behind a reference. The two maps are only written
    together with the object they point to, so a reference found in
    either always has its object; the other case makes the function
    total. *)
Definition deref (r : nat) : M User := fun s =>
  match objects (ledger s) !! r with
  | Some u => (Returned u, s)
  | None => (Threw (Ethers.typeError "dangling user reference"), s)
  end.

(** The reference has its object. *)
Definition live (l : UserService) (r : nat) : Prop := is_Some (objects l !! r).

(** Every reference held by one of the two maps has its object. *)
Definition wellFormed (l : UserService) : Prop :=
  (forall k r, users l !! k = Some r -> live l r) /\
  (forall k r, usersByEmail l !! k = Some r -> live l r).

Definition createUser (env : Env) (email : string)
    (walletId walletAddress : option string) : M nat :=
  tryCatch
    (l ← getLedger;
     match byEmail l email with
     | Some existingUser => mret existingUser
     | None =>
         newId ← uuid env;
         created ← now env;
         updated ← now env;
         let user := {| id := newId; email := email; walletId := walletId;
                        walletAddress := walletAddress;
                        createdAt := created; updatedAt := updated |} in
         let r := fresh (dom (objects l)) in
         setLedger {| objects := <[r := user]> (objects l);
                      users := <[newId := r]> (users l);
                      usersByEmail := <[email := r]> (usersByEmail l) |};;
         mret r
     end)
    (fun error =>
       throw (newError ("Failed to create user: " +:+ err_message error))).

Definition getUserByEmail (email : string) : M (option nat) :=
  tryCatch
    (l ← getLedger;
     mret (byEmail l email))
    (fun error =>
       throw (newError ("Failed to get user: " +:+ err_message error))).

Definition updateUserWallet (env : Env) (userId walletId walletAddress : string)
  : M nat :=
  tryCatch
    (l ← getLedger;
     match byId l userId with
     | None => throw (newError "User not found")
     | Some r =>
         user ← deref r;
         updated ← now env;
         let user' := {| id := id user; email := email user;
                         walletId := Some walletId;
                         walletAddress := Some walletAddress;
                         createdAt := createdAt user; updatedAt := updated |} in
         setLedger {| objects := <[r := user']> (objects l);
                      users := <[userId := r]> (users l);
                      usersByEmail := <[email user := r]> (usersByEmail l) |};;
         mret r
     end)
    (fun error =>
       throw (newError ("Failed to update user wallet: " +:+ err_message error))).

End Ledger.

(** ** The wallet and sponsorship client: [CircleService] *)

Module Circle.
Import World.

(** [config.circle.walletSetId], read by the constructor. *)
Record Client := { walletSetId : string }.

Definition createWallet (env : Env) (client : Client) (blockchains : list string)
  : M (list CircleWallet) :=
  tryCatch
    (response ← call (SdkCreateWallets 1 "SCA" ["ETH-SEPOLIA"] (walletSetId client))
                     (createWallets env);
     let wallets := default [] response in
     match wallets with
     | [] => throw (newError "No wallets created in response")
     | _ => mret wallets
     end)
    (fun error =>
       throw (newError ("Circle API: Failed to create SCA wallet - "
                        +:+ err_message error))).

Definition getWalletBalance (env : Env) (walletId : string)
  : M (option WalletBalance) :=
  tryCatch
    (call (HttpGetBalances walletId) (getBalances env))
    (fun error =>
       throw (newError ("Circle API: Failed to get wallet balance - "
                        +:+ err_message error))).

(** [GasStationResponse['data']] *)
Record GasStationData := {
  transactionId : string;
  transactionHash : string;
  state : string }.

(** [`0x${Math.random().toString(16).substring(2, 66)}`] *)
Definition mockTxHash (env : Env) : M string :=
  r ← random env;
  mret ("0x" +:+ js_substring 2 66 (base16 r)).

(** [a || await b] where [b] has effects. *)
Definition orElseM (a : option string) (b : M string) : M string :=
  match a with
  | Some s => if String.eqb s "" then b else mret s
  | None => b
  end.

Definition executeGaslessTransaction (env : Env)
    (walletId : option string) (contractAddress abiFunctionSignature : string)
    (abiParameters : list (option string)) (blockchain : string)
    (amount : option string) : M GasStationData :=
  tryCatch
    (response ← call (SdkCreateTransaction walletId blockchain contractAddress
                        abiFunctionSignature abiParameters "MEDIUM"
                        (if falsy amount then None else (fun a => [a]) <$> amount))
                     (createTransaction env);
     match response with
     | None => throw (newError "No response data from Circle transaction API")
     | Some body =>
         txId ← orElseM (tx_id body) (t ← now env; mret ("tx_" +:+ Z_toString t));
         txHash ← orElseM (tx_txHash body) (mockTxHash env);
         mret {| transactionId := txId;
                 transactionHash := txHash;
                 state := orElse (tx_state body) "CONFIRMED" |}
     end)
    (fun error =>
       if decide (NODE_ENV env = Some "development") then
         hash ← mockTxHash env;
         t ← now env;
         mret {| transactionId := "dev_tx_" +:+ Z_toString t;
                 transactionHash := hash;
                 state := "CONFIRMED" |}
       else
         throw (newError ("Circle API: Gasless transaction failed - "
                          +:+ err_message error))).

End Circle.

(** ** The mint orchestrator: [NFTService] *)

Module Nft.
Import World Ethers.

Record BlockchainConfig := {
  bc_name : string;
  chainId : Z;
  rpcUrl : string;
  nftContractAddress : string;
  usdcContractAddress : string;
  circleBlockchain : string }.

(** The parts of [config] that the service reads. *)
Record Config := {
  blockchains : gmap string BlockchainConfig;
  gateway : string;
  pinataApiKey : option string;
  pinataSecretKey : option string;
  metadataStorageCost : string;
  circle : Circle.Client }.

Record MintNFTRequest := {
  email : string;
  nftMetadata : NFTMetadata;
  blockchain : string;
  payWithUSDC : option bool }.

Record MintNFTResponse := {
  transactionHash : string;
  nftId : string;
  contractAddress : string;
  walletAddress : option string;
  res_blockchain : string;
  gasSponsored : bool }.

(** [internalMapping[blockchain] || 'ethereum'], on the keys of the
    table. *)
Definition mapToInternalBlockchain (blockchain : string) : string :=
  if String.eqb blockchain "ETH-SEPOLIA" then "ethereum"
  else if String.eqb blockchain "BASE-SEPOLIA" then "base"
  else if String.eqb blockchain "ETH" then "ethereum"
  else if String.eqb blockchain "BASE" then "base"
  else if String.eqb blockchain "MATIC" then "polygon"
  else if String.eqb blockchain "MATIC-AMOY" then "polygon"
  else "ethereum".

Definition uploadToPinata (env : Env) (cfg : Config) (metadata : NFTMetadata)
  : M string :=
  tryCatch
    (ipfsHash ← call (HttpPinJSON metadata (nft_name metadata +:+ "_metadata.json"))
                     (pinJSONToIPFS env);
     mret (gateway cfg +:+ interpolate ipfsHash))
    (fun error => throw error).

Definition mockHash (r1 r2 : JsRandom) : string :=
  "QmR" +:+ js_substring 2 15 (base36 r1) +:+ js_substring 2 15 (base36 r2) +:+ "Abc".

Definition createMockIPFS (env : Env) (cfg : Config) (metadata : NFTMetadata)
  : M string :=
  r1 ← random env;
  r2 ← random env;
  mret (gateway cfg +:+ mockHash r1 r2).

Definition pinataConfigured (cfg : Config) : bool :=
  negb (falsy (pinataApiKey cfg)) && negb (falsy (pinataSecretKey cfg)).

Definition uploadMetadataToIPFS (env : Env) (cfg : Config) (metadata : NFTMetadata)
  : M string :=
  tryCatch
    (if pinataConfigured cfg
     then uploadToPinata env cfg metadata
     else createMockIPFS env cfg metadata)
    (fun error => createMockIPFS env cfg metadata).

Definition getBlockchainConfig (cfg : Config) (blockchain : string)
  : Outcome BlockchainConfig :=
  match blockchains cfg !! blockchain with
  | Some config_chain => Returned config_chain
  | None => Threw (newError ("Unsupported blockchain: " +:+ blockchain))
  end.

(** [s.toLowerCase()] on ASCII letters. *)
Definition lowerAscii (c : ascii) : ascii :=
  let n := nat_of_ascii c in
  if ((65 <=? n) && (n <=? 90))%nat then ascii_of_nat (n + 32) else c.

Fixpoint toLowerCase (s : string) : string :=
  match s with
  | EmptyString => EmptyString
  | String c s' => String (lowerAscii c) (toLowerCase s')
  end.

Definition handleUSDCPayment (env : Env) (cfg : Config)
    (walletId : option string) (blockchainConfig : BlockchainConfig) : M unit :=
  tryCatch
    (balance ← Circle.getWalletBalance env (interpolate walletId);
     match balance with
     | None =>
         throw (typeError "Cannot read properties of undefined (reading 'balances')")
     | Some b =>
         match List.find (fun t => String.eqb (toLowerCase (token t))
                        (toLowerCase (usdcContractAddress blockchainConfig)))
                    (balances b) with
         | None => throw (newError "No USDC balance found in wallet")
         | Some usdcBalance =>
             if belowStorageCost env (amount usdcBalance)
             then throw (newError
                    ("Insufficient USDC balance. Required: "
                     +:+ metadataStorageCost cfg +:+ " USDC, Available: "
                     +:+ availableUSDC env (amount usdcBalance) +:+ " USDC"))
             else mret tt
         end
     end)
    (fun error =>
       throw (newError ("USDC payment failed: " +:+ err_message error))).

(** One pass through [for (const log of receipt.logs)]: [Some tokenId]
    is the [return], [None] goes on to the next log. *)
Definition scanLog (env : Env) (log : Log) : option string :=
  let attempt : Outcome (option string) :=
    match parseLog env log with
    | Threw e => Threw e
    | Returned None => Returned None
    | Returned (Some parsed) =>
        if String.eqb (name parsed) "Transfer"
           && bool_decide (args_from parsed = Some ZeroAddress)
        then match tokenIdToString parsed with
             | Returned s => Returned (Some s)
             | Threw e => Threw e
             end
        else if String.eqb (name parsed) "NFTMinted"
        then match tokenIdToString parsed with
             | Returned s => Returned (Some s)
             | Threw e => Threw e
             end
        else Returned None
    end in
  match attempt with
  | Returned r => r
  | Threw parseError => None
  end.

Fixpoint scanLogs (env : Env) (logs : list Log) : option string :=
  match logs with
  | [] => None
  | log :: rest =>
      match scanLog env log with
      | Some tokenId => Some tokenId
      | None => scanLogs env rest
      end
  end.

(** [this.providers] has one provider per key of [config.blockchains]. *)
Definition parseTokenIdFromTransaction (env : Env) (cfg : Config)
    (transactionHash : string) (blockchainConfig : BlockchainConfig)
    (internalBlockchain : string) : M string :=
  tryCatch
    (match blockchains cfg !! internalBlockchain with
     | None => throw (newError ("Provider not available for " +:+ internalBlockchain))
     | Some _ =>
         receipt ← call (RpcGetTransactionReceipt internalBlockchain transactionHash)
                        (getTransactionReceipt env);
         match receipt with
         | None => throw (newError "Transaction receipt not found or no logs")
         | Some r =>
             match logs r with
             | [] => throw (newError "Transaction receipt not found or no logs")
             | _ =>
                 match scanLogs env (logs r) with
                 | Some tokenId => mret tokenId
                 | None => throw (newError "No mint event found in transaction logs")
                 end
             end
         end
     end)
    (fun error => throw error).

(** The stages of the workflow, in the order [mintNFT] runs them. *)

(** [getUserByEmail], then [createUser] for an unknown email. *)
Definition resolveUser (env : Env) (email : string) : M nat :=
  found ← Ledger.getUserByEmail email;
  match found with
  | Some user => mret user
  | None => Ledger.createUser env email None None
  end.

Definition gaslessBlockchain : string := "ETH-SEPOLIA".

(** The block under [if (!user.walletId || !user.walletAddress)]. *)
Definition ensureWallet (env : Env) (cfg : Config) (user : nat) : M nat :=
  u ← Ledger.deref user;
  if falsy (World.walletId u) || falsy (World.walletAddress u) then
    wallets ← Circle.createWallet env (circle cfg) [gaslessBlockchain];
    match List.find (fun w => String.eqb (cw_blockchain w) gaslessBlockchain) wallets with
    | None => throw (newError ("Failed to create SCA wallet for " +:+ gaslessBlockchain))
    | Some wallet =>
        Ledger.updateUserWallet env (World.id u) (cw_id wallet) (cw_address wallet)
    end
  else mret user.

(** The [try] around the token id: ['unknown'] when parsing throws. *)
Definition tokenIdOf (env : Env) (cfg : Config) (transaction : Circle.GasStationData)
    (blockchainConfig : BlockchainConfig) (internalBlockchain : string) : M string :=
  tryCatch
    (if negb (String.eqb (Circle.transactionHash transaction) "")
        && negb (startsWith (Circle.transactionHash transaction) "dev_tx_")
     then parseTokenIdFromTransaction env cfg (Circle.transactionHash transaction)
            blockchainConfig internalBlockchain
     else r ← random env; mret (Z_toString (times10000 r)))
    (fun parseError => mret "unknown").

(** What [mintNFT] does once the user has a wallet. *)
Definition mintWithWallet (env : Env) (cfg : Config) (request : MintNFTRequest)
    (internalBlockchain : string) (blockchainConfig : BlockchainConfig) (user : nat)
  : M MintNFTResponse :=
  metadataUri ← uploadMetadataToIPFS env cfg (nftMetadata request);
  u ← Ledger.deref user;
  (if default false (payWithUSDC request)
   then handleUSDCPayment env cfg (World.walletId u) blockchainConfig
   else mret tt);;
  let abiFunctionSignature := "mint(address,string)" in
  let abiParameters := [World.walletAddress u; Some metadataUri] in
  transaction ← Circle.executeGaslessTransaction env
                  (World.walletId u) (nftContractAddress blockchainConfig)
                  abiFunctionSignature abiParameters gaslessBlockchain None;
  tokenId ← tokenIdOf env cfg transaction blockchainConfig internalBlockchain;
  mret {| transactionHash := Circle.transactionHash transaction;
          nftId := tokenId;
          contractAddress := nftContractAddress blockchainConfig;
          walletAddress := World.walletAddress u;
          res_blockchain := internalBlockchain;
          gasSponsored := true |}.

(** The [try] block of [mintNFT]. *)
Definition mintBody (env : Env) (cfg : Config) (request : MintNFTRequest)
  : M MintNFTResponse :=
  let internalBlockchain := mapToInternalBlockchain gaslessBlockchain in
  blockchainConfig ← lift (getBlockchainConfig cfg internalBlockchain);
  user ← resolveUser env (email request);
  user ← ensureWallet env cfg user;
  mintWithWallet env cfg request internalBlockchain blockchainConfig user.



Definition mintNFT (env : Env) (cfg : Config) (request : MintNFTRequest)
  : M MintNFTResponse :=
  tryCatch (mintBody env cfg request)
    (fun error => throw (newError ("Failed to mint NFT: " +:+ err_message error))).

End Nft.

(** ** The POST /batch-mint handler *)

Module Batch.
Import World Nft.

Record BatchError := {
  index : nat;
  nftName : string;
  error : string }.

Record BatchData := {
  successful : list MintNFTResponse;
  errors : list BatchError;
  totalRequested : nat;
  totalSuccessful : nat;
  totalFailed : nat }.

Record ApiResponse := {
  success : bool;
  message : string;
  data : BatchData }.

Record Reply := {
  status : Z;
  body : ApiResponse }.

(** The validated request body. *)
Record BatchRequest := {
  req_email : string;
  nfts : list NFTMetadata;
  req_blockchain : string;
  req_payWithUSDC : bool }.

Definition nat_toString (n : nat) : string := N_toString (N.of_nat n).

Section Handler.
(** [nftService.mintNFT] *)
Variable mintNFT : MintNFTRequest -> M MintNFTResponse.
Variable req : BatchRequest.

(** [mintRequest] at index [i]. *)
Definition requestFor (i : nat) (nftMetadata : NFTMetadata) : MintNFTRequest :=
  {| email := req_email req;
     nftMetadata := nftMetadata;
     blockchain := req_blockchain req;
     payWithUSDC := Some (if Nat.eqb i 0 then req_payWithUSDC req else false) |}.

(** The body of the [for] loop at index [i], on the two arrays. *)
Definition mintItem (i : nat) (nftMetadata : NFTMetadata)
    (acc : list MintNFTResponse * list BatchError)
  : M (list MintNFTResponse * list BatchError) :=
  tryCatch
    (result ← mintNFT (requestFor i nftMetadata);
     sleep 1000;;
     mret (acc.1 ++ [result], acc.2))
    (fun e =>
       mret (acc.1,
             acc.2 ++ [{| index := i;
                          nftName := orElse (Some (nft_name nftMetadata)) "Unknown";
                          error := err_message e |}])).

(** [for (let i = 0; i < nfts.length; i++)], from index [i] on. *)
Fixpoint forLoop (rest : list NFTMetadata) (i : nat)
    (acc : list MintNFTResponse * list BatchError)
  : M (list MintNFTResponse * list BatchError) :=
  match rest with
  | [] => mret acc
  | nftMetadata :: rest' =>
      acc' ← mintItem i nftMetadata acc;
      forLoop rest' (S i) acc'
  end.

(** What each item's mint does when the items are minted one after the
    other from state [s], each in the state the previous one left (a
    successful mint is followed by the one-second pause). *)
Fixpoint itemOutcomes (rest : list NFTMetadata) (i : nat) (s : State)
  : list (nat * NFTMetadata * Outcome MintNFTResponse) :=
  match rest with
  | [] => []
  | nftMetadata :: rest' =>
      let (o, s1) := mintNFT (requestFor i nftMetadata) s in
      let s2 := match o with
                | Returned _ => (sleep 1000 s1).2
                | Threw _ => s1
                end in
      (i, nftMetadata, o) :: itemOutcomes rest' (S i) s2
  end.

Definition batchMint : M Reply :=
  acc ← forLoop (nfts req) 0 ([], []);
  let results := acc.1 in
  let errors := acc.2 in
  mret {| status := if (0 <? length results)%nat then 201 else 400;
          body :=
            {| success := (length errors <? length (nfts req))%nat;
               message := "Batch mint completed: " +:+ nat_toString (length results)
                          +:+ " successful, " +:+ nat_toString (length errors)
                          +:+ " failed";
               data := {| successful := results;
                          errors := errors;
                          totalRequested := length (nfts req);
                          totalSuccessful := length results;
                          totalFailed := length errors |} |} |}.
End Handler.

(** The results of the items that returned, in order. *)
Fixpoint returnedOf (outs : list (nat * NFTMetadata * Outcome MintNFTResponse))
  : list MintNFTResponse :=
  match outs with
  | [] => []
  | (_, _, Returned r) :: rest => r :: returnedOf rest
  | (_, _, Threw _) :: rest => returnedOf rest
  end.

(** The error records of the items that threw, in order. *)
Fixpoint thrownOf (outs : list (nat * NFTMetadata * Outcome MintNFTResponse))
  : list BatchError :=
  match outs with
  | [] => []
  | (_, _, Returned _) :: rest => thrownOf rest
  | (i, nftMetadata, Threw e) :: rest =>
      {| index := i;
         nftName := orElse (Some (nft_name nftMetadata)) "Unknown";
         error := err_message e |} :: thrownOf rest
  end.

End Batch.

(** ** Example configuration and environments *)

Module Examples.
Import World Ethers Nft.

Definition ethereum : BlockchainConfig :=
  {| bc_name := "Ethereum Sepolia"; chainId := 11155111;
     rpcUrl := "https://rpc.sepolia.org";
     nftContractAddress := "0xC0FFEE";
     usdcContractAddress := "0x1c7D4B196Cb0C7B01d743Fbc6116a902379C7238";
     circleBlockchain := "ETH-SEPOLIA" |}.

(** No pinning credentials. *)
Definition cfg : Config :=
  {| blockchains := {[ "ethereum" := ethereum ]};
     gateway := "https://ipfs.io/ipfs/";
     pinataApiKey := None;
     pinataSecretKey := None;
     metadataStorageCost := "1";
     circle := {| Circle.walletSetId := "set-1" |} |}.

Definition cfgPinata : Config :=
  {| blockchains := {[ "ethereum" := ethereum ]};
     gateway := "https://ipfs.io/ipfs/";
     pinataApiKey := Some "key";
     pinataSecretKey := Some "secret";
     metadataStorageCost := "1";
     circle := {| Circle.walletSetId := "set-1" |} |}.

Definition scaWallet : CircleWallet :=
  {| cw_id := "wallet-1"; cw_state := "LIVE"; cw_address := "0xA11CE";
     cw_blockchain := "ETH-SEPOLIA"; cw_accountType := "SCA" |}.

Definition mintedLog : Log :=
  {| log_address := "0xC0FFEE"; log_topics := ["0xminted"]; log_data := "0x07" |}.

(** Every service answers: one SCA wallet, a confirmed transaction
    "0xfeed" whose receipt holds the NFTMinted event of token 7. *)
Definition happy : Env :=
  {| createWallets := fun _ => Returned (Some [scaWallet]);
     createTransaction := fun _ =>
       Returned (Some {| tx_id := Some "tx-1"; tx_txHash := Some "0xfeed";
                         tx_state := Some "CONFIRMED" |});
     getBalances := fun _ => Returned (Some {| balances := [] |});
     pinJSONToIPFS := fun _ => Returned (Some "QmPinned");
     getTransactionReceipt := fun _ => Returned (Some {| logs := [mintedLog] |});
     parseLog := fun _ =>
       Returned (Some {| name := "NFTMinted"; args_from := None;
                         args_tokenId := Some 7%N |});
     mathRandom := fun k =>
       {| base36 := "0." +:+ Batch.nat_toString k +:+ "fzyo82mvyr";
          base16 := "0." +:+ Batch.nat_toString k +:+ "f5c28f5c28f6";
          times10000 := 1234 + Z.of_nat k |};
     dateNow := fun k => 1700000000000 + Z.of_nat k;
     uuidv4 := fun k => "user-" +:+ Batch.nat_toString k;
     NODE_ENV := Some "production";
     belowStorageCost := fun _ => false;
     availableUSDC := fun a => a |}.

Definition withCreateWallets (f : list Call -> Outcome (option (list CircleWallet)))
    (env : Env) : Env :=
  {| createWallets := f;
     createTransaction := createTransaction env;
     getBalances := getBalances env;
     pinJSONToIPFS := pinJSONToIPFS env;
     getTransactionReceipt := getTransactionReceipt env;
     parseLog := parseLog env;
     mathRandom := mathRandom env;
     dateNow := dateNow env;
     uuidv4 := uuidv4 env;
     NODE_ENV := NODE_ENV env;
     belowStorageCost := belowStorageCost env;
     availableUSDC := availableUSDC env |}.

Definition withCreateTransaction (f : list Call -> Outcome (option TxBody))
    (env : Env) : Env :=
  {| createWallets := createWallets env;
     createTransaction := f;
     getBalances := getBalances env;
     pinJSONToIPFS := pinJSONToIPFS env;
     getTransactionReceipt := getTransactionReceipt env;
     parseLog := parseLog env;
     mathRandom := mathRandom env;
     dateNow := dateNow env;
     uuidv4 := uuidv4 env;
     NODE_ENV := NODE_ENV env;
     belowStorageCost := belowStorageCost env;
     availableUSDC := availableUSDC env |}.

Definition withPinJSON (f : list Call -> Outcome (option string)) (env : Env) : Env :=
  {| createWallets := createWallets env;
     createTransaction := createTransaction env;
     getBalances := getBalances env;
     pinJSONToIPFS := f;
     getTransactionReceipt := getTransactionReceipt env;
     parseLog := parseLog env;
     mathRandom := mathRandom env;
     dateNow := dateNow env;
     uuidv4 := uuidv4 env;
     NODE_ENV := NODE_ENV env;
     belowStorageCost := belowStorageCost env;
     availableUSDC := availableUSDC env |}.

Definition boom : JsError := newError "socket hang up".

(** The wallet provider is down. *)
Definition walletsDown : Env := withCreateWallets (fun _ => Threw boom) happy.

(** The sponsorship API is down. *)
Definition sponsorshipDown : Env := withCreateTransaction (fun _ => Threw boom) happy.

(** The pinning service is down. *)
Definition pinataDown : Env := withPinJSON (fun _ => Threw boom) happy.

Definition metadata (n : string) : NFTMetadata :=
  {| nft_name := n; nft_description := "An example"; nft_image := "https://x.com/i.png";
     nft_attributes := [("rarity", "common")]; nft_external_url := None |}.

Definition request (chain : string) : MintNFTRequest :=
  {| email := "a@x.com"; nftMetadata := metadata "N1"; blockchain := chain;
     payWithUSDC := None |}.

(** A ledger with one user, whose wallet fields are as given. *)
Definition ledgerWith (wid waddr : option string) : UserService :=
  {| objects := {[ 0%nat := {| id := "user-a"; World.email := "a@x.com";
                               walletId := wid; World.walletAddress := waddr;
                               createdAt := 1; updatedAt := 1 |} ]};
     users := {[ "user-a" := 0%nat ]};
     usersByEmail := {[ "a@x.com" := 0%nat ]} |}.

Definition isSubmission (c : Call) : bool :=
  match c with
  | SdkCreateTransaction _ _ _ _ _ _ _ => true
  | _ => false
  end.

(** The sponsorship API rejects the second transaction it is sent. *)
Definition secondSubmissionThrows : Env :=
  withCreateTransaction
    (fun t =>
       if Nat.eqb (length (List.filter isSubmission t)) 2
       then Threw boom
       else Returned (Some {| tx_id := Some "tx-1"; tx_txHash := Some "0xfeed";
                              tx_state := Some "CONFIRMED" |}))
    happy.

(** A user whose record has a walletId and no walletAddress. *)
Definition halfAttached : State := initial (ledgerWith (Some "w9") None).

(** A user whose record has both. *)
Definition attached : State := initial (ledgerWith (Some "w9") (Some "0x9")).

Definition batchOfThree : Batch.BatchRequest :=
  {| Batch.req_email := "a@x.com";
     Batch.nfts := [metadata "N1"; metadata "N2"; metadata "N3"];
     Batch.req_blockchain := "BASE-SEPOLIA";
     Batch.req_payWithUSDC := false |}.

End Examples.

(** ** The rest of the Ledger *)

Module LedgerOps.
Import World Ledger.

(** [this.users.get(userId) || null] *)
Definition getUserById (userId : string) : M (option nat) :=
  tryCatch
    (l ← getLedger;
     mret (byId l userId))
    (fun error =>
       throw (newError ("Failed to get user: " +:+ err_message error))).

(** [this.users.size] *)
Definition getUserCount : M nat :=
  l ← getLedger;
  mret (size (users l)).

Definition deleteUser (userId : string) : M bool :=
  tryCatch
    (l ← getLedger;
     match byId l userId with
     | None => mret false
     | Some r =>
         user ← deref r;
         setLedger {| objects := objects l;
                      users := delete userId (users l);
                      usersByEmail := delete (email user) (usersByEmail l) |};;
         mret true
     end)
    (fun error =>
       throw (newError ("Failed to delete user: " +:+ err_message error))).

(** The two indexes agree: a user filed under an id carries that id and
    is filed under its own email, and the other way round. *)
Definition inSync (l : UserService) : Prop :=
  (forall uid r, users l !! uid = Some r ->
     exists u, objects l !! r = Some u /\ id u = uid /\
               usersByEmail l !! email u = Some r) /\
  (forall em r, usersByEmail l !! em = Some r ->
     exists u, objects l !! r = Some u /\ email u = em /\
               users l !! id u = Some r).

(** Two users: one with a wallet, one without. *)
Definition twoUsers : UserService :=
  {| objects := {[ 0%nat := {| id := "user-a"; email := "a@x.com";
                               walletId := Some "w9"; walletAddress := Some "0x9";
                               createdAt := 1; updatedAt := 1 |};
                   1%nat := {| id := "user-b"; email := "b@x.com";
                               walletId := None; walletAddress := None;
                               createdAt := 2; updatedAt := 2 |} ]};
     users := {[ "user-a" := 0%nat; "user-b" := 1%nat ]};
     usersByEmail := {[ "a@x.com" := 0%nat; "b@x.com" := 1%nat ]} |}.

End LedgerOps.

(** ** The rest of the wallet and sponsorship client *)

Module CircleOps.
Import World Circle.

(** [config.blockchains.<key>.usdcContractAddress] *)
Definition usdcAddressOf (cfg : Nft.Config) (key : string) : M string :=
  match Nft.blockchains cfg !! key with
  | Some chainConfig => mret (Nft.usdcContractAddress chainConfig)
  | None =>
      throw (Ethers.typeError
               "Cannot read properties of undefined (reading 'usdcContractAddress')")
  end.

Definition transferUSDC (env : Env) (cfg : Nft.Config)
    (fromWalletId toAddress amount blockchain : string) : M GasStationData :=
  tryCatch
    (usdcAddress ←
       (if String.eqb blockchain "ETH-SEPOLIA" then usdcAddressOf cfg "ethereum"
        else if String.eqb blockchain "BASE-SEPOLIA" then usdcAddressOf cfg "base"
        else usdcAddressOf cfg "ethereum");
     executeGaslessTransaction env (Some fromWalletId) usdcAddress
       "transfer(address,uint256)" [Some toAddress; Some amount] blockchain None)
    (fun error =>
       throw (newError ("Circle API: Failed to transfer USDC - "
                        +:+ err_message error))).

Record StatusReply := { status : string; hash : option string }.

(** [getTransactionStatus]; [getTransaction] is the SDK's answer for an
    id, a value or a thrown error. *)
Definition getTransactionStatus (env : Env)
    (getTransaction : string -> Outcome (option TxBody)) (transactionId : string)
  : M StatusReply :=
  tryCatch
    (response ← lift (getTransaction transactionId);
     mret {| status := orElse (response ≫= tx_state) "UNKNOWN";
             hash := response ≫= tx_txHash |})
    (fun error =>
       if includes transactionId "dev_tx_" then
         h ← mockTxHash env;
         mret {| status := "CONFIRMED"; hash := Some h |}
       else mret {| status := "CONFIRMED"; hash := None |}).

(** The request that [executeGaslessTransaction] sends. *)
Definition submission (walletId : option string) (contractAddress sig : string)
    (params : list (option string)) (blockchain : string) (amount : option string)
  : Call :=
  SdkCreateTransaction walletId blockchain contractAddress sig params "MEDIUM"
    (if falsy amount then None else (fun a => [a]) <$> amount).

Definition base : Nft.BlockchainConfig :=
  {| Nft.bc_name := "Base Sepolia"; Nft.chainId := 84532;
     Nft.rpcUrl := "https://sepolia.base.org";
     Nft.nftContractAddress := "0xBA5E";
     Nft.usdcContractAddress := "0x036CbD53842c5426634e7929541eC2318f3dCF7e";
     Nft.circleBlockchain := "BASE-SEPOLIA" |}.

(** Both chains that [transferUSDC] names. *)
Definition cfgBoth : Nft.Config :=
  {| Nft.blockchains := {[ "ethereum" := Examples.ethereum; "base" := base ]};
     Nft.gateway := "https://ipfs.io/ipfs/";
     Nft.pinataApiKey := None;
     Nft.pinataSecretKey := None;
     Nft.metadataStorageCost := "1";
     Nft.circle := {| Circle.walletSetId := "set-1" |} |}.

End CircleOps.

(** ** What a mint sends, and when it stops *)

Module Requests.
Import World.


Definition notBalanceRequest (c : Call) : Prop :=
  match c with
  | HttpGetBalances _ => False
  | _ => True
  end.

(** Every transaction submitted is a call of mint(address,string) on
    the given contract, on ETH-SEPOLIA, with no amount. *)
Definition onlyMints (nftContract : string) (c : Call) : Prop :=
  match c with
  | SdkCreateTransaction _ blockchain contractAddress sig _ feeLevel amount =>
      blockchain = "ETH-SEPOLIA" /\ contractAddress = nftContract /\
      sig = "mint(address,string)" /\ feeLevel = "MEDIUM" /\ amount = None
  | _ => True
  end.



(** The request of the examples, paying with USDC. *)
Definition paying : Nft.MintNFTRequest :=
  {| Nft.email := "a@x.com"; Nft.nftMetadata := Examples.metadata "N1";
     Nft.blockchain := "ETH-SEPOLIA"; Nft.payWithUSDC := Some true |}.

(** The services of the examples, with a decoder that knows only the
    logs of the NFT contract. *)
Definition strictDecoder : Env :=
  {| createWallets := createWallets Examples.happy;
     createTransaction := createTransaction Examples.happy;
     getBalances := getBalances Examples.happy;
     pinJSONToIPFS := pinJSONToIPFS Examples.happy;
     getTransactionReceipt := getTransactionReceipt Examples.happy;
     parseLog := fun log =>
       if String.eqb (Ethers.log_address log) "0xC0FFEE"
       then Returned (Some {| Ethers.name := "NFTMinted"; Ethers.args_from := None;
                              Ethers.args_tokenId := Some 7%N |})
       else Threw (newError "no matching event");
     mathRandom := mathRandom Examples.happy;
     dateNow := dateNow Examples.happy;
     uuidv4 := uuidv4 Examples.happy;
     NODE_ENV := NODE_ENV Examples.happy;
     belowStorageCost := belowStorageCost Examples.happy;
     availableUSDC := availableUSDC Examples.happy |}.

(** Three items for one user, paying with USDC. *)
Definition payingBatch : Batch.BatchRequest :=
  {| Batch.req_email := "a@x.com";
     Batch.nfts := [Examples.metadata "N1"; Examples.metadata "N2";
                    Examples.metadata "N3"];
     Batch.req_blockchain := "ETH-SEPOLIA";
     Batch.req_payWithUSDC := true |}.

End Requests.

(** ** The error middleware: [errorHandler] *)

Module ErrorHandler.

(** What reaches the middleware: an [AppError] with its status code, or
    any other error. *)
Inductive Thrown :=
| AppError (e : JsError) (statusCode : Z)
| OtherError (e : JsError).

Definition errorOf (err : Thrown) : JsError :=
  match err with
  | AppError e _ => e
  | OtherError e => e
  end.

(** The [ApiResponse] sent, with its status; [data] is [{ stack }]. *)
Record ErrorReply := {
  statusCode : Z;
  success : bool;
  error : string;
  data : option (option string) }.

Definition classify (err : Thrown) : Z * string :=
  match err with
  | AppError e code => (code, err_message e)
  | OtherError e =>
      if String.eqb (err_name e) "JsonWebTokenError" then (401, "Invalid token")
      else if String.eqb (err_name e) "TokenExpiredError" then (401, "Token expired")
      else if String.eqb (err_name e) "ValidationError" then (400, err_message e)
      else if includes (err_message e) "Circle API" then (502, "Circle service error")
      else if includes (err_message e) "blockchain"
              || includes (err_message e) "transaction"
      then (502, "Blockchain service error")
      else (500, "Internal Server Error")
  end.

Definition errorHandler (NODE_ENV : option string) (err : Thrown)
    (stack : option string) : ErrorReply :=
  let (code, message) := classify err in
  {| statusCode := code;
     success := false;
     error := message;
     data := if decide (NODE_ENV = Some "development") then Some stack else None |}.

(** The texts the middleware can send that are not taken from the
    error. *)
Definition genericReplies : list (Z * string) :=
  [(401, "Invalid token"); (401, "Token expired");
   (502, "Circle service error"); (502, "Blockchain service error");
   (500, "Internal Server Error")].

End ErrorHandler.

(** ** [BlockchainService.mintNFT] and the two [CircleService] calls it
    makes before it polls *)

Module Pipeline.
Import Poller Receipt.

(** An axios request whose [response.data.data] is an [A]: it resolves
    with a body (whose [data.data] may be missing), or rejects with an
    error of which the code reads [error.response?.data?.message] and
    [error.message]. *)
Inductive Http (A : Type) : Type :=
| Resolved (body : option A)
| Rejected (responseMessage : option string) (message : string).
Arguments Resolved {A} body.
Arguments Rejected {A} responseMessage message.

(** [response.data.data] of POST /v1/w3s/transactions/estimate. *)
Record EstimateData := {
  ed_gasLimit : option string;
  ed_gasPrice : option string;
  ed_estimatedCost : option string }.

Record GasEstimate := {
  ge_success : bool;
  ge_gasLimit : option string;
  ge_gasPrice : option string;
  ge_estimatedCost : option string;
  ge_blockchain : string;
  ge_error : option string }.

(** [estimateGasCost]; [blockchain] is [params.blockchain]. *)
Definition estimateGasCost (blockchain : option string) (answer : Http EstimateData)
  : GasEstimate :=
  let failed (msg : string) :=
    {| ge_success := false;
       ge_error := Some msg;
       ge_gasLimit := Some "500000";
       ge_gasPrice := Some "1000000000";
       ge_estimatedCost := Some "0.005";
       ge_blockchain := orElse blockchain "BASE-SEPOLIA" |} in
  match answer with
  | Resolved (Some d) =>
      {| ge_success := true;
         ge_gasLimit := ed_gasLimit d;
         ge_gasPrice := ed_gasPrice d;
         ge_estimatedCost := ed_estimatedCost d;
         ge_blockchain := default "BASE-SEPOLIA" blockchain;
         ge_error := None |}
  | Resolved None => failed "Cannot read properties of undefined (reading 'gasLimit')"
  | Rejected responseMessage message => failed (orElse responseMessage message)
  end.

(** [response.data.data] of the contract execution request, and the
    fields of it that [createGaslessTransaction] returns. *)
Record Created := {
  cr_id : option string;
  cr_state : option string;
  cr_txHash : option string }.

Definition createGaslessTransaction (answer : Http Created) : Outcome Created :=
  let rethrow (responseMessage : option string) (message : string) :=
    Threw (circleApiError
      ("Gasless transaction failed: " +:+ orElse responseMessage message)) in
  match answer with
  | Resolved (Some d) => Returned d
  | Resolved None => rethrow None "Cannot read properties of undefined (reading 'id')"
  | Rejected responseMessage message => rethrow responseMessage message
  end.

Record MintParams := {
  walletId : string;
  recipientAddress : string;
  tokenURI : string;
  network : option string }.

Record NFTMintResult := {
  mr_success : bool;
  mr_tokenId : string;
  mr_transactionHash : option string;
  mr_gasUsed : option string;
  mr_gasSaved : option string;
  mr_blockHash : option string;
  mr_blockHeight : option Z;
  mr_network : string;
  mr_timestamp : string }.

(** What the outside world answers during one mint: [ethers.isAddress],
    the contract's [getRemainingSupply()], the two POST requests, the
    status queries of the poller with the clock at which it starts, the
    chain RPC (and what it does when asked for the receipt of a
    missing hash), and [new Date().toISOString()]. *)
Record Chain := {
  isAddress : string -> bool;
  getRemainingSupply : string -> Outcome N;
  estimate : Http EstimateData;
  submission : Http Created;
  statusProvider : Provider;
  startTime : Z;
  rpc : Rpc;
  receiptOfMissingHash : Outcome (option Ethers.Receipt);
  toISOString : string }.

(** [this.getTokenIdFromTransaction(confirmedTx.txHash!, network)] *)
Definition tokenIdOfConfirmed (svc : BlockchainService) (env : Chain)
    (txHash : option string) (network : string) : Outcome string :=
  match txHash with
  | Some h => getTokenIdFromTransaction svc (rpc env) h network
  | None =>
      getTokenIdFromTransaction svc
        {| getTransactionReceipt := fun _ _ => receiptOfMissingHash env;
           parseLog := parseLog (rpc env) |}
        "" network
  end.

(** The [try] block of [mintNFT]; [None] when the poller is out of
    fuel. The id handed to the poller only appears in its URL and its
    messages, where a missing id reads 'undefined'. *)
Definition mintBody (fuel : nat) (svc : BlockchainService) (env : Chain)
    (params : MintParams) : option (Outcome NFTMintResult) :=
  let network := default "BASE-SEPOLIA" (network params) in
  if String.eqb (walletId params) "" || String.eqb (recipientAddress params) ""
     || String.eqb (tokenURI params) ""
  then Some (Threw (newError "Missing required parameters for NFT minting"))
  else if negb (isAddress env (recipientAddress params))
  then Some (Threw (newError "Invalid recipient address"))
  else
    match getNFTContract svc network with
    | Threw e => Some (Threw e)
    | Returned nftContract =>
        match getRemainingSupply env nftContract with
        | Threw e => Some (Threw e)
        | Returned remainingSupply =>
            if N.eqb remainingSupply 0
            then Some (Threw (newError "No NFTs remaining to mint"))
            else
              let gasEstimate := estimateGasCost (Some network) (estimate env) in
              match createGaslessTransaction (submission env) with
              | Threw e => Some (Threw e)
              | Returned transaction =>
                  match result (waitForTransaction fuel (statusProvider env)
                                  (interpolate (cr_id transaction))
                                  TRANSACTION_CONFIRMATION POLLING_INTERVAL
                                  (startTime env)) with
                  | OutOfFuel => None
                  | Done (Threw e) => Some (Threw e)
                  | Done (Returned confirmedTx) =>
                      match tokenIdOfConfirmed svc env (txHash confirmedTx) network with
                      | Threw e => Some (Threw e)
                      | Returned tokenId =>
                          Some (Returned
                            {| mr_success := true;
                               mr_tokenId := tokenId;
                               mr_transactionHash := txHash confirmedTx;
                               mr_gasUsed := gasUsed confirmedTx;
                               mr_gasSaved := ge_estimatedCost gasEstimate;
                               mr_blockHash := blockHash confirmedTx;
                               mr_blockHeight := blockHeight confirmedTx;
                               mr_network := network;
                               mr_timestamp := toISOString env |})
                      end
                  end
              end
        end
    end.

Definition mintNFT (fuel : nat) (svc : BlockchainService) (env : Chain)
    (params : MintParams) : option (Outcome NFTMintResult) :=
  match mintBody fuel svc env params with
  | Some (Threw error) =>
      Some (Threw (blockchainError ("NFT minting failed: " +:+ err_message error)))
  | finished => finished
  end.

(** The same world with another answer to the estimate request. *)
Definition withEstimate (answer : Http EstimateData) (env : Chain) : Chain :=
  {| isAddress := isAddress env;
     getRemainingSupply := getRemainingSupply env;
     estimate := answer;
     submission := submission env;
     statusProvider := statusProvider env;
     startTime := startTime env;
     rpc := rpc env;
     receiptOfMissingHash := receiptOfMissingHash env;
     toISOString := toISOString env |}.

(** *** An example world *)

(** Supply left, the estimate request fails, the submission is accepted
    as "tx-1", the status is Sent, Sent, then Confirmed. *)
Definition world : Chain :=
  {| isAddress := fun a => String.prefix "0x" a && Nat.eqb (String.length a) 42;
     getRemainingSupply := fun _ => Returned 100%N;
     estimate := Rejected None "Request failed with status code 500";
     submission := Resolved (Some {| cr_id := Some "tx-1"; cr_state := Some "INITIATED";
                                     cr_txHash := None |});
     statusProvider := sentSentConfirmed;
     startTime := 0;
     rpc := exampleRpc;
     receiptOfMissingHash := Threw (newError "invalid hash");
     toISOString := "2024-01-01T00:00:00.000Z" |}.

Definition params : MintParams :=
  {| walletId := "w-1";
     recipientAddress := "0x0000000000000000000000000000000000a11ce0";
     tokenURI := "ipfs://QmMeta"; network := None |}.

End Pipeline.

(** ** The second backend: which chain a mint is configured for *)

Module Backend2.
Import Nft.

(** The names that every object inherits from [Object.prototype]:
    looking one of them up in an object literal finds a value. *)
Definition objectPrototypeNames : list string :=
  ["constructor"; "hasOwnProperty"; "isPrototypeOf"; "propertyIsEnumerable";
   "toLocaleString"; "toString"; "valueOf"; "__proto__";
   "__defineGetter__"; "__defineSetter__"; "__lookupGetter__"; "__lookupSetter__"].

Definition inherited (key : string) : bool :=
  existsb (String.eqb key) objectPrototypeNames.

(** [internalMapping[blockchain] || 'base'], for a name that the
    table does not inherit. *)
Definition mapToInternalBlockchain (blockchain : string) : string :=
  if String.eqb blockchain "BASE-SEPOLIA" then "base"
  else if String.eqb blockchain "MATIC-AMOY" then "polygon"
  else if String.eqb blockchain "ETH-SEPOLIA" then "ethereum"
  else if String.eqb blockchain "BASE" then "base"
  else if String.eqb blockchain "MATIC" then "polygon"
  else if String.eqb blockchain "ETH" then "ethereum"
  else "base".

(** [config.blockchains]: the two chains of the configuration file,
    with the values it reads from the process environment. *)
Definition blockchains (base polygon : BlockchainConfig)
  : gmap string BlockchainConfig :=
  {[ "base" := base; "polygon" := polygon ]}.

(** [this.getBlockchainConfig(this.mapToInternalBlockchain(blockchain))],
    the first step of [mintNFT]. *)
Definition configFor (cfg : Config) (blockchain : string) : Outcome BlockchainConfig :=
  getBlockchainConfig cfg (mapToInternalBlockchain blockchain).

Definition polygon : BlockchainConfig :=
  {| bc_name := "Polygon Amoy"; chainId := 80002;
     rpcUrl := "https://rpc-amoy.polygon.technology/";
     nftContractAddress := "0xA317";
     usdcContractAddress := "0x41E94Eb019C0762f9Bfcf9Fb1E58725BfB0e7582";
     circleBlockchain := "MATIC-AMOY" |}.

Definition cfg : Config :=
  {| Nft.blockchains := blockchains CircleOps.base polygon;
     gateway := "https://ipfs.io/ipfs/";
     pinataApiKey := None;
     pinataSecretKey := None;
     metadataStorageCost := "1";
     circle := {| Circle.walletSetId := "set-1" |} |}.

End Backend2.

(** * Properties *)

(** ** Strings *)

Lemma prefix_append (p r : string) : String.prefix p (p +:+ r) = true.
Proof.
  induction p as [|c p IH]; simpl.
  - now destruct r.
  - destruct (ascii_dec c c) as [_|ne]; [exact IH | now destruct ne].
Qed.

Lemma includes_unfold (s sub : string) :
  includes s sub =
  String.prefix sub s ||
  match s with
  | EmptyString => false
  | String _ s' => includes s' sub
  end.
Proof. now destruct s. Qed.

(** A string includes each of its prefixes. *)
Lemma includes_append (p r : string) : includes (p +:+ r) p = true.
Proof. rewrite includes_unfold, prefix_append. reflexivity. Qed.

(** ** The poller *)

Module PollerFacts.
Import Poller.

Lemma pollOnce_confirmed transactionId d :
  td_state d = "CONFIRMED" ->
  pollOnce transactionId (HttpOk (Some d)) = Exit (Returned (statusOf transactionId d)).
Proof. intros H. unfold pollOnce, tryBlock. simpl. rewrite H. reflexivity. Qed.

Lemma failed_marker (r : string) :
  includes ("Transaction failed: " +:+ r) "Transaction failed" = true.
Proof. exact (includes_append "Transaction failed" (": " +:+ r)). Qed.

Lemma pollOnce_failed transactionId d :
  td_state d = "FAILED" ->
  pollOnce transactionId (HttpOk (Some d)) =
  Exit (Threw (newError ("Transaction failed: " +:+
                         orElse (td_errorReason d) "Unknown error"))).
Proof.
  intros H. unfold pollOnce, tryBlock, getTransactionStatus, statusOf, failedError.
  cbn [state data]. rewrite H.
  change (("FAILED" =? "CONFIRMED")%string) with false.
  change (("FAILED" =? "FAILED")%string) with true.
  cbv iota. unfold newError at 1. cbn [err_message].
  rewrite failed_marker. reflexivity.
Qed.

(** Any other state sends the loop to sleep. *)
Lemma pollOnce_other_state transactionId d :
  td_state d <> "CONFIRMED" -> td_state d <> "FAILED" ->
  pollOnce transactionId (HttpOk (Some d)) = Sleep.
Proof.
  intros Hc Hf. unfold pollOnce, tryBlock. simpl.
  apply String.eqb_neq in Hc, Hf. rewrite Hc, Hf. reflexivity.
Qed.

(** The text that [getTransactionStatus] puts before the message of a
    query error does not contain the marker: the marker is in the thrown
    message exactly when it is in the message of the provider (or, without
    one, of axios). *)
Lemma marker_in_query_error (m : string) :
  includes ("Get transaction status failed: " +:+ m) "Transaction failed" =
  includes m "Transaction failed".
Proof. reflexivity. Qed.

(** A query error is swallowed when its text lacks the marker. *)
Lemma pollOnce_query_error transactionId responseMessage message :
  includes (orElse responseMessage message) "Transaction failed" = false ->
  pollOnce transactionId (HttpError responseMessage message) = Sleep.
Proof.
  intros H. unfold pollOnce, tryBlock, getTransactionStatus, circleApiError.
  cbn [err_message]. rewrite marker_in_query_error, H. reflexivity.
Qed.

(** It is rethrown when its text has the marker. *)
Lemma pollOnce_query_error_marked transactionId responseMessage message :
  includes (orElse responseMessage message) "Transaction failed" = true ->
  pollOnce transactionId (HttpError responseMessage message) =
  Exit (Threw (circleApiError
    ("Get transaction status failed: " +:+ orElse responseMessage message))).
Proof.
  intros H. unfold pollOnce, tryBlock, getTransactionStatus, circleApiError.
  cbn [err_message]. rewrite marker_in_query_error, H. reflexivity.
Qed.

(** An answer without a body is a query error like any other. *)
Lemma pollOnce_missing_body transactionId :
  pollOnce transactionId (HttpOk None) = Sleep.
Proof. reflexivity. Qed.

Section Runs.
Variable provider : Provider.
Variable transactionId : string.
Variables maxWaitTime pollInterval startTime : Z.

Local Abbreviation loop := (loop provider transactionId maxWaitTime pollInterval startTime).
Local Abbreviation testedAt := (testedAt provider pollInterval startTime).
Local Abbreviation sleptUntil := (sleptUntil provider transactionId).

Lemma sleepTime_nonneg e : 0 <= sleepTime pollInterval e.
Proof. unfold sleepTime. lia. Qed.

Lemma testedAt_step k : testedAt k <= testedAt (S k).
Proof. simpl. pose proof (sleepTime_nonneg (provider k)). lia. Qed.

Lemma testedAt_mono i k : (i <= k)%nat -> testedAt i <= testedAt k.
Proof.
  induction 1 as [|k _ IH]; [lia|].
  pose proof (testedAt_step k). lia.
Qed.

(** Passes that sleep within the budget only move the loop forward. *)
Lemma loop_skips j k fuel :
  (forall i, (j <= i < j + k)%nat ->
             pollOnce transactionId (http (provider i)) = Sleep /\
             testedAt i - startTime < maxWaitTime) ->
  loop (k + fuel) j (testedAt j) = loop fuel (j + k) (testedAt (j + k)).
Proof.
  revert j. induction k as [|k IH]; intros j H.
  - now rewrite Nat.add_0_r.
  - destruct (H j ltac:(lia)) as [Hs Hb].
    change (S k + fuel)%nat with (S (k + fuel)). cbn [Poller.loop].
    apply Z.ltb_lt in Hb. rewrite Hb, Hs.
    replace (j + S k)%nat with (S j + k)%nat by lia.
    rewrite <- IH by (intros i Hi; apply H; lia).
    reflexivity.
Qed.

Lemma loop_reaches k fuel :
  sleptUntil k ->
  (forall i, (i < k)%nat -> testedAt i - startTime < maxWaitTime) ->
  loop (k + fuel) 0 startTime = loop fuel k (testedAt k).
Proof.
  intros Hs Hb. apply (loop_skips 0 k fuel). intros i Hi. split.
  - apply Hs; lia.
  - apply Hb; lia.
Qed.

(** Once a loop test passes, all earlier tests passed. *)
Lemma tested_before k :
  testedAt k - startTime < maxWaitTime ->
  forall i, (i < k)%nat -> testedAt i - startTime < maxWaitTime.
Proof.
  intros Hb i Hi. pose proof (testedAt_mono i k ltac:(lia)). lia.
Qed.

(** The pass that exits. *)
Lemma loop_exits k fuel r :
  sleptUntil k ->
  testedAt k - startTime < maxWaitTime ->
  pollOnce transactionId (http (provider k)) = Exit r ->
  (k < fuel)%nat ->
  waitForTransaction fuel provider transactionId maxWaitTime pollInterval startTime =
  {| result := Done r;
     finishedAt := testedAt k + Z.of_N (latency (provider k));
     polls := S k |}.
Proof.
  intros Hs Hb He Hf. unfold waitForTransaction.
  replace fuel with (k + S (fuel - S k))%nat by lia.
  rewrite loop_reaches; [| assumption | apply tested_before; assumption].
  cbn [Poller.loop]. apply Z.ltb_lt in Hb. rewrite Hb, He. reflexivity.
Qed.

(** The loop test that fails. *)
Lemma loop_times_out k fuel :
  sleptUntil k ->
  (forall i, (i < k)%nat -> testedAt i - startTime < maxWaitTime) ->
  maxWaitTime <= testedAt k - startTime ->
  (k < fuel)%nat ->
  waitForTransaction fuel provider transactionId maxWaitTime pollInterval startTime =
  {| result := Done (Threw (timeoutError transactionId maxWaitTime));
     finishedAt := testedAt k;
     polls := k |}.
Proof.
  intros Hs Hb He Hf. unfold waitForTransaction.
  replace fuel with (k + S (fuel - S k))%nat by lia.
  rewrite loop_reaches by assumption.
  cbn [Poller.loop]. apply Z.ltb_ge in He. rewrite He. reflexivity.
Qed.

(** With a positive interval the k-th test comes at least [k] intervals
    after the start, so some test fails. *)
Lemma testedAt_lower k : 0 < pollInterval -> startTime + Z.of_nat k * pollInterval <= testedAt k.
Proof.
  intros Hp. induction k as [|k IH]; [simpl; lia|].
  cbn [Poller.testedAt]. unfold sleepTime. lia.
Qed.

Lemma first_failing_test :
  0 < pollInterval ->
  exists n, maxWaitTime <= testedAt n - startTime /\
            forall i, (i < n)%nat -> testedAt i - startTime < maxWaitTime.
Proof.
  intros Hp.
  assert (Hex : exists m, maxWaitTime <= testedAt m - startTime).
  { exists (Z.to_nat maxWaitTime). pose proof (testedAt_lower (Z.to_nat maxWaitTime) Hp). nia. }
  destruct Hex as [m Hm]. induction m as [|m IH].
  - exists 0%nat. split; [assumption | intros i Hi; lia].
  - destruct (Z_lt_le_dec (testedAt m - startTime) maxWaitTime) as [Hlt|Hge].
    + exists (S m). split; [assumption|]. intros i Hi.
      destruct (Nat.eq_dec i m) as [->|Hne]; [assumption|].
      apply (tested_before m Hlt). lia.
    + apply IH. assumption.
Qed.

(** Among the first [n] passes, either one exits or all go to sleep. *)
Lemma first_exit_or_none (n : nat) :
  (exists k r, (k < n)%nat /\ sleptUntil k /\
               pollOnce transactionId (http (provider k)) = Exit r) \/
  sleptUntil n.
Proof.
  induction n as [|n [[k [r [Hk [Hs He]]]]|Hs]].
  - right. intros i Hi. lia.
  - left. exists k, r. split; [lia | now split].
  - destruct (pollOnce transactionId (http (provider n))) as [r|] eqn:He.
    + left. exists n, r. split; [lia | now split].
    + right. intros i Hi. destruct (Nat.eq_dec i n) as [->|Hne]; [assumption|].
      apply Hs. lia.
Qed.

(** With a positive interval the call finishes, whatever the provider
    answers: some amount of fuel is enough, and more changes nothing. *)
Lemma waitForTransaction_finishes :
  0 < pollInterval ->
  exists (n : nat) (r : Outcome TransactionResponse) (finished : Z) (issued : nat),
    forall fuel, (n < fuel)%nat ->
      waitForTransaction fuel provider transactionId maxWaitTime pollInterval startTime =
      {| result := Done r; finishedAt := finished; polls := issued |}.
Proof.
  intros Hp. destruct (first_failing_test Hp) as [n [Hn Hbefore]].
  destruct (first_exit_or_none n) as [[k [r [Hk [Hs He]]]]|Hs].
  - exists n, r, (testedAt k + Z.of_N (latency (provider k))), (S k).
    intros fuel Hf. apply loop_exits; try assumption; [apply Hbefore; lia | lia].
  - exists n, (Threw (timeoutError transactionId maxWaitTime)), (testedAt n), n.
    intros fuel Hf. now apply loop_times_out.
Qed.

End Runs.

(** [Sent], [Sent], [Confirmed]: the third query returns, two sleeps after
    the start, whenever the budget lasts longer than two sleeps. *)
Example sentSentConfirmed_returns (maxWaitTime pollInterval startTime : Z) :
  2 * Z.max 0 pollInterval < maxWaitTime ->
  waitForTransaction 3 sentSentConfirmed "tx-1" maxWaitTime pollInterval startTime =
  {| result := Done (Returned (statusOf "tx-1" (txData "CONFIRMED")));
     finishedAt := startTime + 2 * Z.max 0 pollInterval;
     polls := 3 |}.
Proof.
  intros H.
  rewrite (loop_exits sentSentConfirmed "tx-1" maxWaitTime pollInterval startTime 2 3
             (Returned (statusOf "tx-1" (txData "CONFIRMED")))).
  - f_equal. cbn. unfold sleepTime. cbn. lia.
  - intros [|[|i]] Hi; [reflexivity | reflexivity | lia].
  - cbn. unfold sleepTime. cbn. lia.
  - reflexivity.
  - lia.
Qed.

(** The status query throws on the first call and answers [Confirmed] on
    the second: the call returns after one sleep. *)
Example throwsOnOddCalls_returns :
  waitForTransaction 10 throwsOnOddCalls "tx-1"
    TRANSACTION_CONFIRMATION POLLING_INTERVAL 0 =
  {| result := Done (Returned (statusOf "tx-1" (txData "CONFIRMED")));
     finishedAt := 3000;
     polls := 2 |}.
Proof. reflexivity. Qed.

(** C1. When the k-th status query is issued (every earlier pass went
    to sleep and the loop test before it passed) and answers CONFIRMED,
    [waitForTransaction] returns that status as soon as the answer is in:
    k+1 queries, no sleep after the last one. *)
Theorem waitForTransaction_returns_confirmed
    (provider : Provider) (transactionId : string)
    (maxWaitTime pollInterval startTime : Z) (k fuel : nat) (d : TxData) :
  sleptUntil provider transactionId k ->
  testedAt provider pollInterval startTime k - startTime < maxWaitTime ->
  http (provider k) = HttpOk (Some d) ->
  td_state d = "CONFIRMED" ->
  (k < fuel)%nat ->
  waitForTransaction fuel provider transactionId maxWaitTime pollInterval startTime =
  {| result := Done (Returned (statusOf transactionId d));
     finishedAt := testedAt provider pollInterval startTime k
                   + Z.of_N (latency (provider k));
     polls := S k |}.
Proof.
  intros Hs Hb Hk Hd Hf. apply loop_exits; try assumption.
  rewrite Hk. apply pollOnce_confirmed. exact Hd.
Qed.

Lemma waitForTransaction_returns_confirmed_witness :
  waitForTransaction 3 sentSentConfirmed "tx-1"
    TRANSACTION_CONFIRMATION POLLING_INTERVAL 0 =
  {| result := Done (Returned (statusOf "tx-1" (txData "CONFIRMED")));
     finishedAt := 6000;
     polls := 3 |}.
Proof.
  apply (waitForTransaction_returns_confirmed sentSentConfirmed "tx-1"
           TRANSACTION_CONFIRMATION POLLING_INTERVAL 0 2 3 (txData "CONFIRMED")).
  - intros [|[|i]] Hi; [reflexivity | reflexivity | lia].
  - reflexivity.
  - reflexivity.
  - reflexivity.
  - lia.
Defined.

(** C2. When the k-th status query is issued and answers FAILED,
    [waitForTransaction] throws "Transaction failed: <errorReason>"
    ("Unknown error" without a reason) as soon as the answer is in: k+1
    queries, no sleep after the last one. *)
Theorem waitForTransaction_throws_on_failed
    (provider : Provider) (transactionId : string)
    (maxWaitTime pollInterval startTime : Z) (k fuel : nat) (d : TxData) :
  sleptUntil provider transactionId k ->
  testedAt provider pollInterval startTime k - startTime < maxWaitTime ->
  http (provider k) = HttpOk (Some d) ->
  td_state d = "FAILED" ->
  (k < fuel)%nat ->
  waitForTransaction fuel provider transactionId maxWaitTime pollInterval startTime =
  {| result := Done (Threw (newError ("Transaction failed: " +:+
                                      orElse (td_errorReason d) "Unknown error")));
     finishedAt := testedAt provider pollInterval startTime k
                   + Z.of_N (latency (provider k));
     polls := S k |}.
Proof.
  intros Hs Hb Hk Hd Hf. apply loop_exits; try assumption.
  rewrite Hk. apply pollOnce_failed. exact Hd.
Qed.

Lemma waitForTransaction_throws_on_failed_witness :
  waitForTransaction 1 failsAtOnce "tx-1"
    TRANSACTION_CONFIRMATION POLLING_INTERVAL 0 =
  {| result := Done (Threw (newError "Transaction failed: execution reverted"));
     finishedAt := 0;
     polls := 1 |}.
Proof.
  apply (waitForTransaction_throws_on_failed failsAtOnce "tx-1"
           TRANSACTION_CONFIRMATION POLLING_INTERVAL 0 0 1 revertedData).
  - intros i Hi. lia.
  - reflexivity.
  - reflexivity.
  - reflexivity.
  - lia.
Defined.

Lemma testedAt_upper (provider : Provider) (pollInterval startTime overhead : Z) (k : nat) :
  0 <= pollInterval ->
  (forall i, Z.of_N (latency (provider i)) + Z.of_N (drift (provider i)) <= overhead) ->
  testedAt provider pollInterval startTime k
  <= startTime + Z.of_nat k * (pollInterval + overhead).
Proof.
  intros Hp Ho. induction k as [|k IH]; [simpl; lia|].
  cbn [testedAt]. unfold sleepTime. specialize (Ho k). lia.
Qed.

(** C3, the claim as stated fails: the provider always answers QUEUED,
    each query taking 400 ms; with maxWaitTime = 500 and pollInterval = 100
    the call times out after a single status query, not four. *)
Lemma slow_provider_times_out_after_one_poll :
  (forall k, http (alwaysQueued 400 k) = HttpOk (Some (txData "QUEUED"))) /\
  waitForTransaction 10 (alwaysQueued 400) "tx-1" 500 100 0 =
  {| result := Done (Threw (timeoutError "tx-1" 500)); finishedAt := 500; polls := 1 |} /\
  ~ (4 <= polls (waitForTransaction 10 (alwaysQueued 400) "tx-1" 500 100 0))%nat.
Proof.
  split; [reflexivity|]. split; [reflexivity|].
  change (~ (4 <= 1)%nat). lia.
Qed.

(** C3, amended. When every pass goes to sleep (the query reports a state
    other than CONFIRMED and FAILED, or its error is swallowed) and
    pollInterval is positive, [waitForTransaction] throws
    "Transaction <id> confirmation timeout after <maxWaitTime>ms" at the
    first loop test at which maxWaitTime has elapsed, having issued one
    query per earlier test. With maxWaitTime = 500, pollInterval = 100 and
    at most 25 ms of query latency and timer drift per pass, that is after
    4 or 5 queries, between 500 and 625 ms after the start. *)
Theorem waitForTransaction_times_out
    (provider : Provider) (transactionId : string)
    (maxWaitTime pollInterval startTime : Z) :
  0 < pollInterval ->
  (forall k, pollOnce transactionId (http (provider k)) = Sleep) ->
  exists n : nat,
    (forall fuel, (n < fuel)%nat ->
       waitForTransaction fuel provider transactionId maxWaitTime pollInterval startTime =
       {| result := Done (Threw (timeoutError transactionId maxWaitTime));
          finishedAt := testedAt provider pollInterval startTime n;
          polls := n |}) /\
    maxWaitTime <= testedAt provider pollInterval startTime n - startTime /\
    (forall i, (i < n)%nat ->
       testedAt provider pollInterval startTime i - startTime < maxWaitTime) /\
    (maxWaitTime = 500 -> pollInterval = 100 ->
     (forall k, Z.of_N (latency (provider k)) + Z.of_N (drift (provider k)) <= 25) ->
     (4 <= n <= 5)%nat /\
     500 <= testedAt provider pollInterval startTime n - startTime < 625).
Proof.
  intros Hp Hs.
  destruct (first_failing_test provider maxWaitTime pollInterval startTime Hp)
    as [n [Hn Hbefore]].
  exists n. repeat split; try assumption.
  - intros fuel Hf. apply loop_times_out; try assumption. intros i _. apply Hs.
  - subst. pose proof (testedAt_upper provider 100 startTime 25 n ltac:(lia) H1). lia.
  - subst. destruct n as [|n]; [lia|].
    pose proof (Hbefore n ltac:(lia)).
    pose proof (testedAt_lower provider 100 startTime n ltac:(lia)). lia.
  - subst. lia.
  - subst. destruct n as [|n]; [simpl in Hn; lia|].
    pose proof (Hbefore n ltac:(lia)) as Hb.
    cbn [testedAt]. unfold sleepTime. specialize (H1 n). lia.
Qed.

Lemma waitForTransaction_times_out_witness :
  exists n : nat,
    (forall fuel, (n < fuel)%nat ->
       waitForTransaction fuel (alwaysQueued 0) "tx-1" 500 100 0 =
       {| result := Done (Threw (timeoutError "tx-1" 500));
          finishedAt := testedAt (alwaysQueued 0) 100 0 n;
          polls := n |}) /\
    500 <= testedAt (alwaysQueued 0) 100 0 n - 0 /\
    (forall i, (i < n)%nat -> testedAt (alwaysQueued 0) 100 0 i - 0 < 500) /\
    (500 = 500 -> 100 = 100 ->
     (forall k, Z.of_N (latency (alwaysQueued 0 k)) + Z.of_N (drift (alwaysQueued 0 k)) <= 25) ->
     (4 <= n <= 5)%nat /\
     500 <= testedAt (alwaysQueued 0) 100 0 n - 0 < 625).
Proof.
  apply (waitForTransaction_times_out (alwaysQueued 0) "tx-1" 500 100 0).
  - lia.
  - intros k. reflexivity.
Defined.

(** The provider that always answers QUEUED at once: five queries, and the
    timeout 500 ms after the start. *)
Example alwaysQueued_times_out :
  waitForTransaction 10 (alwaysQueued 0) "tx-1" 500 100 0 =
  {| result := Done (Threw (newError "Transaction tx-1 confirmation timeout after 500ms"));
     finishedAt := 500;
     polls := 5 |}.
Proof. reflexivity. Qed.

(** C4, at the failing input: the status endpoint rejects the first query
    with a body whose message is "Transaction failed to load" and would
    answer CONFIRMED from the second query on. [waitForTransaction]
    rethrows the error of the query at once, after one query and no
    sleep. *)
Theorem waitForTransaction_rethrows_marked_query_error :
  pollOnce "tx-1" (http (rejectsThenConfirms 1%nat)) =
    Exit (Returned (statusOf "tx-1" (txData "CONFIRMED"))) /\
  forall fuel, (0 < fuel)%nat ->
    waitForTransaction fuel rejectsThenConfirms "tx-1"
      TRANSACTION_CONFIRMATION POLLING_INTERVAL 0 =
    {| result := Done (Threw (circleApiError
         "Get transaction status failed: Transaction failed to load"));
       finishedAt := 0;
       polls := 1 |}.
Proof.
  split; [reflexivity|]. intros [|fuel] Hf; [lia | reflexivity].
Qed.

End PollerFacts.

(** ** The receipt parser *)

Module ReceiptFacts.
Import Ethers Receipt.

Lemma mintedEvents_nil (rpc : Rpc) (receipt : Receipt) :
  Forall (fun log => isMinted (decodeLog rpc log) = false) (logs receipt) ->
  mintedEvents rpc receipt = [].
Proof.
  unfold mintedEvents. induction 1 as [|log rest Hlog _ IH]; [reflexivity|].
  cbn [map]. rewrite filter_cons. rewrite decide_False by (rewrite Hlog; discriminate).
  exact IH.
Qed.

Lemma mintedEvents_app (rpc : Rpc) (l1 l2 : list Log) :
  mintedEvents rpc {| logs := l1 ++ l2 |} =
  mintedEvents rpc {| logs := l1 |} ++ mintedEvents rpc {| logs := l2 |}.
Proof. unfold mintedEvents. cbn [logs]. now rewrite map_app, filter_app. Qed.

(** A log that does not decode leaves no trace among the events. *)
Lemma mintedEvents_skip (rpc : Rpc) (l1 l2 : list Log) (bad : Log) (e : JsError) :
  parseLog rpc bad = Threw e ->
  mintedEvents rpc {| logs := l1 ++ bad :: l2 |} = mintedEvents rpc {| logs := l1 ++ l2 |}.
Proof.
  intros H. rewrite !mintedEvents_app. f_equal.
  change (bad :: l2) with ([bad] ++ l2). rewrite mintedEvents_app.
  unfold mintedEvents at 1. cbn [logs map]. unfold decodeLog at 1. rewrite H.
  reflexivity.
Qed.

(** The first NFTMinted event of a receipt. *)
Lemma mintedEvents_first (rpc : Rpc) (l1 l2 : list Log) (log : Log) (d : LogDescription) :
  Forall (fun l => isMinted (decodeLog rpc l) = false) l1 ->
  decodeLog rpc log = Some d ->
  name d = "NFTMinted" ->
  mintedEvents rpc {| logs := l1 ++ log :: l2 |} =
  Some d :: mintedEvents rpc {| logs := l2 |}.
Proof.
  intros H1 Hd Hn. rewrite mintedEvents_app, (mintedEvents_nil rpc {| logs := l1 |} H1).
  unfold mintedEvents. cbn [logs map app]. rewrite filter_cons, Hd.
  rewrite decide_True; [reflexivity|]. cbn. rewrite Hn. reflexivity.
Qed.

(** What [parseLog] says of a log decides whether it counts as an
    NFTMinted event. *)
Lemma decodeLog_not_minted (rpc : Rpc) (log : Log) :
  match parseLog rpc log with
  | Returned (Some d) => name d <> "NFTMinted"
  | _ => True
  end ->
  isMinted (decodeLog rpc log) = false.
Proof.
  unfold decodeLog, isMinted. destruct (parseLog rpc log) as [[d|]|e]; try reflexivity.
  intros H. now apply String.eqb_neq.
Qed.

Lemma decodeLog_parsed (rpc : Rpc) (log : Log) (d : LogDescription) :
  parseLog rpc log = Returned (Some d) -> decodeLog rpc log = Some d.
Proof. intros H. unfold decodeLog. now rewrite H. Qed.

Lemma no_minted_logs (rpc : Rpc) (l : list Log) :
  Forall (fun log => match parseLog rpc log with
                     | Returned (Some d) => name d <> "NFTMinted"
                     | _ => True
                     end) l ->
  Forall (fun log => isMinted (decodeLog rpc log) = false) l.
Proof.
  intros H. eapply Forall_impl; [exact H|].
  intros log. apply decodeLog_not_minted.
Qed.

(** C7. [getTokenIdFromTransaction] always returns a string and never
    throws: it returns "pending" when the receipt is missing, when
    fetching it throws, and when [parseLog] decodes no log of the
    receipt to an NFTMinted event (it throws, gives nothing, or gives
    an event of another name); when [parseLog] decodes a log of the
    receipt to an NFTMinted event and none before it, it returns the
    token id of that event in decimal ("pending" if the event has no
    token id); and a log whose decoding throws can be deleted from
    the receipt without changing the result. *)
Theorem getTokenIdFromTransaction_degrades
    (svc : BlockchainService) (rpc : Rpc) (txHash network : string) :
  (exists tokenId, getTokenIdFromTransaction svc rpc txHash network = Returned tokenId) /\
  (getTransactionReceipt rpc network txHash = Returned None ->
   getTokenIdFromTransaction svc rpc txHash network = Returned "pending") /\
  (forall e, getTransactionReceipt rpc network txHash = Threw e ->
   getTokenIdFromTransaction svc rpc txHash network = Returned "pending") /\
  (forall receipt,
   getTransactionReceipt rpc network txHash = Returned (Some receipt) ->
   Forall (fun log => match parseLog rpc log with
                      | Returned (Some d) => name d <> "NFTMinted"
                      | _ => True
                      end) (logs receipt) ->
   getTokenIdFromTransaction svc rpc txHash network = Returned "pending") /\
  (forall l1 log l2 d n,
   network ∈ providers svc -> "NFT_" +:+ network ∈ contracts svc ->
   getTransactionReceipt rpc network txHash = Returned (Some {| logs := l1 ++ log :: l2 |}) ->
   Forall (fun l => match parseLog rpc l with
                    | Returned (Some d') => name d' <> "NFTMinted"
                    | _ => True
                    end) l1 ->
   parseLog rpc log = Returned (Some d) -> name d = "NFTMinted" ->
   args_tokenId d = Some n ->
   getTokenIdFromTransaction svc rpc txHash network = Returned (N_toString n)) /\
  (forall l1 log l2 d,
   getTransactionReceipt rpc network txHash = Returned (Some {| logs := l1 ++ log :: l2 |}) ->
   Forall (fun l => match parseLog rpc l with
                    | Returned (Some d') => name d' <> "NFTMinted"
                    | _ => True
                    end) l1 ->
   parseLog rpc log = Returned (Some d) -> name d = "NFTMinted" ->
   args_tokenId d = None ->
   getTokenIdFromTransaction svc rpc txHash network = Returned "pending") /\
  (forall rpc' l1 bad l2 e,
   parseLog rpc' = parseLog rpc ->
   parseLog rpc bad = Threw e ->
   getTransactionReceipt rpc network txHash
     = Returned (Some {| logs := l1 ++ bad :: l2 |}) ->
   getTransactionReceipt rpc' network txHash = Returned (Some {| logs := l1 ++ l2 |}) ->
   getTokenIdFromTransaction svc rpc txHash network
   = getTokenIdFromTransaction svc rpc' txHash network).
Proof.
  unfold getTokenIdFromTransaction, extractTokenId, getProvider, getNFTContract.
  repeat split.
  - destruct (decide (network ∈ providers svc)); [|eauto].
    destruct (getTransactionReceipt rpc network txHash) as [[receipt|]|]; [|eauto|eauto].
    destruct (decide ("NFT_" +:+ network ∈ contracts svc)); [|eauto].
    destruct (mintedEvents rpc receipt) as [|[d|] rest]; [eauto| |eauto].
    unfold tokenIdToString. destruct (args_tokenId d); eauto.
  - intros H. destruct (decide (network ∈ providers svc)); [|reflexivity].
    rewrite H. reflexivity.
  - intros e H. destruct (decide (network ∈ providers svc)); [|reflexivity].
    rewrite H. reflexivity.
  - intros receipt H Hnone. apply no_minted_logs in Hnone.
    destruct (decide (network ∈ providers svc)); [|reflexivity].
    rewrite H. destruct (decide ("NFT_" +:+ network ∈ contracts svc)); [|reflexivity].
    rewrite (mintedEvents_nil rpc receipt Hnone). reflexivity.
  - intros l1 log l2 d n Hp Hc H H1 Hd Hn Ht.
    apply no_minted_logs in H1. apply decodeLog_parsed in Hd.
    rewrite decide_True by assumption. rewrite H.
    rewrite decide_True by assumption.
    rewrite (mintedEvents_first rpc l1 l2 log d H1 Hd Hn).
    unfold tokenIdToString. rewrite Ht. reflexivity.
  - intros l1 log l2 d H H1 Hd Hn Ht.
    apply no_minted_logs in H1. apply decodeLog_parsed in Hd.
    destruct (decide (network ∈ providers svc)); [|reflexivity]. rewrite H.
    destruct (decide ("NFT_" +:+ network ∈ contracts svc)); [|reflexivity].
    rewrite (mintedEvents_first rpc l1 l2 log d H1 Hd Hn).
    unfold tokenIdToString. rewrite Ht. reflexivity.
  - intros rpc' l1 bad l2 e Hparse Hbad H H'.
    destruct (decide (network ∈ providers svc)); [|reflexivity].
    rewrite H, H'.
    destruct (decide ("NFT_" +:+ network ∈ contracts svc)); [|reflexivity].
    rewrite (mintedEvents_skip rpc l1 l2 bad e Hbad).
    assert (Hsame : forall l, mintedEvents rpc' {| logs := l |}
                              = mintedEvents rpc {| logs := l |}).
    { intros l. unfold mintedEvents, decodeLog. now rewrite Hparse. }
    now rewrite Hsame.
Qed.

(** The receipt of "0xcc": a log that does not decode, then the
    NFTMinted event of token 42. *)
Lemma getTokenIdFromTransaction_degrades_witness :
  getTokenIdFromTransaction baseSepolia exampleRpc "0xcc" "BASE-SEPOLIA"
    = Returned (N_toString 42).
Proof.
  destruct (getTokenIdFromTransaction_degrades baseSepolia exampleRpc "0xcc"
              "BASE-SEPOLIA") as (_ & _ & _ & _ & Hfound & _).
  apply (Hfound [foreignLog] mintLog []
           {| name := "NFTMinted"; args_from := None; args_tokenId := Some 42%N |}
           42%N).
  - vm_compute. reflexivity.
  - vm_compute. reflexivity.
  - reflexivity.
  - constructor; [exact I | constructor].
  - reflexivity.
  - reflexivity.
  - reflexivity.
Defined.

(** A receipt without logs, one whose logs do not decode, one with the
    event of token 42 behind a log that does not decode, and no receipt. *)
Example getTokenIdFromTransaction_examples :
  getTokenIdFromTransaction baseSepolia exampleRpc "0xaa" "BASE-SEPOLIA" = Returned "pending" /\
  getTokenIdFromTransaction baseSepolia exampleRpc "0xbb" "BASE-SEPOLIA" = Returned "pending" /\
  getTokenIdFromTransaction baseSepolia exampleRpc "0xcc" "BASE-SEPOLIA" = Returned "42" /\
  getTokenIdFromTransaction baseSepolia exampleRpc "0xdd" "BASE-SEPOLIA" = Returned "pending".
Proof. repeat split; vm_compute; reflexivity. Qed.

End ReceiptFacts.

(** ** What a service does to the state *)

Module WorldFacts.
Import World Ethers Nft.

Section Preserves.
Variable R : State -> State -> Prop.
Variable P : Call -> Prop.
Hypothesis R_refl : forall s, R s s.
Hypothesis R_trans : forall s1 s2 s3, R s1 s2 -> R s2 s3 -> R s1 s3.
Hypothesis R_call : forall A (c : Call) (answer : list Call -> Outcome A) s,
  P c -> R s (call c answer s).2.
Hypothesis R_random : forall env s, R s (random env s).2.
Hypothesis R_now : forall env s, R s (now env s).2.
Hypothesis R_uuid : forall env s, R s (uuid env s).2.
Hypothesis R_setLedger : forall l s, R s (setLedger l s).2.

Lemma preserves_ret {A} (a : A) : preserves R (mret a).
Proof. intros s. apply R_refl. Qed.

Lemma preserves_throw {A} (e : JsError) : preserves R (@throw A e).
Proof. intros s. apply R_refl. Qed.

Lemma preserves_lift {A} (o : Outcome A) : preserves R (lift o).
Proof. intros s. apply R_refl. Qed.

Lemma preserves_bind {A B} (m : M A) (k : A -> M B) :
  preserves R m -> (forall a, preserves R (k a)) -> preserves R (m ≫= k).
Proof.
  intros Hm Hk s. unfold mbind, M_bind, bind.
  specialize (Hm s). destruct (m s) as [[a|e] s1]; cbn in *.
  - apply (R_trans _ s1); [assumption | apply Hk].
  - assumption.
Qed.

Lemma preserves_tryCatch {A} (body : M A) (handler : JsError -> M A) :
  preserves R body -> (forall e, preserves R (handler e)) ->
  preserves R (tryCatch body handler).
Proof.
  intros Hb Hh s. unfold tryCatch.
  specialize (Hb s). destruct (body s) as [[a|e] s1]; cbn in *.
  - assumption.
  - apply (R_trans _ s1); [assumption | apply Hh].
Qed.

Lemma preserves_getLedger : preserves R getLedger.
Proof. intros s. apply R_refl. Qed.

Lemma preserves_deref (r : nat) : preserves R (Ledger.deref r).
Proof. intros s. unfold Ledger.deref. destruct (objects (ledger s) !! r); apply R_refl. Qed.

Lemma preserves_call {A} (c : Call) (answer : list Call -> Outcome A) :
  P c -> preserves R (call c answer).
Proof. intros Hc s. now apply R_call. Qed.

Lemma preserves_random env : preserves R (random env).
Proof. intros s. apply R_random. Qed.

Lemma preserves_now env : preserves R (now env).
Proof. intros s. apply R_now. Qed.

Lemma preserves_uuid env : preserves R (uuid env).
Proof. intros s. apply R_uuid. Qed.

Lemma preserves_setLedger l : preserves R (setLedger l).
Proof. intros s. apply R_setLedger. Qed.

End Preserves.

(** Takes a goal [preserves R m] apart along the structure of [m]. *)
Ltac preserve :=
  repeat first
    [ assumption
    | apply preserves_ret; assumption
    | apply preserves_throw; assumption
    | apply preserves_lift; assumption
    | apply preserves_getLedger; assumption
    | apply preserves_deref; assumption
    | apply preserves_random; assumption
    | apply preserves_now; assumption
    | apply preserves_uuid; assumption
    | apply preserves_setLedger; assumption
    | eapply preserves_call; [eassumption | solve [auto]]
    | apply preserves_bind; [assumption | | intros]
    | apply preserves_tryCatch; [assumption | | intros]
    | match goal with
      | |- preserves _ (match ?x with _ => _ end) => destruct x
      end ].

Section Services.
Variable R : State -> State -> Prop.
Variable P : Call -> Prop.
Hypothesis R_refl : forall s, R s s.
Hypothesis R_trans : forall s1 s2 s3, R s1 s2 -> R s2 s3 -> R s1 s3.
Hypothesis R_call : forall A (c : Call) (answer : list Call -> Outcome A) s,
  P c -> R s (call c answer s).2.
Hypothesis R_random : forall env s, R s (random env s).2.
Hypothesis R_now : forall env s, R s (now env s).2.
Hypothesis R_uuid : forall env s, R s (uuid env s).2.
Hypothesis R_setLedger : forall l s, R s (setLedger l s).2.
Hypothesis P_balances : forall w, P (HttpGetBalances w).
Hypothesis P_pin : forall m n, P (HttpPinJSON m n).
Hypothesis P_receipt : forall c h, P (RpcGetTransactionReceipt c h).
Hypothesis P_submit : forall w addr sig params fee amt,
  P (SdkCreateTransaction w "ETH-SEPOLIA" addr sig params fee amt).
Hypothesis P_wallets : forall n t ws, P (SdkCreateWallets n t ["ETH-SEPOLIA"] ws).

Variable env : Env.
Variable cfg : Config.

Lemma preserves_createMockIPFS metadata : preserves R (createMockIPFS env cfg metadata).
Proof. unfold createMockIPFS. preserve. Qed.

Lemma preserves_uploadMetadataToIPFS metadata :
  preserves R (uploadMetadataToIPFS env cfg metadata).
Proof.
  unfold uploadMetadataToIPFS, uploadToPinata.
  pose proof preserves_createMockIPFS. preserve; auto.
Qed.

Lemma preserves_handleUSDCPayment walletId blockchainConfig :
  preserves R (handleUSDCPayment env cfg walletId blockchainConfig).
Proof. unfold handleUSDCPayment, Circle.getWalletBalance. preserve. Qed.

Lemma preserves_mockTxHash : preserves R (Circle.mockTxHash env).
Proof. unfold Circle.mockTxHash. preserve. Qed.

Lemma preserves_orElseM a b : preserves R b -> preserves R (Circle.orElseM a b).
Proof. intros Hb. unfold Circle.orElseM. destruct a as [x|]; [destruct (x =? "")%string|]; preserve. Qed.

Lemma preserves_executeGaslessTransaction walletId contractAddress sig params amount :
  preserves R (Circle.executeGaslessTransaction env walletId contractAddress sig params
                 gaslessBlockchain amount).
Proof.
  unfold Circle.executeGaslessTransaction, gaslessBlockchain.
  pose proof preserves_mockTxHash.
  apply preserves_tryCatch; [assumption | | intros e].
  - apply preserves_bind; [assumption | preserve | intros [body|]]; [|preserve].
    apply preserves_bind; [assumption | apply preserves_orElseM; preserve | intros txId].
    apply preserves_bind; [assumption | apply preserves_orElseM; assumption | intros txHash].
    preserve.
  - destruct (decide (NODE_ENV env = Some "development")); preserve.
Qed.

Lemma preserves_parseTokenIdFromTransaction transactionHash blockchainConfig internalBlockchain :
  preserves R (parseTokenIdFromTransaction env cfg transactionHash blockchainConfig
                 internalBlockchain).
Proof. unfold parseTokenIdFromTransaction. preserve. Qed.

Lemma preserves_tokenIdOf transaction blockchainConfig internalBlockchain :
  preserves R (tokenIdOf env cfg transaction blockchainConfig internalBlockchain).
Proof.
  unfold tokenIdOf. pose proof preserves_parseTokenIdFromTransaction.
  apply preserves_tryCatch; [assumption | | intros; preserve].
  match goal with |- preserves _ (if ?b then _ else _) => destruct b end; [auto | preserve].
Qed.

(** Once the user has a wallet, a mint leaves the ledger to whoever reads
    it and sends only balance, pinning, submission and receipt requests. *)
Lemma preserves_mintWithWallet request internalBlockchain blockchainConfig user :
  preserves R (mintWithWallet env cfg request internalBlockchain blockchainConfig user).
Proof.
  unfold mintWithWallet.
  apply preserves_bind; [assumption | apply preserves_uploadMetadataToIPFS | intros uri].
  apply preserves_bind; [assumption | apply preserves_deref; assumption | intros u].
  apply preserves_bind; [assumption | | intros _].
  { destruct (default false (payWithUSDC request));
      [apply preserves_handleUSDCPayment | preserve]. }
  apply preserves_bind; [assumption | apply preserves_executeGaslessTransaction | intros tx].
  apply preserves_bind; [assumption | apply preserves_tokenIdOf | intros tokenId].
  preserve.
Qed.

Lemma preserves_createWallet client blockchains :
  preserves R (Circle.createWallet env client blockchains).
Proof. unfold Circle.createWallet. preserve. Qed.

Lemma preserves_createUser email walletId walletAddress :
  preserves R (Ledger.createUser env email walletId walletAddress).
Proof. unfold Ledger.createUser. preserve. Qed.

Lemma preserves_updateUserWallet userId walletId walletAddress :
  preserves R (Ledger.updateUserWallet env userId walletId walletAddress).
Proof. unfold Ledger.updateUserWallet. preserve. Qed.

Lemma preserves_resolveUser email : preserves R (resolveUser env email).
Proof.
  unfold resolveUser, Ledger.getUserByEmail. pose proof preserves_createUser.
  preserve; auto.
Qed.

Lemma preserves_ensureWallet user : preserves R (ensureWallet env cfg user).
Proof.
  unfold ensureWallet.
  apply preserves_bind; [assumption | apply preserves_deref; assumption | intros u].
  destruct (falsy (walletId u) || falsy (World.walletAddress u)); [|preserve].
  apply preserves_bind; [assumption | apply preserves_createWallet | intros wallets].
  destruct (List.find _ wallets); [apply preserves_updateUserWallet | preserve].
Qed.

Lemma preserves_mintNFT request : preserves R (mintNFT env cfg request).
Proof.
  unfold mintNFT, mintBody.
  apply preserves_tryCatch; [assumption | | intros; preserve].
  apply preserves_bind; [assumption | preserve | intros bc].
  apply preserves_bind; [assumption | apply preserves_resolveUser | intros user].
  apply preserves_bind; [assumption | apply preserves_ensureWallet | intros user'].
  apply preserves_mintWithWallet.
Qed.

End Services.

End WorldFacts.

(** ** The ledger *)

Module LedgerFacts.
Import World Ledger.

Lemma live_insert (objs : gmap nat User) (r r' : nat) (u : User) :
  is_Some (objs !! r') -> is_Some (<[r := u]> objs !! r').
Proof. intros H. rewrite lookup_insert_is_Some. destruct (decide (r = r')); auto. Qed.

Lemma emptyLedger_wellFormed : wellFormed emptyLedger.
Proof. split; intros k r H; cbn in H; now rewrite lookup_empty in H. Qed.

(** [createUser] returns a reference that has its object, and keeps the
    ledger well formed. *)
Lemma createUser_live env email walletId walletAddress s :
  wellFormed (ledger s) ->
  exists r s', createUser env email walletId walletAddress s = (Returned r, s') /\
               wellFormed (ledger s') /\ live (ledger s') r.
Proof.
  intros [Hu He]. unfold createUser, tryCatch, mbind, M_bind, bind, getLedger, byEmail.
  destruct (usersByEmail (ledger s) !! email) as [r|] eqn:Hr.
  - exists r, s. cbn. repeat split; eauto.
  - eexists _, _. split; [reflexivity|].
    unfold wellFormed, live. cbn [ledger users usersByEmail objects]. repeat split.
    + intros k r H. apply lookup_insert_Some in H as [[_ <-]|[_ H]].
      * rewrite lookup_insert_eq. eauto.
      * apply live_insert. exact (Hu k r H).
    + intros k r H. apply lookup_insert_Some in H as [[_ <-]|[_ H]].
      * rewrite lookup_insert_eq. eauto.
      * apply live_insert. exact (He k r H).
    + rewrite lookup_insert_eq. eauto.
Qed.

(** So does [updateUserWallet], when it returns. *)
Lemma updateUserWallet_live env userId walletId walletAddress s r s' :
  wellFormed (ledger s) ->
  updateUserWallet env userId walletId walletAddress s = (Returned r, s') ->
  wellFormed (ledger s') /\ live (ledger s') r.
Proof.
  intros [Hu He]. unfold updateUserWallet, tryCatch, mbind, M_bind, bind, getLedger, byId, deref.
  destruct (users (ledger s) !! userId) as [r0|] eqn:Hr; [|discriminate].
  destruct (objects (ledger s) !! r0) as [u|] eqn:Ho; [|discriminate].
  cbn [fst snd]. intros H. injection H as <- <-.
  unfold wellFormed, live. cbn [ledger users usersByEmail objects]. repeat split.
  - intros k r H. apply lookup_insert_Some in H as [[_ <-]|[_ H]].
    + rewrite lookup_insert_eq. eauto.
    + apply live_insert. exact (Hu k r H).
  - intros k r H. apply lookup_insert_Some in H as [[_ <-]|[_ H]].
    + rewrite lookup_insert_eq. eauto.
    + apply live_insert. exact (He k r H).
  - rewrite lookup_insert_eq. eauto.
Qed.

(** A reference found by email is read without error. *)
Lemma deref_found email s r :
  wellFormed (ledger s) ->
  usersByEmail (ledger s) !! email = Some r ->
  exists u, deref r s = (Returned u, s).
Proof.
  intros [_ He] H. destruct (He email r H) as [u Hu].
  exists u. unfold deref. now rewrite Hu.
Qed.

End LedgerFacts.

(** ** The mint orchestrator *)

Module NftFacts.
Import World Ethers Nft Examples WorldFacts.

Lemma extendsBy_refl (P : Call -> Prop) (s : State) : extendsBy P s s.
Proof. exists []. split; [now rewrite app_nil_r | constructor]. Qed.

Lemma extendsBy_same (P : Call -> Prop) (s s' : State) :
  trace s' = trace s -> extendsBy P s s'.
Proof. intros H. exists []. split; [now rewrite app_nil_r | constructor]. Qed.

Lemma extendsBy_trans (P : Call -> Prop) (s1 s2 s3 : State) :
  extendsBy P s1 s2 -> extendsBy P s2 s3 -> extendsBy P s1 s3.
Proof.
  intros [a [Ha Pa]] [b [Hb Pb]]. exists (a ++ b). split.
  - rewrite Hb, Ha. now rewrite app_assoc.
  - now apply Forall_app.
Qed.

Lemma extendsBy_call (P : Call -> Prop) A (c : Call) (answer : list Call -> Outcome A) s :
  P c -> extendsBy P s (call c answer s).2.
Proof. intros Hc. exists [c]. split; [reflexivity | now constructor]. Qed.

Lemma reusesWallet_refl (s : State) : reusesWallet s s.
Proof. split; [reflexivity | apply extendsBy_refl]. Qed.

Lemma reusesWallet_same (s s' : State) :
  ledger s' = ledger s -> trace s' = trace s -> reusesWallet s s'.
Proof. intros Hl Ht. split; [assumption | now apply extendsBy_same]. Qed.

Lemma reusesWallet_trans (s1 s2 s3 : State) :
  reusesWallet s1 s2 -> reusesWallet s2 s3 -> reusesWallet s1 s3.
Proof.
  intros [L1 E1] [L2 E2]. split; [congruence | eapply extendsBy_trans; eassumption].
Qed.

Lemma reusesWallet_call A (c : Call) (answer : list Call -> Outcome A) s :
  notWalletCreation c -> reusesWallet s (call c answer s).2.
Proof. intros Hc. split; [reflexivity | now apply extendsBy_call]. Qed.

(** Discharges what the lemmas of [WorldFacts] ask of [reusesWallet]. *)
Ltac reuses :=
  first [ exact reusesWallet_trans
        | intros; first [ exact I
                        | now apply reusesWallet_call
                        | now apply reusesWallet_same ] ].

(** With a wallet on the user's record, the rest of the mint neither
    touches the ledger nor creates a wallet. *)
Lemma mintWithWallet_reuses env cfg request internalBlockchain blockchainConfig user :
  preserves reusesWallet
    (mintWithWallet env cfg request internalBlockchain blockchainConfig user).
Proof. apply (preserves_mintWithWallet reusesWallet notWalletCreation); reuses. Qed.

Lemma uploadMetadataToIPFS_reuses env cfg metadata :
  preserves reusesWallet (uploadMetadataToIPFS env cfg metadata).
Proof. apply (preserves_uploadMetadataToIPFS reusesWallet notWalletCreation); reuses. Qed.

Lemma bind_returned {A B} (m : M A) (k : A -> M B) (s s1 : State) (a : A) :
  m s = (Returned a, s1) -> (m ≫= k) s = k a s1.
Proof. intros H. unfold mbind, M_bind, bind. now rewrite H. Qed.

(** A step that throws ends the sequence: what follows is not run. *)
Lemma bind_threw {A B} (m : M A) (k : A -> M B) (s s1 : State) (e : JsError) :
  m s = (Threw e, s1) -> (m ≫= k) s = (Threw e, s1).
Proof. intros H. unfold mbind, M_bind, bind. now rewrite H. Qed.

Lemma resolveUser_found env email s r :
  usersByEmail (ledger s) !! email = Some r ->
  resolveUser env email s = (Returned r, s).
Proof.
  intros He. unfold resolveUser.
  rewrite (bind_returned _ _ s s (Some r)); [reflexivity|].
  unfold Ledger.getUserByEmail, tryCatch.
  rewrite (bind_returned _ _ s s (ledger s)) by reflexivity.
  unfold Ledger.byEmail. now rewrite He.
Qed.

Lemma ensureWallet_attached env cfg s r u :
  objects (ledger s) !! r = Some u ->
  falsy (World.walletId u) = false ->
  falsy (World.walletAddress u) = false ->
  ensureWallet env cfg r s = (Returned r, s).
Proof.
  intros Ho Hw Ha. unfold ensureWallet.
  rewrite (bind_returned _ _ s s u) by (unfold Ledger.deref; now rewrite Ho).
  now rewrite Hw, Ha.
Qed.

Lemma mintBody_with_wallet env cfg request s r u bc :
  getBlockchainConfig cfg "ethereum" = Returned bc ->
  usersByEmail (ledger s) !! email request = Some r ->
  objects (ledger s) !! r = Some u ->
  falsy (World.walletId u) = false ->
  falsy (World.walletAddress u) = false ->
  mintBody env cfg request s = mintWithWallet env cfg request "ethereum" bc r s.
Proof.
  intros Hbc He Ho Hw Ha.
  unfold mintBody. change (mapToInternalBlockchain gaslessBlockchain) with "ethereum".
  rewrite (bind_returned _ _ s s bc) by (unfold lift; now rewrite Hbc).
  rewrite (bind_returned _ _ s s r) by now apply resolveUser_found.
  rewrite (bind_returned _ _ s s r) by now apply (ensureWallet_attached env cfg s r u).
  reflexivity.
Qed.

Lemma mintWithWallet_walletAddress env cfg request internal bc r u s response s' :
  objects (ledger s) !! r = Some u ->
  mintWithWallet env cfg request internal bc r s = (Returned response, s') ->
  walletAddress response = World.walletAddress u.
Proof.
  intros Ho. unfold mintWithWallet, mbind, M_bind, bind.
  destruct (uploadMetadataToIPFS_reuses env cfg (nftMetadata request) s) as [Hl _].
  destruct (uploadMetadataToIPFS env cfg (nftMetadata request) s) as [[uri|e] s1];
    [|discriminate].
  cbn [snd] in Hl. unfold Ledger.deref. rewrite Hl, Ho.
  match goal with
  | |- context [ (if ?b then ?x else ?y) s1 ] =>
      destruct ((if b then x else y) s1) as [[[]|e] s2]; [|discriminate]
  end.
  match goal with
  | |- context [ Circle.executeGaslessTransaction ?a ?b ?c ?d ?e ?f ?g s2 ] =>
      destruct (Circle.executeGaslessTransaction a b c d e f g s2) as [[tx|e'] s3];
        [|discriminate]
  end.
  destruct (tokenIdOf env cfg tx bc internal s3) as [[tokenId|e'] s4]; [|discriminate].
  unfold mret, M_ret, ret. intros H. injection H as <- _. reflexivity.
Qed.

(** C5, the claim as stated fails: the user's record has walletId "w9"
    and no walletAddress; the mint asks the provider for a new wallet and
    overwrites the wallet fields of the record. *)
Lemma mint_creates_wallet_when_address_is_missing :
  World.walletId <$> objects (ledger halfAttached) !! 0%nat = Some (Some "w9") /\
  trace (mintNFT happy cfg (request "ETH-SEPOLIA") halfAttached).2 =
    [SdkCreateWallets 1 "SCA" ["ETH-SEPOLIA"] "set-1";
     SdkCreateTransaction (Some "wallet-1") "ETH-SEPOLIA" "0xC0FFEE" "mint(address,string)"
       [Some "0xA11CE"; Some "https://ipfs.io/ipfs/QmR0fzyo82mvyr1fzyo82mvyrAbc"]
       "MEDIUM" None;
     RpcGetTransactionReceipt "ethereum" "0xfeed"] /\
  World.walletId <$> objects (ledger (mintNFT happy cfg (request "ETH-SEPOLIA") halfAttached).2) !! 0%nat
    = Some (Some "wallet-1").
Proof. repeat split; vm_compute; reflexivity. Qed.

(** C5, amended. When the user's record has both a walletId and a
    walletAddress (neither missing nor empty), the mint leaves the ledger
    as it is, sends no request to create wallets, and the response it
    returns carries the walletAddress of the record. *)
Theorem mintNFT_reuses_attached_wallet
    (env : Env) (cfg : Config) (request : MintNFTRequest) (s : State)
    (r : nat) (u : User) :
  usersByEmail (ledger s) !! email request = Some r ->
  objects (ledger s) !! r = Some u ->
  falsy (World.walletId u) = false ->
  falsy (World.walletAddress u) = false ->
  reusesWallet s (mintNFT env cfg request s).2 /\
  (forall response, (mintNFT env cfg request s).1 = Returned response ->
     walletAddress response = World.walletAddress u).
Proof.
  intros He Ho Hw Ha. unfold mintNFT, tryCatch.
  destruct (getBlockchainConfig cfg "ethereum") as [bc|e] eqn:Hbc.
  - rewrite (mintBody_with_wallet env cfg request s r u bc Hbc He Ho Hw Ha).
    pose proof (mintWithWallet_reuses env cfg request "ethereum" bc r s) as Hr.
    pose proof (mintWithWallet_walletAddress env cfg request "ethereum" bc r u s) as Hv.
    destruct (mintWithWallet env cfg request "ethereum" bc r s) as [[response|e] s1].
    + split; [exact Hr|]. cbn. intros response' H. injection H as <-. now apply (Hv _ s1).
    + split; [exact Hr|]. cbn. discriminate.
  - unfold mintBody. change (mapToInternalBlockchain gaslessBlockchain) with "ethereum".
    rewrite (bind_threw _ _ s s e) by (unfold lift; now rewrite Hbc). cbn.
    split; [apply reusesWallet_refl | discriminate].
Qed.

Lemma mintNFT_reuses_attached_wallet_witness :
  reusesWallet attached (mintNFT happy cfg (request "BASE-SEPOLIA") attached).2 /\
  (forall response,
     (mintNFT happy cfg (request "BASE-SEPOLIA") attached).1 = Returned response ->
     walletAddress response = Some "0x9").
Proof.
  apply (mintNFT_reuses_attached_wallet happy cfg (request "BASE-SEPOLIA") attached 0%nat
           {| id := "user-a"; World.email := "a@x.com"; walletId := Some "w9";
              World.walletAddress := Some "0x9"; createdAt := 1; updatedAt := 1 |});
    vm_compute; reflexivity.
Defined.

Lemma createMockIPFS_returns env cfg metadata s :
  (createMockIPFS env cfg metadata s).1 =
  Returned (gateway cfg +:+ mockHash (mathRandom env (randoms s))
                                     (mathRandom env (S (randoms s)))).
Proof. reflexivity. Qed.

(** C6. [uploadMetadataToIPFS] always returns a string and never throws.
    Without pinning credentials, and when the upload to the pinning service
    throws, the string is the gateway followed by a generated hash
    "QmR" .. "Abc"; when the upload succeeds it is the gateway followed by
    the returned hash. *)
Theorem uploadMetadataToIPFS_never_throws
    (env : Env) (cfg : Config) (metadata : NFTMetadata) (s : State) :
  (exists hash,
     (uploadMetadataToIPFS env cfg metadata s).1 = Returned (gateway cfg +:+ hash)) /\
  (pinataConfigured cfg = false ->
   (uploadMetadataToIPFS env cfg metadata s).1 =
   Returned (gateway cfg +:+ mockHash (mathRandom env (randoms s))
                                      (mathRandom env (S (randoms s))))) /\
  (forall e,
   pinataConfigured cfg = true ->
   pinJSONToIPFS env (trace s ++ [HttpPinJSON metadata (nft_name metadata +:+ "_metadata.json")])
     = Threw e ->
   (uploadMetadataToIPFS env cfg metadata s).1 =
   Returned (gateway cfg +:+ mockHash (mathRandom env (randoms s))
                                      (mathRandom env (S (randoms s))))) /\
  (forall ipfsHash,
   pinataConfigured cfg = true ->
   pinJSONToIPFS env (trace s ++ [HttpPinJSON metadata (nft_name metadata +:+ "_metadata.json")])
     = Returned ipfsHash ->
   (uploadMetadataToIPFS env cfg metadata s).1 =
   Returned (gateway cfg +:+ interpolate ipfsHash)) /\
  (forall r1 r2,
   mockHash r1 r2 =
   "QmR" +:+ js_substring 2 15 (base36 r1) +:+ js_substring 2 15 (base36 r2) +:+ "Abc").
Proof.
  assert (Hpin : forall o,
    pinataConfigured cfg = true ->
    pinJSONToIPFS env (trace s ++ [HttpPinJSON metadata (nft_name metadata +:+ "_metadata.json")])
      = o ->
    (uploadMetadataToIPFS env cfg metadata s).1 =
    match o with
    | Returned ipfsHash => Returned (gateway cfg +:+ interpolate ipfsHash)
    | Threw _ => Returned (gateway cfg +:+ mockHash (mathRandom env (randoms s))
                                                   (mathRandom env (S (randoms s))))
    end).
  { intros o Hc Ho. unfold uploadMetadataToIPFS, uploadToPinata, tryCatch.
    rewrite Hc. unfold mbind, M_bind, bind, call. cbn [trace]. rewrite Ho.
    destruct o; reflexivity. }
  assert (Hmock : pinataConfigured cfg = false ->
    (uploadMetadataToIPFS env cfg metadata s).1 =
    Returned (gateway cfg +:+ mockHash (mathRandom env (randoms s))
                                       (mathRandom env (S (randoms s))))).
  { intros Hc. unfold uploadMetadataToIPFS, tryCatch. rewrite Hc. reflexivity. }
  repeat split.
  - destruct (pinataConfigured cfg) eqn:Hc.
    + rewrite (Hpin _ eq_refl eq_refl). destruct (pinJSONToIPFS env _); eauto.
    + rewrite Hmock by reflexivity. eauto.
  - exact Hmock.
  - intros e Hc He. now rewrite (Hpin _ Hc He).
  - intros h Hc Hh. now rewrite (Hpin _ Hc Hh).
Qed.

(** Without credentials, and with a pinning service that is down. *)
Example uploadMetadataToIPFS_examples :
  (uploadMetadataToIPFS happy cfg (metadata "N1") (initial emptyLedger)).1 =
    Returned "https://ipfs.io/ipfs/QmR0fzyo82mvyr1fzyo82mvyrAbc" /\
  (uploadMetadataToIPFS pinataDown cfgPinata (metadata "N1") (initial emptyLedger)).1 =
    Returned "https://ipfs.io/ipfs/QmR0fzyo82mvyr1fzyo82mvyrAbc" /\
  (uploadMetadataToIPFS happy cfgPinata (metadata "N1") (initial emptyLedger)).1 =
    Returned "https://ipfs.io/ipfs/QmPinned".
Proof. repeat split; vm_compute; reflexivity. Qed.



(** The wallet provider down: nothing is sent after the failed creation.
    The sponsorship API down: nothing is sent after the failed submission. *)
Example failed_mints_stop :
  trace (mintNFT walletsDown cfg (request "ETH-SEPOLIA") (initial emptyLedger)).2 =
    [SdkCreateWallets 1 "SCA" ["ETH-SEPOLIA"] "set-1"] /\
  (mintNFT sponsorshipDown cfg (request "ETH-SEPOLIA") (initial emptyLedger)).1 =
    Threw (newError "Failed to mint NFT: Circle API: Gasless transaction failed - socket hang up") /\
  trace (mintNFT sponsorshipDown cfg (request "ETH-SEPOLIA") (initial emptyLedger)).2 =
    [SdkCreateWallets 1 "SCA" ["ETH-SEPOLIA"] "set-1";
     SdkCreateTransaction (Some "wallet-1") "ETH-SEPOLIA" "0xC0FFEE" "mint(address,string)"
       [Some "0xA11CE"; Some "https://ipfs.io/ipfs/QmR0fzyo82mvyr1fzyo82mvyrAbc"]
       "MEDIUM" None].
Proof. repeat split; vm_compute; reflexivity. Qed.

(** C10. [mintNFT] does not read the blockchain of the request: two
    requests that differ in nothing else have the same outcome and leave
    the same state, and every request the mint sends to create wallets or
    to submit a transaction names ETH-SEPOLIA. *)
Theorem mintNFT_ignores_requested_blockchain
    (env : Env) (cfg : Config) (mail : string) (metadata : NFTMetadata)
    (pay : option bool) (chain1 chain2 : string) (s : State) :
  mintNFT env cfg {| email := mail; nftMetadata := metadata;
                     blockchain := chain1; payWithUSDC := pay |} s =
  mintNFT env cfg {| email := mail; nftMetadata := metadata;
                     blockchain := chain2; payWithUSDC := pay |} s /\
  extendsBy onSepolia s
    (mintNFT env cfg {| email := mail; nftMetadata := metadata;
                        blockchain := chain1; payWithUSDC := pay |} s).2.
Proof.
  split; [reflexivity|].
  apply (preserves_mintNFT (extendsBy onSepolia) onSepolia);
    first [ exact (extendsBy_trans onSepolia)
          | intros; first [ exact I | reflexivity
                          | now apply extendsBy_call
                          | now apply extendsBy_same ] ].
Qed.

(** A mint for BASE-SEPOLIA and one for MATIC-AMOY. *)
Example requested_chain_examples :
  mintNFT happy cfg (request "BASE-SEPOLIA") (initial emptyLedger) =
  mintNFT happy cfg (request "MATIC-AMOY") (initial emptyLedger) /\
  res_blockchain <$> (match (mintNFT happy cfg (request "BASE-SEPOLIA") (initial emptyLedger)).1 with
                      | Returned r => Some r
                      | Threw _ => None
                      end) = Some "ethereum".
Proof. split; [reflexivity | vm_compute; reflexivity]. Qed.

End NftFacts.

(** ** The batch handler *)

Module BatchFacts.
Import World Nft Batch Examples.

Section Handler.
Variable mintNFT : MintNFTRequest -> M MintNFTResponse.
Variable req : BatchRequest.

Lemma mintItem_step (i : nat) (nftMetadata : NFTMetadata)
    (acc : list MintNFTResponse * list BatchError) (s : State) :
  mintItem mintNFT req i nftMetadata acc s =
  match mintNFT (requestFor req i nftMetadata) s with
  | (Returned r, s1) => (Returned (acc.1 ++ [r], acc.2), (sleep 1000 s1).2)
  | (Threw e, s1) =>
      (Returned (acc.1, acc.2 ++ [{| index := i;
                                     nftName := orElse (Some (nft_name nftMetadata)) "Unknown";
                                     error := err_message e |}]), s1)
  end.
Proof.
  unfold mintItem, tryCatch, mbind, M_bind, bind.
  destruct (mintNFT (requestFor req i nftMetadata) s) as [[r|e] s1]; reflexivity.
Qed.

(** The loop returns the two arrays, extended by what the items did. *)
Lemma forLoop_outcomes (rest : list NFTMetadata) :
  forall (i : nat) (acc : list MintNFTResponse * list BatchError) (s : State),
  (forLoop mintNFT req rest i acc s).1 =
  Returned (acc.1 ++ returnedOf (itemOutcomes mintNFT req rest i s),
            acc.2 ++ thrownOf (itemOutcomes mintNFT req rest i s)).
Proof.
  induction rest as [|m rest IH]; intros i acc s.
  - cbn. rewrite !app_nil_r. now destruct acc.
  - cbn [forLoop itemOutcomes]. unfold mbind, M_bind, bind.
    rewrite mintItem_step.
    destruct (mintNFT (requestFor req i m) s) as [[r|e] s1].
    + rewrite IH. cbn [fst snd returnedOf thrownOf]. now rewrite <- app_assoc.
    + rewrite IH. cbn [fst snd returnedOf thrownOf]. now rewrite <- app_assoc.
Qed.

(** Every item is minted once, in the order of the list, under its index. *)
Lemma itemOutcomes_items (rest : list NFTMetadata) :
  forall (i : nat) (s : State),
  map fst (itemOutcomes mintNFT req rest i s) = combine (seq i (length rest)) rest.
Proof.
  induction rest as [|m rest IH]; intros i s; [reflexivity|].
  cbn [itemOutcomes]. destruct (mintNFT (requestFor req i m) s) as [o s1].
  cbn [map fst length seq combine]. now rewrite IH.
Qed.

Lemma outcomes_split (outs : list (nat * NFTMetadata * Outcome MintNFTResponse)) :
  (length (returnedOf outs) + length (thrownOf outs))%nat = length outs.
Proof.
  induction outs as [|[[i m] [r|e]] outs IH]; cbn [returnedOf thrownOf length]; lia.
Qed.

Lemma itemOutcomes_length (rest : list NFTMetadata) (i : nat) (s : State) :
  length (itemOutcomes mintNFT req rest i s) = length rest.
Proof.
  rewrite <- (length_map fst), itemOutcomes_items, length_combine, length_seq. lia.
Qed.

(** The run of the loop, item by item: the k-th item is minted with
    the email and chain of the batch and its own metadata, in the state
    that the item before it left. *)
Lemma forLoop_run (rest : list NFTMetadata) :
  forall (i : nat) (acc : list MintNFTResponse * list BatchError) (s : State),
  exists outs states final,
    forLoop mintNFT req rest i acc s
      = (Returned (acc.1 ++ returnedOf outs, acc.2 ++ thrownOf outs), final) /\
    length outs = length rest /\
    length states = S (length rest) /\
    states !! 0%nat = Some s /\
    last states = Some final /\
    forall (k : nat) (m : NFTMetadata) (s_k : State),
      rest !! k = Some m -> states !! k = Some s_k ->
      let run := mintNFT {| email := req_email req;
                            nftMetadata := m;
                            blockchain := req_blockchain req;
                            payWithUSDC :=
                              Some (if Nat.eqb (i + k) 0 then req_payWithUSDC req
                                    else false) |} s_k in
      outs !! k = Some ((i + k)%nat, m, run.1) /\
      states !! S k = Some (match run.1 with
                            | Returned _ => (sleep 1000 run.2).2
                            | Threw _ => run.2
                            end).
Proof.
  induction rest as [|m rest IH]; intros i acc s.
  - exists [], [s], s. cbn. rewrite !app_nil_r. destruct acc.
    do 5 (split; [reflexivity|]).
    intros k m0 s_k H. destruct k; discriminate.
  - cbn [forLoop]. unfold mbind, M_bind, bind. rewrite mintItem_step.
    change (requestFor req i m)
      with {| email := req_email req; nftMetadata := m;
              blockchain := req_blockchain req;
              payWithUSDC := Some (if Nat.eqb i 0 then req_payWithUSDC req
                                   else false) |}.
    set (request := {| email := req_email req; nftMetadata := m;
                       blockchain := req_blockchain req;
                       payWithUSDC := Some (if Nat.eqb i 0 then req_payWithUSDC req
                                            else false) |}).
    destruct (mintNFT request s) as [o s1] eqn:Hrun.
    set (s2 := match o with
               | Returned _ => (sleep 1000 s1).2
               | Threw _ => s1
               end).
    set (acc' := match o with
                 | Returned r => (acc.1 ++ [r], acc.2)
                 | Threw e =>
                     (acc.1, acc.2 ++ [{| index := i;
                                          nftName := orElse (Some (nft_name m)) "Unknown";
                                          error := err_message e |}])
                 end).
    destruct (IH (S i) acc' s2) as (outs & states & final & Hloop & Hlen & Hstates &
                                    Hfirst & Hlast & Hitems).
    exists ((i, m, o) :: outs), (s :: states), final.
    split; [|split; [|split; [|split; [|split]]]].
    + destruct o as [r|e]; subst s2 acc'; cbn [fst snd] in *; rewrite Hloop;
        cbn [fst snd returnedOf thrownOf]; now rewrite <- !app_assoc.
    + cbn [length]. now rewrite Hlen.
    + cbn [length]. now rewrite Hstates.
    + reflexivity.
    + destruct states as [|s0 states0]; [discriminate|]. exact Hlast.
    + intros k m0 s_k Hk Hs. destruct k as [|k'].
      * cbn in Hk, Hs. injection Hk as <-. injection Hs as <-.
        rewrite Nat.add_0_r. fold request. cbn zeta. rewrite Hrun.
        cbn [fst snd]. split; [reflexivity|]. cbn. exact Hfirst.
      * cbn in Hk, Hs. specialize (Hitems k' m0 s_k Hk Hs). cbn zeta in Hitems.
        replace (i + S k')%nat with (S i + k')%nat by lia. exact Hitems.
Qed.

End Handler.

(** C8. The handler mints the items one after the other in the order of
    the list and always answers. The k-th mint is asked for the k-th
    metadata item with the email and the chain of the batch (and the
    USDC flag only for the first item), and it starts in the state the
    mint before it left (after the one-second pause when that mint
    returned): a mint that throws does not stop the ones after it. The
    results of the mints that returned are kept in order, each mint that
    threw is recorded with its index, name and message, and the totals
    are the lengths of the two lists and add up to the number of items.
    In a batch of three where the mint of the second item throws and the
    other two return, the first and the third result are kept and the
    totals are 2 and 1. *)
Theorem batchMint_records_every_item
    (mintNFT : MintNFTRequest -> M MintNFTResponse) (req : BatchRequest) (s : State) :
  exists reply outs states,
    batchMint mintNFT req s = (Returned reply, default s (last states)) /\
    length outs = length (nfts req) /\
    length states = S (length (nfts req)) /\
    states !! 0%nat = Some s /\
    (forall (k : nat) (m : NFTMetadata) (s_k : State),
       nfts req !! k = Some m -> states !! k = Some s_k ->
       let run := mintNFT {| email := req_email req;
                             nftMetadata := m;
                             blockchain := req_blockchain req;
                             payWithUSDC :=
                               Some (if Nat.eqb k 0 then req_payWithUSDC req
                                     else false) |} s_k in
       outs !! k = Some (k, m, run.1) /\
       states !! S k = Some (match run.1 with
                             | Returned _ => (sleep 1000 run.2).2
                             | Threw _ => run.2
                             end)) /\
    successful (data (body reply)) = returnedOf outs /\
    errors (data (body reply)) = thrownOf outs /\
    totalRequested (data (body reply)) = length (nfts req) /\
    totalSuccessful (data (body reply)) = length (successful (data (body reply))) /\
    totalFailed (data (body reply)) = length (errors (data (body reply))) /\
    (totalSuccessful (data (body reply)) + totalFailed (data (body reply)))%nat
      = totalRequested (data (body reply)) /\
    (forall m1 m2 m3 r1 e r3,
       nfts req = [m1; m2; m3] ->
       map snd outs = [Returned r1; Threw e; Returned r3] ->
       successful (data (body reply)) = [r1; r3] /\
       errors (data (body reply)) =
         [{| index := 1; nftName := orElse (Some (nft_name m2)) "Unknown";
             error := err_message e |}] /\
       totalSuccessful (data (body reply)) = 2%nat /\
       totalFailed (data (body reply)) = 1%nat).
Proof.
  destruct (forLoop_run mintNFT req (nfts req) 0 ([], []) s)
    as (outs & states & final & Hloop & Hlen & Hstates & Hfirst & Hlast & Hitems).
  pose proof (outcomes_split outs) as Hsplit. rewrite Hlen in Hsplit.
  unfold batchMint, mbind, M_bind, bind. rewrite Hloop. cbn [fst snd app].
  eexists _, outs, states. rewrite Hlast. cbn [default from_option Datatypes.id].
  split; [reflexivity|].
  cbn [body data successful errors totalRequested totalSuccessful totalFailed].
  split; [exact Hlen|]. split; [exact Hstates|]. split; [exact Hfirst|].
  split; [exact Hitems|].
  do 5 (split; [reflexivity|]). split; [exact Hsplit|].
  intros m1 m2 m3 r1 e r3 Hn Ho. rewrite Hn in Hitems, Hstates. cbn in Hstates.
  destruct outs as [|[[i1 x1] o1] [|[[i2 x2] o2] [|[[i3 x3] o3] [|]]]]; try discriminate.
  cbn in Ho. injection Ho as -> -> ->.
  destruct states as [|s0 [|s1 [|s2 states]]]; try discriminate.
  cbn in Hfirst. injection Hfirst as ->.
  destruct (Hitems 1%nat m2 s1 eq_refl eq_refl) as [H2 _]. cbn in H2.
  injection H2 as -> -> _.
  repeat split; reflexivity.
Qed.

(** Three items for one user; the sponsorship API rejects the second
    submission it receives. *)
Example batchOfThree_partial_failure :
  exists reply,
    (batchMint (Nft.mintNFT secondSubmissionThrows cfg) batchOfThree (initial emptyLedger)).1
      = Returned reply /\
    status reply = 201 /\
    success (body reply) = true /\
    message (body reply) = "Batch mint completed: 2 successful, 1 failed" /\
    length (successful (data (body reply))) = 2%nat /\
    errors (data (body reply)) =
      [{| index := 1; nftName := "N2";
          error := "Failed to mint NFT: Circle API: Gasless transaction failed - socket hang up" |}] /\
    totalRequested (data (body reply)) = 3%nat /\
    totalSuccessful (data (body reply)) = 2%nat /\
    totalFailed (data (body reply)) = 1%nat.
Proof. eexists. repeat split; vm_compute; reflexivity. Qed.

End BatchFacts.

(** ** The rest of the Ledger *)

Module LedgerOpsFacts.
Import World Ledger LedgerOps.

(** X1. [createUser] is idempotent per email: whatever the state, it
    returns a reference, and a second call for the same email, with any
    wallet arguments, returns the same reference and changes nothing:
    it neither creates a second record nor touches the wallet fields of
    the first. *)
Theorem createUser_twice_same_user env em w a w' a' s :
  exists r,
    (createUser env em w a s).1 = Returned r /\
    createUser env em w' a' (createUser env em w a s).2
      = (Returned r, (createUser env em w a s).2).
Proof.
  unfold createUser, tryCatch, mbind, M_bind, bind, getLedger, byEmail.
  destruct (usersByEmail (ledger s) !! em) as [r|] eqn:Hr.
  - exists r. cbn. now rewrite Hr.
  - eexists. split; [reflexivity|].
    cbn [fst snd ledger usersByEmail uuid now setLedger mret M_ret ret].
    now rewrite lookup_insert_eq.
Qed.

Lemma inSync_empty : inSync emptyLedger.
Proof. split; intros k r H; cbn in H; now rewrite lookup_empty in H. Qed.

Lemma createUser_inSync env em w a s :
  inSync (ledger s) ->
  users (ledger s) !! uuidv4 env (uuids s) = None ->
  inSync (ledger (createUser env em w a s).2).
Proof.
  intros [Hu He] Hfresh.
  unfold createUser, tryCatch, mbind, M_bind, bind, getLedger, byEmail.
  destruct (usersByEmail (ledger s) !! em) as [r|] eqn:Hr; [now split|].
  cbn [fst snd ledger uuid now setLedger mret M_ret ret].
  set (r := fresh (dom (objects (ledger s)))).
  assert (Hnew : objects (ledger s) !! r = None).
  { apply not_elem_of_dom. apply is_fresh. }
  unfold inSync. cbn [users usersByEmail objects]. split.
  - intros uid r0 H. apply lookup_insert_Some in H as [[<- <-]|[Hne H]].
    + eexists. rewrite lookup_insert_eq. split; [reflexivity|]. cbn.
      split; [reflexivity|]. now rewrite lookup_insert_eq.
    + destruct (Hu uid r0 H) as (u & Ho & Hid & Hem).
      exists u. rewrite !lookup_insert_ne by congruence. auto.
  - intros em' r0 H. apply lookup_insert_Some in H as [[<- <-]|[Hne H]].
    + eexists. rewrite lookup_insert_eq. split; [reflexivity|]. cbn.
      split; [reflexivity|]. now rewrite lookup_insert_eq.
    + destruct (He em' r0 H) as (u & Ho & Hem & Hid).
      exists u. rewrite !lookup_insert_ne by congruence. auto.
Qed.

Lemma updateUserWallet_inSync env uid w a s :
  inSync (ledger s) -> inSync (ledger (updateUserWallet env uid w a s).2).
Proof.
  intros [Hu He].
  unfold updateUserWallet, tryCatch, mbind, M_bind, bind, getLedger, byId, deref.
  destruct (users (ledger s) !! uid) as [r|] eqn:Hr; [|now split].
  destruct (objects (ledger s) !! r) as [u|] eqn:Ho; [|now split].
  cbn [fst snd ledger now setLedger mret M_ret ret].
  destruct (Hu uid r Hr) as (u0 & Ho0 & Hid & Hem).
  assert (u0 = u) as -> by congruence.
  unfold inSync. cbn [users usersByEmail objects]. split.
  - intros uid' r0 H. apply lookup_insert_Some in H as [[<- <-]|[Hne H]].
    + eexists. rewrite lookup_insert_eq. split; [reflexivity|]. cbn.
      split; [exact Hid|]. now rewrite lookup_insert_eq.
    + destruct (Hu uid' r0 H) as (u' & Ho' & Hid' & Hem').
      exists u'. rewrite !lookup_insert_ne by congruence. auto.
  - intros em' r0 H. apply lookup_insert_Some in H as [[<- <-]|[Hne H]].
    + eexists. rewrite lookup_insert_eq. split; [reflexivity|]. cbn.
      split; [reflexivity|]. rewrite Hid. now rewrite lookup_insert_eq.
    + destruct (He em' r0 H) as (u' & Ho' & Hem' & Hid').
      exists u'. rewrite !lookup_insert_ne by congruence. auto.
Qed.

Lemma deleteUser_inSync uid s :
  inSync (ledger s) -> inSync (ledger (deleteUser uid s).2).
Proof.
  intros [Hu He].
  unfold deleteUser, tryCatch, mbind, M_bind, bind, getLedger, byId, deref.
  destruct (users (ledger s) !! uid) as [r|] eqn:Hr; [|now split].
  destruct (objects (ledger s) !! r) as [u|] eqn:Ho; [|now split].
  cbn [fst snd ledger setLedger mret M_ret ret].
  destruct (Hu uid r Hr) as (u0 & Ho0 & Hid & Hem).
  assert (u0 = u) as -> by congruence.
  unfold inSync. cbn [users usersByEmail objects]. split.
  - intros uid' r0 H. apply lookup_delete_Some in H as [Hne H].
    destruct (Hu uid' r0 H) as (u' & Ho' & Hid' & Hem').
    exists u'. rewrite lookup_delete_ne by congruence. auto.
  - intros em' r0 H. apply lookup_delete_Some in H as [Hne H].
    destruct (He em' r0 H) as (u' & Ho' & Hem' & Hid').
    exists u'. rewrite lookup_delete_ne by congruence. auto.
Qed.

(** X2. The two indexes of the ledger stay in sync: if every user filed
    under an id carries that id and is filed under its own email, and
    the other way round, the same holds after [createUser] (as long as
    the uuid it draws is not yet an id of the ledger), after
    [updateUserWallet] and after [deleteUser], whether they return or
    throw. *)
Theorem ledger_indexes_stay_in_sync env s :
  inSync (ledger s) ->
  (forall em w a,
     users (ledger s) !! uuidv4 env (uuids s) = None ->
     inSync (ledger (createUser env em w a s).2)) /\
  (forall uid w a, inSync (ledger (updateUserWallet env uid w a s).2)) /\
  (forall uid, inSync (ledger (deleteUser uid s).2)).
Proof.
  intros H. split; [|split].
  - intros em w a Hfresh. now apply createUser_inSync.
  - intros uid w a. now apply updateUserWallet_inSync.
  - intros uid. now apply deleteUser_inSync.
Qed.

Lemma twoUsers_inSync : inSync twoUsers.
Proof.
  split; intros k r H; cbn in H.
  - apply lookup_insert_Some in H as [[<- <-]|[_ H]]; [eexists; repeat split|].
    apply lookup_singleton_Some in H as [<- <-]. eexists; repeat split.
  - apply lookup_insert_Some in H as [[<- <-]|[_ H]]; [eexists; repeat split|].
    apply lookup_singleton_Some in H as [<- <-]. eexists; repeat split.
Qed.

Lemma ledger_indexes_stay_in_sync_witness :
  inSync (ledger (initial twoUsers)) /\
  inSync (ledger (createUser Examples.happy "c@x.com" None None (initial twoUsers)).2) /\
  inSync (ledger (updateUserWallet Examples.happy "user-b" "w1" "0x1" (initial twoUsers)).2) /\
  inSync (ledger (deleteUser "user-a" (initial twoUsers)).2).
Proof.
  split; [exact twoUsers_inSync|].
  pose proof (ledger_indexes_stay_in_sync Examples.happy (initial twoUsers)
                twoUsers_inSync) as (Hc & Hu & Hd).
  split; [|split].
  - apply Hc. vm_compute. reflexivity.
  - apply Hu.
  - apply Hd.
Defined.

(** X3. A successful [updateUserWallet] is seen through both indexes:
    for an id the ledger holds, the call returns the user's reference,
    and afterwards the lookup by that id and the lookup by the user's
    email both give that reference, whose record now carries the new
    wallet id and address with the id, email and creation time it had;
    no request is sent. *)
Theorem updateUserWallet_seen_by_both_lookups env uid w a s r u :
  byId (ledger s) uid = Some r ->
  objects (ledger s) !! r = Some u ->
  exists s' u',
    updateUserWallet env uid w a s = (Returned r, s') /\
    getUserById uid s' = (Returned (Some r), s') /\
    getUserByEmail (email u) s' = (Returned (Some r), s') /\
    deref r s' = (Returned u', s') /\
    walletId u' = Some w /\ walletAddress u' = Some a /\
    id u' = id u /\ email u' = email u /\ createdAt u' = createdAt u /\
    trace s' = trace s.
Proof.
  intros Hr Ho. unfold byId in Hr.
  unfold updateUserWallet, getUserById, getUserByEmail,
    tryCatch, mbind, M_bind, bind, getLedger, byId, byEmail, deref.
  rewrite Hr, Ho. cbn [fst snd ledger now setLedger mret M_ret ret].
  eexists _, _. split; [reflexivity|].
  cbn [ledger users usersByEmail objects trace].
  rewrite !lookup_insert_eq. repeat split; reflexivity.
Qed.

Lemma updateUserWallet_seen_by_both_lookups_witness :
  byId (ledger (initial twoUsers)) "user-b" = Some 1%nat /\
  exists s' u',
    updateUserWallet Examples.happy "user-b" "w1" "0x1" (initial twoUsers)
      = (Returned 1%nat, s') /\
    getUserById "user-b" s' = (Returned (Some 1%nat), s') /\
    getUserByEmail "b@x.com" s' = (Returned (Some 1%nat), s') /\
    deref 1%nat s' = (Returned u', s') /\
    walletId u' = Some "w1" /\ walletAddress u' = Some "0x1" /\
    id u' = "user-b" /\ email u' = "b@x.com" /\ createdAt u' = 2 /\
    trace s' = [].
Proof.
  split; [reflexivity|].
  exact (updateUserWallet_seen_by_both_lookups Examples.happy "user-b" "w1" "0x1"
           (initial twoUsers) 1%nat
           {| id := "user-b"; email := "b@x.com"; walletId := None;
              walletAddress := None; createdAt := 2; updatedAt := 2 |}
           eq_refl eq_refl).
Defined.

(** X4. An id the ledger does not hold: [getUserById] returns null,
    [deleteUser] returns false and [updateUserWallet] throws
    Error('Failed to update user wallet: User not found'); none of the
    three changes the state. *)
Theorem unknown_id_changes_nothing env uid w a s :
  byId (ledger s) uid = None ->
  getUserById uid s = (Returned None, s) /\
  deleteUser uid s = (Returned false, s) /\
  updateUserWallet env uid w a s
    = (Threw (newError "Failed to update user wallet: User not found"), s).
Proof.
  intros H. unfold getUserById, deleteUser, updateUserWallet,
    tryCatch, mbind, M_bind, bind, getLedger.
  rewrite H. repeat split; reflexivity.
Qed.

Lemma unknown_id_changes_nothing_witness :
  getUserById "user-z" (initial twoUsers) = (Returned None, initial twoUsers) /\
  deleteUser "user-z" (initial twoUsers) = (Returned false, initial twoUsers) /\
  updateUserWallet Examples.happy "user-z" "w1" "0x1" (initial twoUsers)
    = (Threw (newError "Failed to update user wallet: User not found"),
       initial twoUsers).
Proof.
  exact (unknown_id_changes_nothing Examples.happy "user-z" "w1" "0x1"
           (initial twoUsers) eq_refl).
Defined.

(** X5. [deleteUser] on an id the ledger holds returns true and removes
    the user from both indexes: afterwards the lookup by that id and
    the lookup by the user's email give null, the user count is one
    less, every other id and every other email is looked up as before,
    and no request is sent. *)
Theorem deleteUser_removes_both_keys uid s r u :
  byId (ledger s) uid = Some r ->
  objects (ledger s) !! r = Some u ->
  exists s',
    deleteUser uid s = (Returned true, s') /\
    getUserById uid s' = (Returned None, s') /\
    getUserByEmail (email u) s' = (Returned None, s') /\
    getUserCount s' = (Returned (pred (size (users (ledger s)))), s') /\
    (forall uid', uid' <> uid -> byId (ledger s') uid' = byId (ledger s) uid') /\
    (forall em, em <> email u -> byEmail (ledger s') em = byEmail (ledger s) em) /\
    trace s' = trace s.
Proof.
  intros Hr Ho. unfold byId in Hr.
  unfold deleteUser, getUserById, getUserByEmail, getUserCount,
    tryCatch, mbind, M_bind, bind, getLedger, byId, byEmail, deref.
  rewrite Hr, Ho. cbn [fst snd ledger setLedger mret M_ret ret].
  eexists. split; [reflexivity|].
  cbn [ledger users usersByEmail objects trace].
  rewrite !lookup_delete_eq, map_size_delete, Hr.
  repeat split.
  - intros uid' Hne. now rewrite lookup_delete_ne.
  - intros em Hne. now rewrite lookup_delete_ne.
Qed.

Lemma deleteUser_removes_both_keys_witness :
  byId (ledger (initial twoUsers)) "user-a" = Some 0%nat /\
  exists s',
    deleteUser "user-a" (initial twoUsers) = (Returned true, s') /\
    getUserById "user-a" s' = (Returned None, s') /\
    getUserByEmail "a@x.com" s' = (Returned None, s') /\
    getUserCount s' = (Returned (pred (size (users twoUsers))), s') /\
    (forall uid', uid' <> "user-a" -> byId (ledger s') uid' = byId twoUsers uid') /\
    (forall em, em <> "a@x.com" -> byEmail (ledger s') em = byEmail twoUsers em) /\
    trace s' = [].
Proof.
  split; [reflexivity|].
  exact (deleteUser_removes_both_keys "user-a" (initial twoUsers) 0%nat
           {| id := "user-a"; email := "a@x.com"; walletId := Some "w9";
              walletAddress := Some "0x9"; createdAt := 1; updatedAt := 1 |}
           eq_refl eq_refl).
Defined.

End LedgerOpsFacts.

(** ** The wallet and sponsorship client *)

Module CircleFacts.
Import World Circle CircleOps.

(** X6. [createWallet] ignores its [blockchains] argument: whatever
    list it is given, it sends exactly one request, for one SCA wallet
    on ETH-SEPOLIA in the client's wallet set, and leaves the ledger
    alone. It never returns an empty list: a missing or empty list of
    wallets in the answer, like an error of the SDK, gives
    Error('Circle API: Failed to create SCA wallet - ' + cause). *)
Theorem createWallet_sends_one_sca_request env client chains s :
  let t := trace s ++ [SdkCreateWallets 1 "SCA" ["ETH-SEPOLIA"] (walletSetId client)] in
  trace (createWallet env client chains s).2 = t /\
  ledger (createWallet env client chains s).2 = ledger s /\
  createWallet env client chains s = createWallet env client [] s /\
  match createWallets env t with
  | Returned (Some (w :: ws)) =>
      (createWallet env client chains s).1 = Returned (w :: ws)
  | Returned _ =>
      (createWallet env client chains s).1 =
      Threw (newError
        "Circle API: Failed to create SCA wallet - No wallets created in response")
  | Threw e =>
      (createWallet env client chains s).1 =
      Threw (newError ("Circle API: Failed to create SCA wallet - " +:+ err_message e))
  end.
Proof.
  unfold createWallet, tryCatch, mbind, M_bind, bind, call. cbn zeta.
  destruct (createWallets env _) as [[[|w ws]|]|e]; repeat split; reflexivity.
Qed.

Lemma createWallet_sends_one_request env client chains s :
  trace (createWallet env client chains s).2
    = trace s ++ [SdkCreateWallets 1 "SCA" ["ETH-SEPOLIA"] (walletSetId client)] /\
  ledger (createWallet env client chains s).2 = ledger s.
Proof.
  unfold createWallet, tryCatch, mbind, M_bind, bind, call.
  destruct (createWallets env _) as [[[|w ws]|]|e]; split; reflexivity.
Qed.

Lemma orElse_not_empty (a : option string) (b : string) :
  b <> "" -> orElse a b <> "".
Proof.
  intros Hb. unfold orElse. destruct a as [x|]; [|exact Hb].
  destruct (String.eqb x "") eqn:E; [exact Hb|].
  now apply String.eqb_neq in E.
Qed.

Lemma orElseM_not_empty (a : option string) (b : M string) s v s' :
  (forall v' s1, b s = (Returned v', s1) -> v' <> "") ->
  orElseM a b s = (Returned v, s') -> v <> "".
Proof.
  intros Hb. unfold orElseM. destruct a as [x|]; [|apply Hb].
  destruct (String.eqb x "") eqn:E; [apply Hb|].
  intros H. injection H as <- _. now apply String.eqb_neq in E.
Qed.

Lemma orElseM_trace (a : option string) (b : M string) s :
  (forall s0, trace (b s0).2 = trace s0 /\ ledger (b s0).2 = ledger s0) ->
  trace (orElseM a b s).2 = trace s /\ ledger (orElseM a b s).2 = ledger s.
Proof.
  intros Hb. unfold orElseM. destruct a as [x|]; [|apply Hb].
  destruct (String.eqb x ""); [apply Hb | split; reflexivity].
Qed.

Lemma executeGaslessTransaction_trace env w c sig ps chain amt s :
  trace (executeGaslessTransaction env w c sig ps chain amt s).2
    = trace s ++ [submission w c sig ps chain amt] /\
  ledger (executeGaslessTransaction env w c sig ps chain amt s).2 = ledger s.
Proof.
  unfold executeGaslessTransaction, submission, tryCatch, mbind, M_bind, bind, call.
  destruct (createTransaction env _) as [[body|]|e]; cbn [fst snd].
  - unfold orElseM, mockTxHash, mbind, M_bind, bind, now, random, mret, M_ret, ret.
    destruct (tx_id body) as [i|]; [destruct (String.eqb i "")|];
      (destruct (tx_txHash body) as [h|]; [destruct (String.eqb h "")|]);
      split; reflexivity.
  - unfold throw. destruct (decide _); split; reflexivity.
  - destruct (decide _); split; reflexivity.
Qed.

Lemma String_append_not_empty (a b : string) : a <> "" -> a +:+ b <> "".
Proof. destruct a; [congruence | discriminate]. Qed.

Lemma executeGaslessTransaction_not_blank env w c sig ps chain amt s d :
  (executeGaslessTransaction env w c sig ps chain amt s).1 = Returned d ->
  transactionId d <> "" /\ transactionHash d <> "" /\ state d <> "".
Proof.
  revert d.
  unfold executeGaslessTransaction, tryCatch, mbind, M_bind, bind, call.
  destruct (createTransaction env _) as [[body|]|e]; cbn [fst snd].
  - match goal with
    | |- context [ orElseM (tx_id body) ?b ?s0 ] =>
        pose proof (fun v s' => orElseM_not_empty (tx_id body) b s0 v s') as Hid;
        destruct (orElseM (tx_id body) b s0) as [[i|e] s1]
    end; [|destruct (decide _); cbn; [|discriminate]].
    + match goal with
      | |- context [ orElseM (tx_txHash body) ?b ?s0 ] =>
          pose proof (fun v s' => orElseM_not_empty (tx_txHash body) b s0 v s') as Hh;
          destruct (orElseM (tx_txHash body) b s0) as [[h|e] s2]
      end; [|destruct (decide _); cbn; [|discriminate]].
      * cbn. intros d H. injection H as <-. cbn. split; [|split].
        -- eapply Hid; [|reflexivity]. intros v' s' H. injection H as <- _.
           now apply String_append_not_empty.
        -- eapply Hh; [|reflexivity]. intros v' s' H. injection H as <- _.
           now apply String_append_not_empty.
        -- now apply orElse_not_empty.
      * intros d H. injection H as <-. cbn. repeat split; discriminate.
    + intros d H. injection H as <-. cbn. repeat split; discriminate.
  - destruct (decide _); cbn; [|discriminate].
    intros d H. injection H as <-. cbn. repeat split; discriminate.
  - destruct (decide _); cbn; [|discriminate].
    intros d H. injection H as <-. cbn. repeat split; discriminate.
Qed.

(** X7. What [executeGaslessTransaction] returns is never blank: in
    every state and environment it sends exactly one createTransaction
    request (fee level MEDIUM, the amount only when one is given),
    leaves the ledger alone, and a returned result has a non-empty
    transaction id, transaction hash and state, whatever fields the
    answer of the SDK lacks. *)
Theorem executeGaslessTransaction_fills_every_field env w c sig ps chain amt s :
  trace (executeGaslessTransaction env w c sig ps chain amt s).2
    = trace s ++ [SdkCreateTransaction w chain c sig ps "MEDIUM"
                    (if falsy amt then None else (fun a => [a]) <$> amt)] /\
  ledger (executeGaslessTransaction env w c sig ps chain amt s).2 = ledger s /\
  forall d, (executeGaslessTransaction env w c sig ps chain amt s).1 = Returned d ->
    transactionId d <> "" /\ transactionHash d <> "" /\ state d <> "".
Proof.
  destruct (executeGaslessTransaction_trace env w c sig ps chain amt s) as [Ht Hl].
  split; [exact Ht|]. split; [exact Hl|].
  intros d. apply executeGaslessTransaction_not_blank.
Qed.

Lemma executeGaslessTransaction_wraps_sdk_error env w c sig ps chain amt s e :
  NODE_ENV env <> Some "development" ->
  createTransaction env (trace s ++ [submission w c sig ps chain amt]) = Threw e ->
  (executeGaslessTransaction env w c sig ps chain amt s).1 =
  Threw (newError ("Circle API: Gasless transaction failed - " +:+ err_message e)).
Proof.
  intros Hdev He.
  unfold executeGaslessTransaction, tryCatch, mbind, M_bind, bind, call.
  unfold submission in He. rewrite He. cbn [fst snd].
  now rewrite (decide_False _ _ Hdev).
Qed.

(** X8. In development mode [executeGaslessTransaction] never throws,
    and a failed submission cannot be told from a sponsored one by its
    state: when the SDK throws or answers without data, the call
    returns state CONFIRMED with the id 'dev_tx_' + Date.now() and a
    generated hash. Outside development mode the same two failures are
    thrown as Error('Circle API: Gasless transaction failed - ' +
    cause). *)
Theorem executeGaslessTransaction_mocks_in_development env w c sig ps chain amt s :
  let t := trace s ++ [SdkCreateTransaction w chain c sig ps "MEDIUM"
                         (if falsy amt then None else (fun a => [a]) <$> amt)] in
  let cause :=
    match createTransaction env t with
    | Threw e => Some (err_message e)
    | Returned None => Some "No response data from Circle transaction API"
    | Returned (Some _) => None
    end in
  (NODE_ENV env = Some "development" ->
   (exists d, (executeGaslessTransaction env w c sig ps chain amt s).1 = Returned d) /\
   (cause <> None ->
    (executeGaslessTransaction env w c sig ps chain amt s).1 =
    Returned {| transactionId := "dev_tx_" +:+ Z_toString (dateNow env (clocks s));
                transactionHash :=
                  "0x" +:+ js_substring 2 66 (base16 (mathRandom env (randoms s)));
                state := "CONFIRMED" |})) /\
  (NODE_ENV env <> Some "development" ->
   forall msg, cause = Some msg ->
   (executeGaslessTransaction env w c sig ps chain amt s).1 =
   Threw (newError ("Circle API: Gasless transaction failed - " +:+ msg))).
Proof.
  cbn zeta.
  unfold executeGaslessTransaction, tryCatch, mbind, M_bind, bind, call.
  destruct (createTransaction env _) as [[body|]|e]; cbn [fst snd].
  - split.
    + intros Hdev. split; [|congruence].
      unfold orElseM, mockTxHash, mbind, M_bind, bind, now, random, mret, M_ret, ret.
      destruct (tx_id body) as [i|]; [destruct (String.eqb i "")|];
        (destruct (tx_txHash body) as [h|]; [destruct (String.eqb h "")|]);
        eexists; reflexivity.
    + intros _ msg H. discriminate.
  - unfold throw. split.
    + intros Hdev. rewrite (decide_True _ _ Hdev). split; [eexists; reflexivity|].
      intros _. reflexivity.
    + intros Hdev msg H. injection H as <-. now rewrite (decide_False _ _ Hdev).
  - split.
    + intros Hdev. rewrite (decide_True _ _ Hdev). split; [eexists; reflexivity|].
      intros _. reflexivity.
    + intros Hdev msg H. injection H as <-. now rewrite (decide_False _ _ Hdev).
Qed.

(** X9. [getTransactionStatus] of the sponsorship client never throws
    and sends nothing it records; a status query that fails is
    reported as CONFIRMED (with a hash only for an id that contains
    'dev_tx_'), an answer without data or without a state as UNKNOWN,
    and any other answer by its state and hash. *)
Theorem getTransactionStatus_reports_failure_as_confirmed env getTransaction txId s :
  exists reply s',
    CircleOps.getTransactionStatus env getTransaction txId s = (Returned reply, s') /\
    trace s' = trace s /\ ledger s' = ledger s /\
    match getTransaction txId with
    | Threw _ =>
        status reply = "CONFIRMED" /\
        hash reply =
          (if includes txId "dev_tx_"
           then Some ("0x" +:+ js_substring 2 66 (base16 (mathRandom env (randoms s))))
           else None)
    | Returned None => status reply = "UNKNOWN" /\ hash reply = None
    | Returned (Some body) =>
        status reply = orElse (tx_state body) "UNKNOWN" /\
        hash reply = tx_txHash body
    end.
Proof.
  unfold CircleOps.getTransactionStatus, tryCatch, mbind, M_bind, bind, lift.
  destruct (getTransaction txId) as [[body|]|e]; cbn [fst snd].
  - eexists _, _. split; [reflexivity|]. repeat split; reflexivity.
  - eexists _, _. split; [reflexivity|]. repeat split; reflexivity.
  - destruct (includes txId "dev_tx_");
      eexists _, _; (split; [reflexivity|]); repeat split; reflexivity.
Qed.

(** X10. [transferUSDC] picks the USDC contract by chain and submits
    on the chain it was given: BASE-SEPOLIA uses the USDC address of
    the base configuration, every other chain that of the ethereum
    configuration, so a transfer on a chain other than these two is
    sent to that chain with the ethereum USDC address. It sends one
    createTransaction request for transfer(address,uint256) with the
    recipient and the amount as parameters and no amount field, and
    outside development mode an error of the SDK is thrown wrapped
    twice. *)
Theorem transferUSDC_picks_contract_by_chain env cfg from to amt chain eth bas s :
  Nft.blockchains cfg !! "ethereum" = Some eth ->
  Nft.blockchains cfg !! "base" = Some bas ->
  let usdcAddress :=
    if String.eqb chain "BASE-SEPOLIA"
    then Nft.usdcContractAddress bas else Nft.usdcContractAddress eth in
  let t := trace s ++ [SdkCreateTransaction (Some from) chain usdcAddress
                         "transfer(address,uint256)" [Some to; Some amt]
                         "MEDIUM" None] in
  trace (transferUSDC env cfg from to amt chain s).2 = t /\
  (forall e, NODE_ENV env <> Some "development" ->
     createTransaction env t = Threw e ->
     (transferUSDC env cfg from to amt chain s).1 =
     Threw (newError ("Circle API: Failed to transfer USDC - "
                      +:+ "Circle API: Gasless transaction failed - "
                      +:+ err_message e))).
Proof.
  intros He Hb. cbn zeta.
  assert (Haddr : forall s0,
    (if String.eqb chain "ETH-SEPOLIA" then usdcAddressOf cfg "ethereum"
     else if String.eqb chain "BASE-SEPOLIA" then usdcAddressOf cfg "base"
     else usdcAddressOf cfg "ethereum") s0
    = (Returned (if String.eqb chain "BASE-SEPOLIA"
                 then Nft.usdcContractAddress bas else Nft.usdcContractAddress eth), s0)).
  { intros s0. unfold usdcAddressOf.
    destruct (String.eqb chain "ETH-SEPOLIA") eqn:E1.
    - apply String.eqb_eq in E1. subst chain. cbn. now rewrite He.
    - destruct (String.eqb chain "BASE-SEPOLIA"); [now rewrite Hb | now rewrite He]. }
  unfold transferUSDC, tryCatch.
  rewrite (NftFacts.bind_returned _ _ s s _ (Haddr s)).
  match goal with
  | |- context [ executeGaslessTransaction ?a ?b ?c ?d ?e ?f ?g s ] =>
      pose proof (executeGaslessTransaction_trace a b c d e f g s) as [Ht _];
      pose proof (executeGaslessTransaction_wraps_sdk_error a b c d e f g s) as Hf;
      destruct (executeGaslessTransaction a b c d e f g s) as [[d0|e0] s1] eqn:Hx
  end.
  - cbn [fst snd] in *. split; [exact Ht|].
    intros e Hdev Hthrew. specialize (Hf e Hdev Hthrew). discriminate.
  - cbn [fst snd] in *. split; [exact Ht|].
    intros e Hdev Hthrew. specialize (Hf e Hdev Hthrew). injection Hf as ->.
    reflexivity.
Qed.

Lemma transferUSDC_picks_contract_by_chain_witness :
  trace (transferUSDC Examples.sponsorshipDown cfgBoth "w9" "0xB0B" "5" "MATIC-AMOY"
           (initial emptyLedger)).2
    = [SdkCreateTransaction (Some "w9") "MATIC-AMOY"
         "0x1c7D4B196Cb0C7B01d743Fbc6116a902379C7238"
         "transfer(address,uint256)" [Some "0xB0B"; Some "5"] "MEDIUM" None] /\
  (transferUSDC Examples.sponsorshipDown cfgBoth "w9" "0xB0B" "5" "MATIC-AMOY"
     (initial emptyLedger)).1
    = Threw (newError ("Circle API: Failed to transfer USDC - "
                       +:+ "Circle API: Gasless transaction failed - "
                       +:+ "socket hang up")).
Proof.
  pose proof (transferUSDC_picks_contract_by_chain Examples.sponsorshipDown cfgBoth
                "w9" "0xB0B" "5" "MATIC-AMOY" Examples.ethereum base
                (initial emptyLedger) eq_refl eq_refl) as [Ht Hf].
  split; [exact Ht|].
  apply (Hf Examples.boom); [discriminate | reflexivity].
Defined.

End CircleFacts.

(** ** The mint: what it sends, what it returns *)

Module MintFacts.
Import World Ethers Nft WorldFacts Requests.

Ltac extends :=
  first [ exact (NftFacts.extendsBy_trans _)
        | intros; first [ exact I
                        | apply NftFacts.extendsBy_refl
                        | now apply NftFacts.extendsBy_call
                        | now apply NftFacts.extendsBy_same ] ].







Lemma mintWithWallet_asks_no_balance env cfg request internal bc r :
  default false (payWithUSDC request) = false ->
  preserves (extendsBy notBalanceRequest)
    (mintWithWallet env cfg request internal bc r).
Proof.
  intros Hpay. unfold mintWithWallet. rewrite Hpay.
  apply preserves_bind; [extends | | intros uri].
  { apply (preserves_uploadMetadataToIPFS (extendsBy notBalanceRequest)
             notBalanceRequest); extends. }
  apply preserves_bind; [extends | apply preserves_deref; extends | intros u].
  apply preserves_bind; [extends | apply preserves_ret; extends | intros _].
  apply preserves_bind; [extends | | intros tx].
  { apply (preserves_executeGaslessTransaction (extendsBy notBalanceRequest)
             notBalanceRequest); extends. }
  apply preserves_bind; [extends | | intros tokenId].
  { apply (preserves_tokenIdOf (extendsBy notBalanceRequest) notBalanceRequest);
      extends. }
  apply preserves_ret. extends.
Qed.

Lemma mintNFT_sends_no_balance_request env cfg request s :
  default false (payWithUSDC request) = false ->
  extendsBy notBalanceRequest s (mintNFT env cfg request s).2.
Proof.
  intros Hpay. revert s. change (preserves (extendsBy notBalanceRequest)
                                   (mintNFT env cfg request)).
  unfold mintNFT, mintBody.
  apply preserves_tryCatch; [extends | | intros e; apply preserves_throw; extends].
  apply preserves_bind; [extends | apply preserves_lift; extends | intros bc].
  apply preserves_bind; [extends | | intros user].
  { apply (preserves_resolveUser (extendsBy notBalanceRequest)); extends. }
  apply preserves_bind; [extends | | intros user'].
  { apply (preserves_ensureWallet (extendsBy notBalanceRequest) notBalanceRequest);
      extends. }
  now apply mintWithWallet_asks_no_balance.
Qed.

(** X12. A mint that does not ask to pay with USDC (payWithUSDC false
    or absent) never asks for a wallet balance, whether it returns or
    throws. *)
Theorem mintNFT_asks_balance_only_when_paying env cfg request s :
  default false (payWithUSDC request) = false ->
  extendsBy notBalanceRequest s (mintNFT env cfg request s).2.
Proof. apply mintNFT_sends_no_balance_request. Qed.

Lemma mintNFT_asks_balance_only_when_paying_witness :
  extendsBy notBalanceRequest (initial emptyLedger)
    (mintNFT Examples.happy Examples.cfg (Examples.request "BASE-SEPOLIA")
       (initial emptyLedger)).2.
Proof.
  apply (mintNFT_asks_balance_only_when_paying Examples.happy Examples.cfg
           (Examples.request "BASE-SEPOLIA") (initial emptyLedger) eq_refl).
Defined.

(** The user that [resolveUser] returns is filed under the email, and
    its record, if it has one, carries that email and is filed under
    its own id. *)
Lemma resolveUser_filed env em s r s1 :
  LedgerOps.inSync (ledger s) ->
  resolveUser env em s = (Returned r, s1) ->
  usersByEmail (ledger s1) !! em = Some r /\
  forall u, objects (ledger s1) !! r = Some u ->
    World.email u = em /\ users (ledger s1) !! World.id u = Some r.
Proof.
  intros [Hu He].
  unfold resolveUser, Ledger.getUserByEmail, Ledger.createUser, tryCatch,
    mbind, M_bind, bind, getLedger, Ledger.byEmail.
  destruct (usersByEmail (ledger s) !! em) as [r0|] eqn:Hr; cbn [fst snd].
  - intros H. injection H as <- <-. split; [exact Hr|].
    intros u Ho. destruct (He em r0 Hr) as (u0 & Ho0 & Hem & Hid).
    assert (u0 = u) as -> by congruence. auto.
  - cbn [fst snd ledger uuid now setLedger mret M_ret ret]. rewrite Hr.
    cbn [fst snd ledger uuid now setLedger mret M_ret ret].
    intros H. injection H as <- <-.
    cbn [ledger users usersByEmail objects].
    rewrite !lookup_insert_eq. split; [reflexivity|].
    intros u H. injection H as <-. cbn. now rewrite lookup_insert_eq.
Qed.

Lemma updateUserWallet_known env uid w a s r u :
  users (ledger s) !! uid = Some r ->
  objects (ledger s) !! r = Some u ->
  exists s',
    Ledger.updateUserWallet env uid w a s = (Returned r, s') /\
    usersByEmail (ledger s') !! World.email u = Some r /\
    objects (ledger s') !! r =
      Some {| id := World.id u; World.email := World.email u;
              walletId := Some w; World.walletAddress := Some a;
              createdAt := createdAt u; updatedAt := dateNow env (clocks s) |}.
Proof.
  intros Hr Ho.
  unfold Ledger.updateUserWallet, tryCatch, mbind, M_bind, bind, getLedger,
    Ledger.byId, Ledger.deref.
  rewrite Hr, Ho. cbn [fst snd ledger now setLedger mret M_ret ret].
  eexists. split; [reflexivity|]. cbn [ledger users usersByEmail objects].
  now rewrite !lookup_insert_eq.
Qed.

(** When [ensureWallet] returns for such a user, it returns the same
    user, still filed under the email, with both wallet fields set. *)
Lemma ensureWallet_sets_both_fields env cfg em r s1 r' s2 :
  usersByEmail (ledger s1) !! em = Some r ->
  (forall u, objects (ledger s1) !! r = Some u ->
     World.email u = em /\ users (ledger s1) !! World.id u = Some r) ->
  ensureWallet env cfg r s1 = (Returned r', s2) ->
  r' = r /\ usersByEmail (ledger s2) !! em = Some r /\
  exists u', objects (ledger s2) !! r = Some u' /\
             is_Some (World.walletId u') /\ is_Some (World.walletAddress u').
Proof.
  intros Hem Hfiled. unfold ensureWallet, mbind, M_bind, bind, Ledger.deref.
  destruct (objects (ledger s1) !! r) as [u|] eqn:Ho; [|discriminate].
  destruct (Hfiled u eq_refl) as [Hmail Hid].
  destruct (falsy (World.walletId u) || falsy (World.walletAddress u)) eqn:Hf.
  - destruct (CircleFacts.createWallet_sends_one_request env (circle cfg)
                [gaslessBlockchain] s1) as [_ Hl].
    destruct (Circle.createWallet env (circle cfg) [gaslessBlockchain] s1)
      as [[ws|e] s1']; [|discriminate].
    cbn [snd] in Hl.
    destruct (List.find _ ws) as [w|]; [|discriminate].
    rewrite <- Hl in Hid, Ho.
    destruct (updateUserWallet_known env (World.id u) (cw_id w) (cw_address w)
                s1' r u Hid Ho) as (s3 & Hupd & Hem3 & Ho3).
    rewrite Hupd. intros H. injection H as <- <-.
    split; [reflexivity|]. rewrite <- Hmail. split; [exact Hem3|].
    eexists. split; [exact Ho3|]. cbn. split; eexists; reflexivity.
  - intros H. injection H as <- <-. split; [reflexivity|]. split; [exact Hem|].
    exists u. split; [exact Ho|].
    apply orb_false_iff in Hf as [Hw Ha].
    destruct (World.walletId u), (World.walletAddress u); try discriminate.
    split; eexists; reflexivity.
Qed.

(** X13. After a mint that returns, the user of the request's email is
    in the ledger with a walletId and a walletAddress on its record,
    and the walletAddress of the response is the one on that record
    (for a ledger whose two maps are in sync). *)
Theorem mintNFT_returns_the_recorded_wallet env cfg request s response s' :
  LedgerOps.inSync (ledger s) ->
  mintNFT env cfg request s = (Returned response, s') ->
  exists r u,
    usersByEmail (ledger s') !! email request = Some r /\
    objects (ledger s') !! r = Some u /\
    is_Some (World.walletId u) /\
    is_Some (World.walletAddress u) /\
    walletAddress response = World.walletAddress u.
Proof.
  intros Hsync. unfold mintNFT, tryCatch.
  destruct (mintBody env cfg request s) as [[resp|e] s0] eqn:Hbody; [|discriminate].
  intros H. injection H as <- <-. revert Hbody.
  unfold mintBody, mbind, M_bind, bind, lift.
  destruct (getBlockchainConfig cfg _) as [bc|e]; [|discriminate].
  destruct (resolveUser env (email request) s) as [[r|e] s1] eqn:Hres; [|discriminate].
  destruct (resolveUser_filed env (email request) s r s1 Hsync Hres) as [Hem Hfiled].
  destruct (ensureWallet env cfg r s1) as [[r'|e] s2] eqn:Hens; [|discriminate].
  destruct (ensureWallet_sets_both_fields env cfg (email request) r s1 r' s2
              Hem Hfiled Hens) as (-> & Hem2 & u & Ho & Hw & Ha).
  intros Hmint.
  destruct (NftFacts.mintWithWallet_reuses env cfg request
              (mapToInternalBlockchain gaslessBlockchain) bc r s2) as [Hl _].
  rewrite Hmint in Hl. cbn [snd] in Hl.
  exists r, u. rewrite Hl. repeat split; try assumption.
  exact (NftFacts.mintWithWallet_walletAddress env cfg request _ bc r u s2 resp s0
           Ho Hmint).
Qed.

Lemma mintNFT_returns_the_recorded_wallet_witness :
  exists r u,
    usersByEmail (ledger (mintNFT Examples.happy Examples.cfg
                            (Examples.request "ETH-SEPOLIA") (initial emptyLedger)).2)
      !! "a@x.com" = Some r /\
    objects (ledger (mintNFT Examples.happy Examples.cfg
                       (Examples.request "ETH-SEPOLIA") (initial emptyLedger)).2)
      !! r = Some u /\
    is_Some (World.walletId u) /\
    is_Some (World.walletAddress u) /\
    Some "0xA11CE" = World.walletAddress u.
Proof.
  apply (mintNFT_returns_the_recorded_wallet Examples.happy Examples.cfg
           (Examples.request "ETH-SEPOLIA") (initial emptyLedger)
           {| transactionHash := "0xfeed"; nftId := "7"; contractAddress := "0xC0FFEE";
              walletAddress := Some "0xA11CE"; res_blockchain := "ethereum";
              gasSponsored := true |}).
  - split; intros k r H; cbn in H; now rewrite lookup_empty in H.
  - vm_compute. reflexivity.
Defined.

Lemma mintWithWallet_shape env cfg request internal bc r s response s' :
  mintWithWallet env cfg request internal bc r s = (Returned response, s') ->
  contractAddress response = nftContractAddress bc /\
  res_blockchain response = internal /\
  gasSponsored response = true /\
  transactionHash response <> "".
Proof.
  unfold mintWithWallet, mbind, M_bind, bind.
  destruct (uploadMetadataToIPFS env cfg (nftMetadata request) s) as [[uri|e] s1];
    [|discriminate].
  destruct (Ledger.deref r s1) as [[u|e] s1']; [|discriminate].
  match goal with
  | |- context [ (if ?b then ?x else ?y) s1' ] =>
      destruct ((if b then x else y) s1') as [[[]|e] s2]; [|discriminate]
  end.
  match goal with
  | |- context [ Circle.executeGaslessTransaction ?a ?b ?c ?d ?e ?f ?g s2 ] =>
      pose proof (fun d0 => CircleFacts.executeGaslessTransaction_not_blank
                              a b c d e f g s2 d0) as Hblank;
      destruct (Circle.executeGaslessTransaction a b c d e f g s2) as [[tx|e'] s3];
        [|discriminate]
  end.
  destruct (tokenIdOf env cfg tx bc internal s3) as [[tokenId|e'] s4]; [|discriminate].
  unfold mret, M_ret, ret. intros H. injection H as <- _. cbn.
  repeat split. now destruct (Hblank tx eq_refl) as (_ & Hh & _).
Qed.

(** X14. Every response that [mintNFT] returns, whatever chain the
    request names, names blockchain 'ethereum', has gasSponsored true,
    carries the NFT contract address of the ethereum configuration,
    and has a non-empty transaction hash. *)
Theorem mintNFT_response_is_for_ethereum env cfg request s response s' :
  mintNFT env cfg request s = (Returned response, s') ->
  exists bc,
    blockchains cfg !! "ethereum" = Some bc /\
    contractAddress response = nftContractAddress bc /\
    res_blockchain response = "ethereum" /\
    gasSponsored response = true /\
    transactionHash response <> "".
Proof.
  unfold mintNFT, tryCatch.
  destruct (mintBody env cfg request s) as [[resp|e] s0] eqn:Hbody; [|discriminate].
  intros H. injection H as <- <-. revert Hbody.
  unfold mintBody, mbind, M_bind, bind, lift, getBlockchainConfig.
  change (mapToInternalBlockchain gaslessBlockchain) with "ethereum".
  destruct (blockchains cfg !! "ethereum") as [bc|]; [|discriminate].
  destruct (resolveUser env (email request) s) as [[r|e] s1]; [|discriminate].
  destruct (ensureWallet env cfg r s1) as [[r'|e] s2]; [|discriminate].
  intros Hmint. exists bc. split; [reflexivity|].
  exact (mintWithWallet_shape env cfg request "ethereum" bc r' s2 resp s0 Hmint).
Qed.

Lemma mintNFT_response_is_for_ethereum_witness :
  exists bc,
    blockchains Examples.cfg !! "ethereum" = Some bc /\
    "0xC0FFEE" = nftContractAddress bc /\
    "ethereum" = "ethereum" /\
    true = true /\
    "0xfeed" <> "".
Proof.
  apply (mintNFT_response_is_for_ethereum Examples.happy Examples.cfg
           (Examples.request "BASE-SEPOLIA") (initial emptyLedger)
           {| transactionHash := "0xfeed"; nftId := "7"; contractAddress := "0xC0FFEE";
              walletAddress := Some "0xA11CE"; res_blockchain := "ethereum";
              gasSponsored := true |}
           (mintNFT Examples.happy Examples.cfg (Examples.request "BASE-SEPOLIA")
              (initial emptyLedger)).2).
  vm_compute. reflexivity.
Defined.

(** X15. Reading the token id never fails a mint: [tokenIdOf] returns
    in every state. For a non-empty hash that does not start with
    'dev_tx_' it asks for the receipt once and returns the id of the
    first mint event that decodes, and 'unknown' when there is no
    provider for the chain, the receipt request throws, there is no
    receipt, or no log decodes to a mint event; for any other hash it
    sends nothing and returns Math.floor(Math.random() * 10000) as the
    id. *)
Theorem tokenIdOf_never_throws env cfg tx bc internal s :
  let h := Circle.transactionHash tx in
  exists tokenId s',
    tokenIdOf env cfg tx bc internal s = (Returned tokenId, s') /\
    if negb (String.eqb h "") && negb (startsWith h "dev_tx_") then
      match blockchains cfg !! internal with
      | None => tokenId = "unknown" /\ trace s' = trace s
      | Some _ =>
          trace s' = trace s ++ [RpcGetTransactionReceipt internal h] /\
          match getTransactionReceipt env (trace s') with
          | Returned (Some receipt) =>
              tokenId = default "unknown" (scanLogs env (logs receipt))
          | _ => tokenId = "unknown"
          end
      end
    else
      tokenId = Z_toString (times10000 (mathRandom env (randoms s))) /\
      trace s' = trace s.
Proof.
  cbn zeta. unfold tokenIdOf, tryCatch.
  destruct (negb (String.eqb (Circle.transactionHash tx) "")
            && negb (startsWith (Circle.transactionHash tx) "dev_tx_")).
  - unfold parseTokenIdFromTransaction, tryCatch, mbind, M_bind, bind, call, throw.
    destruct (blockchains cfg !! internal) as [c|].
    + cbn [fst snd trace].
      destruct (getTransactionReceipt env _) as [[receipt|]|e] eqn:Hrec; cbn [fst snd].
      * destruct (logs receipt) as [|l ls] eqn:Hlogs.
        -- eexists _, _. split; [reflexivity|]. cbn [trace]. split; [reflexivity|].
           rewrite Hrec, Hlogs. reflexivity.
        -- destruct (scanLogs env (l :: ls)) as [t|] eqn:Hscan;
             eexists _, _; (split; [reflexivity|]); cbn [trace];
             (split; [reflexivity|]); rewrite Hrec, Hlogs, Hscan; reflexivity.
      * eexists _, _. split; [reflexivity|]. cbn [trace]. split; [reflexivity|].
        now rewrite Hrec.
      * eexists _, _. split; [reflexivity|]. cbn [trace]. split; [reflexivity|].
        now rewrite Hrec.
    + eexists _, _. split; [reflexivity|]. split; reflexivity.
  - eexists _, _. split; [reflexivity|]. split; reflexivity.
Qed.

Lemma mintWithWallet_only_mints env cfg request internal bc r :
  preserves (extendsBy (onlyMints (nftContractAddress bc)))
    (mintWithWallet env cfg request internal bc r).
Proof.
  unfold mintWithWallet.
  apply preserves_bind; [extends | | intros uri].
  { apply (preserves_uploadMetadataToIPFS (extendsBy (onlyMints (nftContractAddress bc)))
             (onlyMints (nftContractAddress bc))); extends. }
  apply preserves_bind; [extends | apply preserves_deref; extends | intros u].
  apply preserves_bind; [extends | | intros _].
  { destruct (default false (payWithUSDC request)); [|apply preserves_ret; extends].
    apply (preserves_handleUSDCPayment (extendsBy (onlyMints (nftContractAddress bc)))
             (onlyMints (nftContractAddress bc))); extends. }
  apply preserves_bind; [extends | | intros tx].
  { intros s.
    match goal with
    | |- context [ Circle.executeGaslessTransaction ?a ?b ?c ?d ?e ?f ?g s ] =>
        destruct (CircleFacts.executeGaslessTransaction_trace a b c d e f g s) as [Ht _]
    end.
    eexists. split; [exact Ht|]. constructor; [|constructor].
    cbn. repeat split. }
  apply preserves_bind; [extends | | intros tokenId].
  { apply (preserves_tokenIdOf (extendsBy (onlyMints (nftContractAddress bc)))
             (onlyMints (nftContractAddress bc))); extends. }
  apply preserves_ret. extends.
Qed.

(** X25. Paying with USDC never moves USDC: whatever the request
    asks, the only transactions that [mintNFT] submits are calls of
    mint(address,string) on the NFT contract of the ethereum
    configuration, on ETH-SEPOLIA, with fee level MEDIUM and no
    amount; the USDC step only reads the balance. *)
Theorem mintNFT_submits_only_the_mint env cfg request s bc :
  blockchains cfg !! "ethereum" = Some bc ->
  extendsBy (onlyMints (nftContractAddress bc)) s (mintNFT env cfg request s).2.
Proof.
  intros Hbc. revert s.
  change (preserves (extendsBy (onlyMints (nftContractAddress bc)))
            (mintNFT env cfg request)).
  unfold mintNFT, mintBody, getBlockchainConfig.
  change (mapToInternalBlockchain gaslessBlockchain) with "ethereum". rewrite Hbc.
  apply preserves_tryCatch; [extends | | intros e; apply preserves_throw; extends].
  intros s. rewrite (NftFacts.bind_returned _ _ s s bc eq_refl). revert s.
  apply preserves_bind; [extends | | intros user].
  { apply (preserves_resolveUser (extendsBy (onlyMints (nftContractAddress bc))));
      extends. }
  apply preserves_bind; [extends | | intros user'].
  { apply (preserves_ensureWallet (extendsBy (onlyMints (nftContractAddress bc)))
             (onlyMints (nftContractAddress bc))); extends. }
  apply mintWithWallet_only_mints.
Qed.

Lemma mintNFT_submits_only_the_mint_witness :
  extendsBy (onlyMints "0xC0FFEE") Examples.attached
    (mintNFT Examples.happy Examples.cfg paying Examples.attached).2.
Proof.
  apply (mintNFT_submits_only_the_mint Examples.happy Examples.cfg paying
           Examples.attached Examples.ethereum).
  reflexivity.
Defined.

(** X26. The token id is read from the first log that decodes to a
    mint: [scanLogs] skips every log whose decoding throws or gives
    nothing, every event of another name, every Transfer that is not
    from the zero address and every event without a tokenId, and
    returns the tokenId of the first NFTMinted event or Transfer
    from the zero address it meets, without looking at the logs
    after it; with no such log it returns nothing. *)
Theorem scanLogs_first_mint_event env before log after d n :
  Forall (fun l =>
            match parseLog env l with
            | Returned (Some d') =>
                (name d' <> "NFTMinted" /\
                 (name d' <> "Transfer" \/ args_from d' <> Some ZeroAddress)) \/
                args_tokenId d' = None
            | _ => True
            end) before ->
  parseLog env log = Returned (Some d) ->
  name d = "NFTMinted" \/ (name d = "Transfer" /\ args_from d = Some ZeroAddress) ->
  args_tokenId d = Some n ->
  scanLogs env before = None /\
  scanLogs env (before ++ log :: after) = Some (N_toString n).
Proof.
  intros Hskip Hlog Hname Hid.
  assert (Hthis : scanLog env log = Some (N_toString n)).
  { unfold scanLog, tokenIdToString. rewrite Hlog, Hid.
    destruct Hname as [Hn|[Hn Hf]]; rewrite Hn; cbn.
    - reflexivity.
    - now rewrite (bool_decide_eq_true_2 _ Hf). }
  induction Hskip as [|l ls Hl _ IH]; cbn [scanLogs app].
  - now rewrite Hthis.
  - assert (Hnone : scanLog env l = None).
    { unfold scanLog, tokenIdToString.
      destruct (parseLog env l) as [[d'|]|e]; try reflexivity.
      destruct Hl as [[Hm Ht]|Hno].
      - apply String.eqb_neq in Hm. rewrite Hm.
        destruct Ht as [Ht|Hf].
        + apply String.eqb_neq in Ht. now rewrite Ht.
        + rewrite (bool_decide_eq_false_2 _ Hf). now rewrite andb_false_r.
      - rewrite Hno. destruct (_ && _); [reflexivity|].
        destruct (String.eqb _ _); reflexivity. }
    rewrite Hnone. exact IH.
Qed.

Lemma scanLogs_first_mint_event_witness :
  scanLogs strictDecoder [Receipt.foreignLog; Receipt.foreignLog] = None /\
  scanLogs strictDecoder
    ([Receipt.foreignLog; Receipt.foreignLog] ++ Examples.mintedLog :: [Receipt.mintLog])
    = Some (N_toString 7).
Proof.
  apply (scanLogs_first_mint_event strictDecoder
           [Receipt.foreignLog; Receipt.foreignLog] Examples.mintedLog
           [Receipt.mintLog]
           {| name := "NFTMinted"; args_from := None; args_tokenId := Some 7%N |} 7%N).
  - repeat (constructor; [exact I|]). constructor.
  - reflexivity.
  - left. reflexivity.
  - reflexivity.
Defined.

End MintFacts.

(** ** The error middleware *)

Module ErrorHandlerFacts.
Import ErrorHandler.

(** X16. [errorHandler] never sends the message of an error it does not
    know: for an error that is not an [AppError], the reply carries
    the error's own message only when its name is 'ValidationError'
    (status 400); otherwise status and text are one of 401 'Invalid
    token', 401 'Token expired', 502 'Circle service error', 502
    'Blockchain service error' and 500 'Internal Server Error'. An
    [AppError] is answered with its own status and message whatever
    its text contains. The reply always has success false, and the
    stack is included exactly when NODE_ENV is 'development'. *)
Theorem errorHandler_hides_unknown_messages nodeEnv e code stack :
  let r := errorHandler nodeEnv (OtherError e) stack in
  let a := errorHandler nodeEnv (AppError e code) stack in
  (if String.eqb (err_name e) "ValidationError"
   then statusCode r = 400 /\ error r = err_message e
   else In (statusCode r, error r) genericReplies) /\
  statusCode a = code /\ error a = err_message e /\
  success r = false /\ success a = false /\
  (data r = Some stack <-> nodeEnv = Some "development") /\
  (data r = None <-> nodeEnv <> Some "development").
Proof.
  cbn zeta. unfold errorHandler, classify, genericReplies.
  split; [|split; [reflexivity|split; [reflexivity|]]].
  - destruct (String.eqb (err_name e) "ValidationError") eqn:Hv.
    + apply String.eqb_eq in Hv. rewrite Hv. cbn. split; reflexivity.
    + destruct (String.eqb (err_name e) "JsonWebTokenError"); [cbn; tauto|].
      destruct (String.eqb (err_name e) "TokenExpiredError"); [cbn; tauto|].
      destruct (includes (err_message e) "Circle API"); [cbn; tauto|].
      destruct (includes (err_message e) "blockchain" || includes (err_message e) "transaction");
        cbn; tauto.
  - destruct (classify (OtherError e)) as [c m] eqn:Hc. unfold classify in Hc.
    rewrite Hc. cbn. split; [reflexivity|]. split; [reflexivity|].
    destruct (decide (nodeEnv = Some "development")) as [Hd|Hd]; split; split;
      intros H; try congruence; try reflexivity.
Qed.

Lemma mintNFT_throws_wrapped env cfg request s e :
  (Nft.mintNFT env cfg request s).1 = Threw e ->
  exists cause, e = newError ("Failed to mint NFT: " +:+ cause).
Proof.
  unfold Nft.mintNFT, World.tryCatch.
  destruct (Nft.mintBody env cfg request s) as [[resp|e'] s1]; [discriminate|].
  cbn. intros H. injection H as <-. now eexists.
Qed.

(** X17. What a client is told about a failed mint: handed to
    [errorHandler], every error that [mintNFT] throws is answered with
    status 502 and 'Circle service error' when its message contains
    'Circle API', else status 502 and 'Blockchain service error' when
    it contains 'blockchain' or 'transaction', else status 500 and
    'Internal Server Error': never a 4xx status, and never the
    message of the error. *)
Theorem failed_mint_is_answered_with_5xx env cfg request s e nodeEnv stack :
  (Nft.mintNFT env cfg request s).1 = Threw e ->
  let r := errorHandler nodeEnv (OtherError e) stack in
  success r = false /\
  (statusCode r, error r) =
    (if includes (err_message e) "Circle API" then (502, "Circle service error")
     else if includes (err_message e) "blockchain"
             || includes (err_message e) "transaction"
     then (502, "Blockchain service error")
     else (500, "Internal Server Error")).
Proof.
  intros H. destruct (mintNFT_throws_wrapped env cfg request s e H) as [cause ->].
  cbn zeta. unfold errorHandler, classify.
  change (err_name (newError _)) with "Error". cbn [String.eqb Ascii.eqb Bool.eqb].
  cbn [err_message newError].
  destruct (includes _ "Circle API"); [split; reflexivity|].
  destruct (includes _ "blockchain" || includes _ "transaction"); split; reflexivity.
Qed.

Lemma failed_mint_is_answered_with_5xx_witness :
  let r := errorHandler (Some "production")
             (OtherError (newError ("Failed to mint NFT: Circle API: "
                                    +:+ "Failed to create SCA wallet - socket hang up")))
             None in
  success r = false /\
  (statusCode r, error r) = (502, "Circle service error").
Proof.
  apply (failed_mint_is_answered_with_5xx Examples.walletsDown Examples.cfg
           (Examples.request "ETH-SEPOLIA") (World.initial World.emptyLedger)
           (newError ("Failed to mint NFT: Circle API: "
                      +:+ "Failed to create SCA wallet - socket hang up"))
           (Some "production") None).
  vm_compute. reflexivity.
Defined.

End ErrorHandlerFacts.

(** ** The batch handler: status, and the USDC check *)

Module BatchReplyFacts.
Import World Nft Batch Requests WorldFacts.

(** X18. The status and the success flag of the batch reply follow the
    number of minted items, whatever [mintNFT] does: when at least one
    item was minted the handler answers 201 with success true, and
    when none was (every item failed, or the list is empty) it answers
    400 with success false and as many error records as items. The
    handler itself never throws. *)
Theorem batchMint_status_follows_successes
    (mintNFT : MintNFTRequest -> M MintNFTResponse) (req : BatchRequest) (s : State) :
  exists reply,
    (batchMint mintNFT req s).1 = Returned reply /\
    ((status reply = 201 /\ success (body reply) = true /\
      (0 < totalSuccessful (data (body reply)))%nat) \/
     (status reply = 400 /\ success (body reply) = false /\
      totalSuccessful (data (body reply)) = 0%nat /\
      totalFailed (data (body reply)) = length (nfts req))).
Proof.
  pose proof (BatchFacts.forLoop_outcomes mintNFT req (nfts req) 0 ([], []) s) as Hloop.
  pose proof (BatchFacts.outcomes_split (itemOutcomes mintNFT req (nfts req) 0 s)) as Hsplit.
  rewrite BatchFacts.itemOutcomes_length in Hsplit.
  set (outs := itemOutcomes mintNFT req (nfts req) 0 s) in *. clearbody outs.
  unfold batchMint, mbind, M_bind, bind.
  destruct (forLoop mintNFT req (nfts req) 0 ([], []) s) as [[acc|e] s1];
    cbn [fst] in Hloop; [|discriminate].
  injection Hloop as ->. cbn [fst snd app].
  eexists. split; [reflexivity|].
  cbn [status body success data totalSuccessful totalFailed].
  destruct (length (returnedOf outs)) as [|n] eqn:Hn.
  - right. split; [reflexivity|]. split; [|split; [reflexivity | lia]].
    apply Nat.ltb_ge. lia.
  - left. split; [reflexivity|]. split; [|lia].
    apply Nat.ltb_lt. lia.
Qed.

Lemma extendsBy_sleep (P : Call -> Prop) ms s :
  P (SetTimeout ms) -> extendsBy P s (sleep ms s).2.
Proof. intros H. exists [SetTimeout ms]. split; [reflexivity | now constructor]. Qed.

(** After the first item no mint of the batch asks to pay with USDC. *)
Lemma forLoop_later_items env cfg req rest :
  forall i acc,
    preserves (extendsBy notBalanceRequest)
      (forLoop (Nft.mintNFT env cfg) req rest (S i) acc).
Proof.
  induction rest as [|m rest IH]; intros i acc.
  - apply preserves_ret. MintFacts.extends.
  - cbn [forLoop].
    apply preserves_bind; [MintFacts.extends | | intros acc'; apply IH].
    unfold mintItem.
    apply preserves_tryCatch;
      [MintFacts.extends | | intros e; apply preserves_ret; MintFacts.extends].
    apply preserves_bind; [MintFacts.extends | | intros result].
    { intros s0. now apply MintFacts.mintNFT_sends_no_balance_request. }
    apply preserves_bind; [MintFacts.extends | | intros _; apply preserves_ret;
                                                  MintFacts.extends].
    intros s0. now apply extendsBy_sleep.
Qed.

(** X19. In a batch only the first item is checked for USDC: once the
    first item has been handled, the rest of the batch sends no wallet
    balance request, whatever payWithUSDC the request carries. *)
Theorem batchMint_checks_balance_for_first_item_only env cfg req m rest s :
  nfts req = m :: rest ->
  extendsBy notBalanceRequest
    (mintItem (Nft.mintNFT env cfg) req 0 m ([], []) s).2
    (batchMint (Nft.mintNFT env cfg) req s).2.
Proof.
  intros Hn. unfold batchMint. rewrite Hn. cbn [forLoop].
  unfold mbind, M_bind, bind.
  destruct (mintItem (Nft.mintNFT env cfg) req 0 m ([], []) s) as [[acc|e] s1];
    cbn [snd]; [|apply NftFacts.extendsBy_refl].
  pose proof (forLoop_later_items env cfg req rest 0 acc s1) as H.
  destruct (forLoop (Nft.mintNFT env cfg) req rest 1 acc s1) as [[acc'|e] s2];
    cbn [snd] in *; exact H.
Qed.

Lemma batchMint_checks_balance_for_first_item_only_witness :
  extendsBy notBalanceRequest
    (mintItem (Nft.mintNFT Examples.happy Examples.cfg) payingBatch 0
       (Examples.metadata "N1") ([], []) Examples.attached).2
    (batchMint (Nft.mintNFT Examples.happy Examples.cfg) payingBatch
       Examples.attached).2.
Proof.
  apply (batchMint_checks_balance_for_first_item_only Examples.happy Examples.cfg
           payingBatch (Examples.metadata "N1")
           [Examples.metadata "N2"; Examples.metadata "N3"] Examples.attached).
  reflexivity.
Defined.

End BatchReplyFacts.

(** ** The poller: how many status queries *)

Module PollerBudget.
Import Poller.

Section Budget.
Variable provider : Provider.
Variable transactionId : string.
Variables maxWaitTime pollInterval startTime : Z.
Hypothesis positive : 0 < pollInterval.

(** A query is only issued after a loop test that passed, and by the
    k-th test at least [k] intervals have gone by. *)
Lemma loop_poll_budget fuel :
  forall k now,
    startTime + Z.of_nat k * pollInterval <= now ->
    (k = 0%nat \/ (Z.of_nat k - 1) * pollInterval < maxWaitTime) ->
    let run := loop provider transactionId maxWaitTime pollInterval startTime
                 fuel k now in
    polls run = 0%nat \/ (Z.of_nat (polls run) - 1) * pollInterval < maxWaitTime.
Proof.
  induction fuel as [|fuel IH]; intros k now Hnow Hk; cbn zeta.
  - exact Hk.
  - cbn [loop]. destruct (now - startTime <? maxWaitTime) eqn:Htest.
    + apply Z.ltb_lt in Htest.
      assert (Hthis : (Z.of_nat (S k) - 1) * pollInterval < maxWaitTime) by nia.
      destruct (pollOnce transactionId (http (provider k))).
      * right. exact Hthis.
      * apply IH; [|right; exact Hthis].
        unfold sleepTime. nia.
    + exact Hk.
Qed.

End Budget.

(** X20. With a positive poll interval [waitForTransaction] finishes,
    whatever the status endpoint answers and however long it takes:
    from some amount of fuel on the call has one and the same result,
    and it has issued no status query at all when maxWaitTime is not
    positive, and otherwise fewer than maxWaitTime / pollInterval + 1
    of them (at most 40 with the default 120000 ms and 3000 ms). *)
Theorem waitForTransaction_finishes_within_budget
    (provider : Provider) (transactionId : string)
    (maxWaitTime pollInterval startTime : Z) :
  0 < pollInterval ->
  exists n r finished issued,
    (forall fuel, (n < fuel)%nat ->
       waitForTransaction fuel provider transactionId maxWaitTime pollInterval startTime
       = {| result := Done r; finishedAt := finished; polls := issued |}) /\
    (issued = 0%nat \/ (Z.of_nat issued - 1) * pollInterval < maxWaitTime) /\
    (maxWaitTime <= 0 ->
     issued = 0%nat /\ finished = startTime /\
     r = Threw (timeoutError transactionId maxWaitTime)).
Proof.
  intros Hp.
  destruct (PollerFacts.waitForTransaction_finishes provider transactionId maxWaitTime
              pollInterval startTime Hp) as (n & r & finished & issued & Hrun).
  exists n, r, finished, issued. split; [exact Hrun|]. split.
  - pose proof (loop_poll_budget provider transactionId maxWaitTime pollInterval
                  startTime Hp (S n) 0 startTime ltac:(lia) ltac:(now left)) as Hb.
    cbn zeta in Hb. fold (waitForTransaction (S n) provider transactionId maxWaitTime
                            pollInterval startTime) in Hb.
    rewrite (Hrun (S n)) in Hb by lia. exact Hb.
  - intros Hmax. specialize (Hrun (S n) ltac:(lia)).
    unfold waitForTransaction in Hrun. cbn [loop] in Hrun.
    replace (startTime - startTime <? maxWaitTime) with false in Hrun
      by (symmetry; apply Z.ltb_ge; lia).
    injection Hrun as <- <- <-. repeat split.
Qed.

Lemma waitForTransaction_finishes_within_budget_witness :
  exists n r finished issued,
    (forall fuel, (n < fuel)%nat ->
       waitForTransaction fuel (alwaysQueued 400) "tx-1"
         TRANSACTION_CONFIRMATION POLLING_INTERVAL 0
       = {| result := Done r; finishedAt := finished; polls := issued |}) /\
    (issued = 0%nat \/
     (Z.of_nat issued - 1) * POLLING_INTERVAL < TRANSACTION_CONFIRMATION) /\
    (TRANSACTION_CONFIRMATION <= 0 ->
     issued = 0%nat /\ finished = 0 /\
     r = Threw (timeoutError "tx-1" TRANSACTION_CONFIRMATION)).
Proof.
  apply (waitForTransaction_finishes_within_budget (alwaysQueued 400) "tx-1"
           TRANSACTION_CONFIRMATION POLLING_INTERVAL 0).
  reflexivity.
Defined.

End PollerBudget.

(** ** The mint of [BlockchainService] *)

Module PipelineFacts.
Import Poller Receipt Pipeline.

Lemma pollOnce_returns_confirmed transactionId r st :
  pollOnce transactionId r = Exit (Returned st) -> state st = "CONFIRMED".
Proof.
  unfold pollOnce, tryBlock.
  destruct (getTransactionStatus transactionId r) as [status|e].
  - destruct (String.eqb (state status) "CONFIRMED") eqn:Hc.
    + intros H. injection H as <-. now apply String.eqb_eq.
    + destruct (String.eqb (state status) "FAILED"); [|discriminate].
      destruct (includes _ _); discriminate.
  - destruct (includes _ _); discriminate.
Qed.

(** Whatever the poller returns is a status in state CONFIRMED. *)
Lemma loop_returns_confirmed provider transactionId maxWaitTime pollInterval startTime fuel :
  forall k now st,
    result (loop provider transactionId maxWaitTime pollInterval startTime fuel k now)
      = Done (Returned st) ->
    state st = "CONFIRMED".
Proof.
  induction fuel as [|fuel IH]; intros k now st; cbn [loop]; [discriminate|].
  destruct (now - startTime <? maxWaitTime); [|discriminate].
  destruct (pollOnce transactionId (http (provider k))) as [r|] eqn:Hp.
  - cbn [result]. intros H. injection H as ->.
    now apply (pollOnce_returns_confirmed transactionId (http (provider k))).
  - apply IH.
Qed.

Lemma getTokenIdFromTransaction_returns svc rpc txHash network :
  exists tokenId, getTokenIdFromTransaction svc rpc txHash network = Returned tokenId.
Proof.
  unfold getTokenIdFromTransaction.
  destruct (extractTokenId svc rpc txHash network); now eexists.
Qed.

Lemma tokenIdOfConfirmed_returns svc env txHash network :
  exists tokenId, tokenIdOfConfirmed svc env txHash network = Returned tokenId.
Proof.
  unfold tokenIdOfConfirmed.
  destruct txHash; apply getTokenIdFromTransaction_returns.
Qed.

(** X21. [mintNFT] of the blockchain service checks its arguments and
    the supply before it asks the sponsor for anything: an empty
    walletId, recipient or token URI, then a recipient that is not an
    address, then a contract with no supply left each end the call
    with BlockchainError('NFT minting failed: ' + reason), whatever
    the estimate, submission and status requests would have
    answered. *)
Theorem mintNFT_validates_before_submitting fuel svc env p :
  (walletId p = "" \/ recipientAddress p = "" \/ tokenURI p = "" ->
   mintNFT fuel svc env p = Some (Threw (blockchainError
     "NFT minting failed: Missing required parameters for NFT minting"))) /\
  (walletId p <> "" -> recipientAddress p <> "" -> tokenURI p <> "" ->
   (isAddress env (recipientAddress p) = false ->
    mintNFT fuel svc env p = Some (Threw (blockchainError
      "NFT minting failed: Invalid recipient address"))) /\
   (isAddress env (recipientAddress p) = true ->
    forall nftContract,
      getNFTContract svc (default "BASE-SEPOLIA" (network p)) = Returned nftContract ->
      getRemainingSupply env nftContract = Returned 0%N ->
      mintNFT fuel svc env p = Some (Threw (blockchainError
        "NFT minting failed: No NFTs remaining to mint")))).
Proof.
  unfold mintNFT, mintBody. split.
  - intros H.
    assert (String.eqb (walletId p) "" || String.eqb (recipientAddress p) ""
            || String.eqb (tokenURI p) "" = true) as ->; [|reflexivity].
    destruct H as [H|[H|H]]; rewrite H; cbn; rewrite ?orb_true_r; reflexivity.
  - intros Hw Hr Ht.
    apply String.eqb_neq in Hw, Hr, Ht. rewrite Hw, Hr, Ht. cbn [orb]. split.
    + intros Ha. now rewrite Ha.
    + intros Ha c Hc Hs. now rewrite Ha, Hc, Hs.
Qed.

(** X22. A mint that returns has been confirmed: the submission was
    accepted, the poller returned a status in state CONFIRMED for it,
    and the result carries the hash, gas and block of that status,
    success true and the network asked for (BASE-SEPOLIA by default);
    the recipient passed the address check. *)
Theorem mintNFT_returns_only_confirmed fuel svc env p res :
  mintNFT fuel svc env p = Some (Returned res) ->
  exists created st,
    createGaslessTransaction (submission env) = Returned created /\
    result (waitForTransaction fuel (statusProvider env) (interpolate (cr_id created))
              TRANSACTION_CONFIRMATION POLLING_INTERVAL (startTime env))
      = Done (Returned st) /\
    state st = "CONFIRMED" /\
    mr_success res = true /\
    mr_transactionHash res = txHash st /\
    mr_gasUsed res = gasUsed st /\
    mr_blockHash res = blockHash st /\
    mr_blockHeight res = blockHeight st /\
    mr_network res = default "BASE-SEPOLIA" (network p) /\
    isAddress env (recipientAddress p) = true.
Proof.
  unfold mintNFT.
  destruct (mintBody fuel svc env p) as [[r|e]|] eqn:Hbody; try discriminate.
  intros H. injection H as ->. revert Hbody. unfold mintBody.
  destruct (_ || _ || _); [discriminate|].
  destruct (isAddress env (recipientAddress p)) eqn:Ha; [|discriminate]. cbn [negb].
  destruct (getNFTContract svc _) as [c|e]; [|discriminate].
  destruct (getRemainingSupply env c) as [n|e]; [|discriminate].
  destruct (N.eqb n 0); [discriminate|].
  destruct (createGaslessTransaction (submission env)) as [created|e]; [|discriminate].
  destruct (result (waitForTransaction fuel _ _ _ _ _)) as [[st|e]|] eqn:Hrun;
    try discriminate.
  destruct (tokenIdOfConfirmed svc env (txHash st) _) as [tokenId|e]; [|discriminate].
  intros H. injection H as <-.
  exists created, st. split; [reflexivity|]. split; [exact Hrun|].
  split; [|repeat split].
  unfold waitForTransaction in Hrun.
  eapply loop_returns_confirmed. exact Hrun.
Qed.

Lemma mintNFT_returns_only_confirmed_witness :
  exists created st,
    createGaslessTransaction (submission world) = Returned created /\
    result (waitForTransaction 10 (statusProvider world) (interpolate (cr_id created))
              TRANSACTION_CONFIRMATION POLLING_INTERVAL (startTime world))
      = Done (Returned st) /\
    state st = "CONFIRMED" /\
    true = true /\
    Some "0xabc" = txHash st /\
    Some "21000" = gasUsed st /\
    None = blockHash st /\
    None = blockHeight st /\
    "BASE-SEPOLIA" = default "BASE-SEPOLIA" (network params) /\
    isAddress world (recipientAddress params) = true.
Proof.
  apply (mintNFT_returns_only_confirmed 10 baseSepolia world params
           {| mr_success := true; mr_tokenId := "pending";
              mr_transactionHash := Some "0xabc"; mr_gasUsed := Some "21000";
              mr_gasSaved := Some "0.005"; mr_blockHash := None;
              mr_blockHeight := None; mr_network := "BASE-SEPOLIA";
              mr_timestamp := "2024-01-01T00:00:00.000Z" |}).
  vm_compute. reflexivity.
Defined.

(** X23. The mint of the blockchain service always finishes: from some
    amount of fuel on it has one and the same outcome, and when that
    outcome is an error it is a BlockchainError whose message is 'NFT
    minting failed: ' followed by the message of what went wrong
    (a failed check, a rejected submission, a failed transaction or
    the poller's timeout). *)
Theorem mintNFT_finishes svc env p :
  exists n o,
    (forall fuel, (n < fuel)%nat -> mintNFT fuel svc env p = Some o) /\
    (forall e, o = Threw e ->
       err_name e = "BlockchainError" /\
       exists cause, err_message e = "NFT minting failed: " +:+ cause).
Proof.
  assert (Hwrap : forall cause e,
    @Threw NFTMintResult (blockchainError ("NFT minting failed: " +:+ cause))
      = Threw e ->
    err_name e = "BlockchainError" /\
    exists cause0, err_message e = "NFT minting failed: " +:+ cause0).
  { intros cause e H. injection H as <-. split; [reflexivity | now eexists]. }
  unfold mintNFT, mintBody.
  destruct (_ || _ || _);
    [exists 0%nat; eexists; split; [reflexivity | apply Hwrap]|].
  destruct (negb _);
    [exists 0%nat; eexists; split; [reflexivity | apply Hwrap]|].
  destruct (getNFTContract svc _) as [c|e];
    [|exists 0%nat; eexists; split; [reflexivity | apply Hwrap]].
  destruct (getRemainingSupply env c) as [supply|e];
    [|exists 0%nat; eexists; split; [reflexivity | apply Hwrap]].
  destruct (N.eqb supply 0);
    [exists 0%nat; eexists; split; [reflexivity | apply Hwrap]|].
  destruct (createGaslessTransaction (submission env)) as [created|e];
    [|exists 0%nat; eexists; split; [reflexivity | apply Hwrap]].
  destruct (PollerFacts.waitForTransaction_finishes (statusProvider env)
              (interpolate (cr_id created)) TRANSACTION_CONFIRMATION POLLING_INTERVAL
              (startTime env) eq_refl) as (n & r & finished & issued & Hrun).
  exists n.
  destruct r as [st|e].
  - destruct (tokenIdOfConfirmed_returns svc env (txHash st)
                (default "BASE-SEPOLIA" (network p))) as [tokenId Htok].
    eexists. split.
    + intros fuel Hf. rewrite (Hrun fuel Hf). cbn [result]. rewrite Htok. reflexivity.
    + discriminate.
  - eexists. split.
    + intros fuel Hf. rewrite (Hrun fuel Hf). reflexivity.
    + apply Hwrap.
Qed.

(** X24. A failed gas estimate never fails the mint: the outcome of
    [mintNFT] does not depend on what the estimate request answers,
    except for the gasSaved field of a returned result, which is the
    estimated cost of the answer and '0.005' when the request is
    rejected or answers without data. *)
Theorem mintNFT_tolerates_failed_estimate fuel svc env p answer :
  mintNFT fuel svc (withEstimate answer env) p =
    match mintNFT fuel svc env p with
    | Some (Returned r) =>
        Some (Returned
          {| mr_success := mr_success r;
             mr_tokenId := mr_tokenId r;
             mr_transactionHash := mr_transactionHash r;
             mr_gasUsed := mr_gasUsed r;
             mr_gasSaved :=
               match answer with
               | Resolved (Some d) => ed_estimatedCost d
               | _ => Some "0.005"
               end;
             mr_blockHash := mr_blockHash r;
             mr_blockHeight := mr_blockHeight r;
             mr_network := mr_network r;
             mr_timestamp := mr_timestamp r |})
    | other => other
    end.
Proof.
  unfold mintNFT, mintBody, withEstimate, tokenIdOfConfirmed.
  cbn [isAddress getRemainingSupply estimate submission statusProvider startTime rpc
       receiptOfMissingHash toISOString].
  destruct (_ || _ || _); [reflexivity|].
  destruct (negb _); [reflexivity|].
  destruct (getNFTContract svc _) as [c|e]; [|reflexivity].
  destruct (getRemainingSupply env c) as [supply|e]; [|reflexivity].
  destruct (N.eqb supply 0); [reflexivity|].
  destruct (createGaslessTransaction (submission env)) as [created|e]; [|reflexivity].
  destruct (result (waitForTransaction fuel _ _ _ _ _)) as [[st|e]|]; try reflexivity.
  destruct (txHash st) as [h|].
  - destruct (getTokenIdFromTransaction svc (rpc env) h _) as [tokenId|e];
      [|reflexivity].
    destruct answer as [[d|]|rm m]; reflexivity.
  - destruct (getTokenIdFromTransaction svc _ "" _) as [tokenId|e]; [|reflexivity].
    destruct answer as [[d|]|rm m]; reflexivity.
Qed.

End PipelineFacts.

(** ** The second backend *)

Module Backend2Facts.
Import Nft Backend2.

(** X27. With the two chains of its configuration file (base and
    polygon), the second backend has no configuration for a mint on
    ETH-SEPOLIA or ETH, although its mapping knows them: the lookup
    that [mintNFT] starts with throws Error('Unsupported blockchain:
    ethereum'). MATIC-AMOY and MATIC get the polygon configuration,
    and every other name gets the base configuration: also 'polygon',
    which the mapping does not know. (Names inherited from
    Object.prototype are left out.) *)
Theorem configFor_has_no_ethereum cfg base polygon blockchain :
  Nft.blockchains cfg = Backend2.blockchains base polygon ->
  inherited blockchain = false ->
  configFor cfg blockchain =
    if String.eqb blockchain "ETH-SEPOLIA" || String.eqb blockchain "ETH"
    then Threw (newError "Unsupported blockchain: ethereum")
    else if String.eqb blockchain "MATIC-AMOY" || String.eqb blockchain "MATIC"
    then Returned polygon
    else Returned base.
Proof.
  intros Hcfg _. unfold configFor, getBlockchainConfig, mapToInternalBlockchain.
  rewrite Hcfg. unfold Backend2.blockchains.
  destruct (String.eqb blockchain "BASE-SEPOLIA") eqn:E1.
  { apply String.eqb_eq in E1. subst. reflexivity. }
  destruct (String.eqb blockchain "MATIC-AMOY") eqn:E2.
  { apply String.eqb_eq in E2. subst. reflexivity. }
  destruct (String.eqb blockchain "ETH-SEPOLIA") eqn:E3.
  { apply String.eqb_eq in E3. subst. reflexivity. }
  destruct (String.eqb blockchain "BASE") eqn:E4.
  { apply String.eqb_eq in E4. subst. reflexivity. }
  destruct (String.eqb blockchain "MATIC") eqn:E5.
  { apply String.eqb_eq in E5. subst. reflexivity. }
  destruct (String.eqb blockchain "ETH") eqn:E6.
  { apply String.eqb_eq in E6. subst. reflexivity. }
  reflexivity.
Qed.

Lemma configFor_has_no_ethereum_witness :
  configFor Backend2.cfg "ETH-SEPOLIA"
    = Threw (newError "Unsupported blockchain: ethereum") /\
  configFor Backend2.cfg "polygon" = Returned CircleOps.base.
Proof.
  split.
  - apply (configFor_has_no_ethereum Backend2.cfg CircleOps.base Backend2.polygon
             "ETH-SEPOLIA"); reflexivity.
  - apply (configFor_has_no_ethereum Backend2.cfg CircleOps.base Backend2.polygon
             "polygon"); reflexivity.
Defined.

End Backend2Facts.
